(** * expenses: statement-line parsing, merchant/category store, category sums

    A shallow embedding of the parts of the expense manager that decide how
    a statement line becomes a transaction ([pdf_parser.py], and the older
    revision of the parser kept in [database_manager.py]), how the import
    substitutes the statement period ([app.py], [load_statement]) and how the
    SQLite-backed store resolves merchants, deletes categories and sums
    amounts per category ([database_manager.py]).

    Conventions of the model.
    - A Python [str] is a list of code points; the model covers the Latin-1
      range (one [ascii] per code point), which holds every character the
      regular expressions of the parser name explicitly.
    - A regular expression is embedded as the matcher it denotes; where the
      greedy choice is the only one that can succeed, the comment on the
      matcher says why.
    - An amount is carried as its exact decimal value in hundredths (a [Z]):
      the parser only ever builds amounts from a string with two decimals.
      Python stores the nearest double of that value; negating it is exact.
      Adding doubles is not: what SQLite's [SUM] makes of stored amounts is
      no sum of hundredths.
    - A table is the list of its rows in rowid order; a query is the list
      its [SELECT] denotes.  Where SQL leaves a result open -- the value of
      [SUM] over [REAL] amounts, the order of rows with equal [ORDER BY]
      keys -- the model leaves it open too: it is taken from a parameter,
      the engine, of which only what SQL states is known.
    - An integer column holds an integer of 64 bits, and [sqlite3] binds no
      other: given a wider one, [execute] raises [OverflowError] before the
      statement runs.  The operations are modelled on the integers SQLite
      binds; a theorem about an id that is not taken from a table says so.
    - An exception is a value of [exn]; a call either returns or raises, and
      the state of the connection after it is part of the result.
    - [datetime.date.today().year] is a parameter, [today_year]. *)

From Stdlib Require Import Ascii String.
From Stdlib Require Import List ZArith Lia Bool Arith PeanoNat.
From Stdlib Require Import Permutation Sorting.Sorted.
Import ListNotations.

Set Implicit Arguments.

(** ** Python values shared by the modules *)

Definition text := list ascii.

(** A string literal of the source as a [text]. *)
Definition T (s : string) : text := list_ascii_of_string s.

(** The exceptions of the program, by class; the message of a [ValueError]
    is not part of the model. *)
Inductive exn : Type :=
| ValueError
| TypeError
| IntegrityError.

(** ** [str] primitives *)

Module Str.

Definition code (c : ascii) : N := N_of_ascii c.

Definition chr_eqb (a b : ascii) : bool := Ascii.eqb a b.

(** [str.isspace] on one character, also the class [\s] of [re]: both go
    through the same table, which in Latin-1 holds U+0009..U+000D,
    U+001C..U+0020, U+0085 and U+00A0. *)
Definition isspace (c : ascii) : bool :=
  let n := code c in
  (((9 <=? n) && (n <=? 13)) || ((28 <=? n) && (n <=? 32))
   || (n =? 133) || (n =? 160))%N.

(** The class [\d]; the only decimal digits of Latin-1 are [0-9]. *)
Definition isdigit (c : ascii) : bool :=
  let n := code c in ((48 <=? n) && (n <=? 57))%N.

Definition digit_value (c : ascii) : Z := Z.of_N (code c) - 48.

(** [int(s)] for a string of decimal digits. *)
Definition int (s : text) : Z :=
  fold_left (fun acc c => 10 * acc + digit_value c)%Z s 0%Z.

(** [str.lower] on one character of Latin-1. *)
Definition lower_chr (c : ascii) : ascii :=
  let n := code c in
  if (((65 <=? n) && (n <=? 90))
      || ((192 <=? n) && (n <=? 222) && negb (n =? 215)))%N
  then ascii_of_N (n + 32) else c.

Definition lower (s : text) : text := map lower_chr s.

Fixpoint text_eqb (a b : text) : bool :=
  match a, b with
  | [], [] => true
  | x :: a', y :: b' => chr_eqb x y && text_eqb a' b'
  | _, _ => false
  end.

(** Longest prefix whose characters satisfy [p], and what follows it. *)
Fixpoint span (p : ascii -> bool) (s : text) : text * text :=
  match s with
  | [] => ([], [])
  | c :: r =>
      if p c then let (a, b) := span p r in (c :: a, b) else ([], s)
  end.

Fixpoint lstrip (s : text) : text :=
  match s with
  | [] => []
  | c :: r => if isspace c then lstrip r else s
  end.

Definition rstrip (s : text) : text := rev (lstrip (rev s)).

(** [s.strip()] *)
Definition strip (s : text) : text := lstrip (rstrip s).

(** [c in s] for a single character [c]. *)
Definition contains (c : ascii) (s : text) : bool := existsb (chr_eqb c) s.

(** [s.replace(a, b)] for single characters. *)
Definition replace_chr (a b : ascii) (s : text) : text :=
  map (fun c => if chr_eqb c a then b else c) s.

(** [s.replace(a, '')] for a single character. *)
Definition remove_chr (a : ascii) (s : text) : text :=
  filter (fun c => negb (chr_eqb c a)) s.

(** [s[i:j]] for [0 <= i <= j]. *)
Definition slice (i j : nat) (s : text) : text := firstn (j - i) (skipn i s).

(** [s.split(sep, 1)[1]] when [sep] occurs in [s]: what follows the first
    occurrence. *)
Fixpoint after_first (sep : ascii) (s : text) : text :=
  match s with
  | [] => []
  | c :: r => if chr_eqb c sep then r else after_first sep r
  end.

End Str.

(** ** [datetime.date] *)

Record date : Type := Date { year : Z; month : Z; day : Z }.

Module Datetime.
Open Scope Z_scope.

Definition is_leap (y : Z) : bool :=
  (y mod 4 =? 0) && (negb (y mod 100 =? 0) || (y mod 400 =? 0)).

Definition days_in_month (y m : Z) : Z :=
  if m =? 2 then (if is_leap y then 29 else 28)
  else if (m =? 4) || (m =? 6) || (m =? 9) || (m =? 11) then 30
  else 31.

(** The range check of the constructor [datetime.date(y, m, d)]. *)
Definition valid (y m d : Z) : bool :=
  (1 <=? y) && (y <=? 9999) && (1 <=? m) && (m <=? 12)
  && (1 <=? d) && (d <=? days_in_month y m).

(** [datetime.date(y, m, d)]: the date, or [ValueError]. *)
Definition date_new (y m d : Z) : option date :=
  if valid y m d then Some (Date y m d) else None.

End Datetime.

(** ** transaction.py *)

Record Transaction : Type := mkTransaction {
  tx_date : date;
  store_name : text;
  amount : Z;                       (* hundredths *)
  installment_number : option Z
}.

(** ** pdf_parser.py *)

Module PDFParser.
Import Str.
Open Scope char_scope.

(** [\d{1,2}], greedy, at the head of [s]: the digits taken (none when the
    head is no digit) and the rest. *)
Definition digits12 (s : text) : text * text :=
  match s with
  | c1 :: r1 =>
      if isdigit c1 then
        match r1 with
        | c2 :: r2 => if isdigit c2 then ([c1; c2], r2) else ([c1], r1)
        | [] => ([c1], [])
        end
      else ([], s)
  | [] => ([], [])
  end.

Definition is_date_sep (c : ascii) : bool := chr_eqb c "/" || chr_eqb c "-".

(** [DATE_PATTERN = ^(\d{1,2}[/-]\d{1,2})], as [DATE_PATTERN.match(line)]:
    the two numbers of group 1 and [line[m.end():]].  Giving a digit back
    never helps: the character after a shortened first number is a digit,
    not a separator. *)
Definition DATE_PATTERN (line : text) : option (text * text * text) :=
  let (d, r1) := digits12 line in
  match d, r1 with
  | _ :: _, sep :: r2 =>
      if is_date_sep sep then
        let (mn, r3) := digits12 r2 in
        match mn with
        | _ :: _ => Some (d, mn, r3)
        | [] => None
        end
      else None
  | _, _ => None
  end.

(** The class [[A-Za-zÁÉÍÓÚáéíóúÜü\.]]. *)
Definition is_month_chr (c : ascii) : bool :=
  let n := code c in
  (((65 <=? n) && (n <=? 90)) || ((97 <=? n) && (n <=? 122))
   || (n =? 46)
   || (n =? 193) || (n =? 201) || (n =? 205) || (n =? 211) || (n =? 218)
   || (n =? 225) || (n =? 233) || (n =? 237) || (n =? 243) || (n =? 250)
   || (n =? 220) || (n =? 252))%N.

(** [MONTH_PATTERN = ^(\d{1,2})\s+([A-Za-zÁÉÍÓÚáéíóúÜü\.]+)], as
    [MONTH_PATTERN.match(line)]: group 1, group 2 and [line[m2.end():]].
    The three parts use disjoint classes, so the greedy choice is the only
    one that can match. *)
Definition MONTH_PATTERN (line : text) : option (text * text * text) :=
  let (d, r1) := digits12 line in
  match d with
  | _ :: _ =>
      let (ws, r2) := span isspace r1 in
      match ws with
      | _ :: _ =>
          let (name, r3) := span is_month_chr r2 in
          match name with
          | _ :: _ => Some (d, name, r3)
          | [] => None
          end
      | [] => None
      end
  | [] => None
  end.

Definition MONTH_NAMES : list (text * Z) :=
  [ (T "ene", 1); (T "feb", 2); (T "mar", 3); (T "abr", 4); (T "may", 5);
    (T "jun", 6); (T "jul", 7); (T "ago", 8); (T "sep", 9); (T "oct", 10);
    (T "nov", 11); (T "dic", 12) ]%Z.

(** [MONTH_NAMES.get(k)] *)
Definition MONTH_NAMES_get (k : text) : option Z :=
  match find (fun kv => text_eqb (fst kv) k) MONTH_NAMES with
  | Some kv => Some (snd kv)
  | None => None
  end.

Definition is_digit_or_dot (c : ascii) : bool := isdigit c || chr_eqb c ".".

(** [AMOUNT_PATTERN = \d[\d\.]*,\d{2}-?] matched at the head of [s]: the
    length of the match.  The run [[\d\.]*] is taken whole: a shorter run
    is followed by a digit or a period, not by the comma. *)
Definition AMOUNT_PATTERN_here (s : text) : option nat :=
  match s with
  | c :: r =>
      if isdigit c then
        let (run, r1) := span is_digit_or_dot r in
        match r1 with
        | "," :: d1 :: d2 :: r2 =>
            if isdigit d1 && isdigit d2 then
              Some (1 + length run + 3
                    + match r2 with
                      | "-" :: _ => 1
                      | _ => 0
                      end)%nat
            else None
        | _ => None
        end
      else None
  | [] => None
  end.

(** The optional trailing [-] of the pattern, seen at the head of what
    follows the two decimals. *)
Definition minus_tail (r : text) : text :=
  match r with
  | "-" :: _ => ["-"]
  | _ => []
  end.

(** [AMOUNT_PATTERN.finditer(rest)]: the matches, left to right, each as
    [(start, end)].  The scan tries every position in turn and resumes at
    the end of a match; [skip] counts the characters of the last match
    still to be passed. *)
Fixpoint finditer_from (pos skip : nat) (s : text) : list (nat * nat) :=
  match s with
  | [] => []
  | _ :: r =>
      match skip with
      | S k => finditer_from (S pos) k r
      | O =>
          match AMOUNT_PATTERN_here s with
          | Some len => (pos, pos + len)%nat :: finditer_from (S pos) (len - 1) r
          | None => finditer_from (S pos) 0 r
          end
      end
  end.

Definition AMOUNT_PATTERN_finditer (rest : text) : list (nat * nat) :=
  finditer_from 0 0 rest.

(** [amt_m = None; for am in finditer(rest): amt_m = am] *)
Definition last_amount_match (rest : text) : option (nat * nat) :=
  fold_left (fun _ am => Some am) (AMOUNT_PATTERN_finditer rest) None.

Definition is_C (c : ascii) : bool := chr_eqb c "C" || chr_eqb c "c".

(** [INSTALL_PATTERN = C\.?\s*(\d{1,2})/(\d{1,2})] with [re.IGNORECASE],
    matched at the head of [s]: group 1. *)
Definition INSTALL_PATTERN_here (s : text) : option text :=
  match s with
  | c :: r =>
      if is_C c then
        let r1 := match r with
                  | "." :: r' => r'
                  | _ => r
                  end in
        let (_, r2) := span isspace r1 in
        let (g1, r3) := digits12 r2 in
        match g1, r3 with
        | _ :: _, "/" :: r4 =>
            let (g2, _) := digits12 r4 in
            match g2 with
            | _ :: _ => Some g1
            | [] => None
            end
        | _, _ => None
        end
      else None
  | [] => None
  end.

(** [INSTALL_PATTERN.search(desc)]: [im.start()] and group 1 of the first
    match. *)
Fixpoint INSTALL_PATTERN_search_from (pos : nat) (s : text) : option (nat * text) :=
  match INSTALL_PATTERN_here s with
  | Some g1 => Some (pos, g1)
  | None =>
      match s with
      | [] => None
      | _ :: r => INSTALL_PATTERN_search_from (S pos) r
      end
  end.

Definition INSTALL_PATTERN_search (desc : text) : option (nat * text) :=
  INSTALL_PATTERN_search_from 0 desc.

(** [float(clean)] on what [clean] can be: the digits of an amount match
    with a decimal point before its last two digits, and a trailing [-]
    when the match ends in one.  Digits, a point and two digits give the
    decimal value (here in hundredths); a character after the number that
    is not white space is a [ValueError]. *)
Definition float (clean : text) : option Z :=
  let (ip, r) := span isdigit clean in
  match ip, r with
  | _ :: _, "." :: d1 :: d2 :: [] =>
      if isdigit d1 && isdigit d2 then Some (100 * int ip + int [d1; d2])%Z
      else None
  | _, _ => None
  end.

(** The outcome of the loop body of [parse_pdf] for one line. *)
Inductive outcome : Type :=
| Skipped                       (* [continue] *)
| Emitted (t : Transaction)     (* [transactions.append(...)] *)
| Raised (e : exn).             (* an exception leaves [parse_pdf] *)

(** The numeric short date of the body: everything sits in the [try], and
    the bare [except] leaves [date] and [rest] at [None]. *)
Definition numeric_date (today_year : Z) (line : text) : option (date * text) :=
  match DATE_PATTERN line with
  | Some (d, mn, tail) =>
      match Datetime.date_new today_year (int mn) (int d) with
      | Some dt => Some (dt, strip tail)
      | None => None
      end
  | None => None
  end.

(** The day and month-name date of the body; [datetime.date] is called
    outside any [try] here. *)
Definition month_name_date (today_year : Z) (line : text)
  : exn + option (date * text) :=
  match MONTH_PATTERN line with
  | Some (d, name, tail) =>
      match MONTH_NAMES_get (firstn 3 (lower name)) with
      | Some mn =>
          if (mn =? 0)%Z then inr None
          else
            match Datetime.date_new today_year mn (int d) with
            | Some dt => inr (Some (dt, strip tail))
            | None => inl ValueError
            end
      | None => inr None
      end
  | None => inr None
  end.

(** [amt_m.start() > 0 and rest[amt_m.start()-1] == '-'] *)
Definition preceded_by_minus (rest : text) (start : nat) : bool :=
  negb (start =? 0)%nat
  && match nth_error rest (start - 1) with
     | Some c => chr_eqb c "-"
     | None => false
     end.

(** [neg]: the sign inside the match, or just before it. *)
Definition amount_is_negative (rest : text) (am : nat * nat) : bool :=
  contains "-" (slice (fst am) (snd am) rest)
  || preceded_by_minus rest (fst am).

Definition clean_amount (amt_str : text) : text :=
  replace_chr "," "." (remove_chr "." amt_str).

Definition signed_amount (rest : text) (am : nat * nat) : option Z :=
  match float (clean_amount (slice (fst am) (snd am) rest)) with
  | Some v => Some (if amount_is_negative rest am then (- v)%Z else v)
  | None => None
  end.

Definition description (rest : text) (am : nat * nat) : text * option Z :=
  let desc := strip (firstn (fst am) rest) in
  let (inst, desc1) :=
    match INSTALL_PATTERN_search desc with
    | Some (start, g1) => (Some (int g1), strip (firstn start desc))
    | None => (None, desc)
    end in
  let desc2 := if contains "*" desc1 then strip (after_first "*" desc1)
               else desc1 in
  (desc2, inst).

(** The two date forms in the order of the body: the date and [rest]. *)
Definition find_date (today_year : Z) (line : text) : exn + option (date * text) :=
  match numeric_date today_year line with
  | Some dr => inr (Some dr)
  | None => month_name_date today_year line
  end.

(** The body from the amount scan on, for a line with a date and a
    non-empty [rest]: the transaction, or [None] for [continue]. *)
Definition transaction_of (orig : text) (dt : date) (rest : text)
  : option Transaction :=
  match last_amount_match rest with
  | None => None
  | Some am =>
      match signed_amount rest am with
      | None => None
      | Some amt =>
          let (desc, inst) := description rest am in
          Some (mkTransaction dt
                  (match desc with
                   | [] => orig
                   | _ :: _ => desc
                   end)
                  amt inst)
      end
  end.

Definition parse_line (today_year : Z) (orig : text) : outcome :=
  let line := strip orig in
  match line with
  | [] => Skipped
  | _ :: _ =>
      match find_date today_year line with
      | inl e => Raised e
      | inr None => Skipped
      | inr (Some (dt, rest)) =>
          match rest with
          | [] => Skipped
          | _ :: _ =>
              match transaction_of orig dt rest with
              | Some t => Emitted t
              | None => Skipped
              end
          end
      end
  end.

(** [parse_pdf] from the extracted lines on: the transactions in line
    order, or the first exception. *)
Fixpoint parse_lines (today_year : Z) (lines : list text)
  : exn + list Transaction :=
  match lines with
  | [] => inr []
  | l :: ls =>
      match parse_line today_year l with
      | Raised e => inl e
      | Skipped => parse_lines today_year ls
      | Emitted t =>
          match parse_lines today_year ls with
          | inl e => inl e
          | inr ts => inr (t :: ts)
          end
      end
  end.

End PDFParser.

(** ** The single-file revision kept after the store in database_manager.py

    The file also carries an older revision of the whole program, with its
    own [PDFParser.parse_pdf].  It shares the numeric date form, the amount
    scan and the installment marker with pdf_parser.py; the date forms with
    a month name and the cleaning of the description differ. *)

Module Revision4.
Import Str PDFParser.
Open Scope char_scope.

Definition MONTH_NAMES : list (text * Z) :=
  [ (T "enero", 1); (T "ene", 1); (T "ene.", 1);
    (T "febrero", 2); (T "feb", 2); (T "feb.", 2);
    (T "marzo", 3); (T "mar", 3); (T "mar.", 3);
    (T "abril", 4); (T "abr", 4); (T "abr.", 4);
    (T "mayo", 5); (T "may", 5); (T "may.", 5);
    (T "junio", 6); (T "jun", 6); (T "jun.", 6);
    (T "julio", 7); (T "jul", 7); (T "jul.", 7);
    (T "agosto", 8); (T "ago", 8); (T "ago.", 8);
    (T "septiembre", 9); (T "setiembre", 9); (T "sept", 9); (T "sep", 9);
    (T "sept.", 9); (T "sep.", 9);
    (T "octubre", 10); (T "oct", 10); (T "oct.", 10);
    (T "noviembre", 11); (T "nov", 11); (T "nov.", 11);
    (T "diciembre", 12); (T "dic", 12); (T "dic.", 12);
    (T "diciem.", 12); (T "diciem", 12) ]%Z.

Definition MONTH_NAMES_get (k : text) : option Z :=
  match find (fun kv => text_eqb (fst kv) k) MONTH_NAMES with
  | Some kv => Some (snd kv)
  | None => None
  end.

Fixpoint drop_periods (s : text) : text :=
  match s with
  | "." :: r => drop_periods r
  | _ => s
  end.

(** [s.rstrip('.')] *)
Definition rstrip_periods (s : text) : text := rev (drop_periods (rev s)).

(** The class [[A-Za-zÁÉÍÓÚáéíóúÜü]]. *)
Definition is_letter (c : ascii) : bool := is_month_chr c && negb (chr_eqb c ".").

(** [\d{2,4}], greedy, at the head of [s]. *)
Definition digits24 (s : text) : text * text :=
  let (a, r) := digits12 s in
  match a with
  | [_; _] => let (b, r') := digits12 r in (a ++ b, r')
  | _ => ([], s)
  end.

(** [^(\d{1,2})-([A-Za-zÁÉÍÓÚáéíóúÜü]{3})-(\d{2,4})], as [re.match]: the
    three groups and [line[hy.end():]]. *)
Definition HYPHEN_PATTERN (line : text) : option (text * text * text * text) :=
  let (d, r1) := digits12 line in
  match d, r1 with
  | _ :: _, "-" :: l1 :: l2 :: l3 :: "-" :: r2 =>
      if is_letter l1 && is_letter l2 && is_letter l3 then
        let (y, r3) := digits24 r2 in
        match y with
        | _ :: _ => Some (d, [l1; l2; l3], y, r3)
        | [] => None
        end
      else None
  | _, _ => None
  end.

Definition month_name_date (today_year : Z) (line : text)
  : exn + option (date * text) :=
  match MONTH_PATTERN line with
  | Some (d, name, tail) =>
      match MONTH_NAMES_get (lower (rstrip_periods name)) with
      | Some mn =>
          if (mn =? 0)%Z then inr None
          else
            match Datetime.date_new today_year mn (int d) with
            | Some dt => inr (Some (dt, strip tail))
            | None => inl ValueError
            end
      | None => inr None
      end
  | None => inr None
  end.

Definition hyphen_date (line : text) : exn + option (date * text) :=
  match HYPHEN_PATTERN line with
  | Some (d, mon, yearp, tail) =>
      match MONTH_NAMES_get (lower mon) with
      | Some mn =>
          if (mn =? 0)%Z then inr None
          else
            let y := if (length yearp =? 4)%nat then int yearp
                     else (2000 + int yearp)%Z in
            match Datetime.date_new y mn (int d) with
            | Some dt => inr (Some (dt, strip tail))
            | None => inl ValueError
            end
      | None => inr None
      end
  | None => inr None
  end.

(** The three date forms in the order of the body.  The numeric form keeps
    its [rest] when the date is refused, but then no later form matches the
    line, and the line is skipped for want of a date. *)
Definition find_date (today_year : Z) (line : text) : exn + option (date * text) :=
  match numeric_date today_year line with
  | Some dr => inr (Some dr)
  | None =>
      match month_name_date today_year line with
      | inl e => inl e
      | inr (Some dr) => inr (Some dr)
      | inr None => hyphen_date line
      end
  end.

(** [s.split()]: the runs of characters that are not white space; [cur] is
    the run being read, last character first. *)
Fixpoint split_from (cur : text) (s : text) : list text :=
  match s with
  | [] =>
      match cur with
      | [] => []
      | _ :: _ => [rev cur]
      end
  | c :: r =>
      if isspace c then
        match cur with
        | [] => split_from [] r
        | _ :: _ => rev cur :: split_from [] r
        end
      else split_from (c :: cur) r
  end.

Definition split (s : text) : list text := split_from [] s.

(** [' '.join(toks)] *)
Fixpoint join (toks : list text) : text :=
  match toks with
  | [] => []
  | [t] => t
  | t :: r => t ++ " " :: join r
  end.

(** The loop that drops the leading tokens made of digits only. *)
Fixpoint drop_numeric (toks : list text) : list text :=
  match toks with
  | [] => []
  | t :: r => if forallb isdigit t then drop_numeric r else toks
  end.

Definition description (rest : text) (am : nat * nat) : text * option Z :=
  let (desc2, inst) := PDFParser.description rest am in
  (join (drop_numeric (split desc2)), inst).

Definition transaction_of (orig : text) (dt : date) (rest : text)
  : option Transaction :=
  match last_amount_match rest with
  | None => None
  | Some am =>
      match signed_amount rest am with
      | None => None
      | Some amt =>
          let (desc, inst) := description rest am in
          Some (mkTransaction dt
                  (match desc with
                   | [] => strip orig
                   | _ :: _ => desc
                   end)
                  amt inst)
      end
  end.

Definition parse_line (today_year : Z) (orig : text) : outcome :=
  let line := strip orig in
  match line with
  | [] => Skipped
  | _ :: _ =>
      match find_date today_year line with
      | inl e => Raised e
      | inr None => Skipped
      | inr (Some (dt, rest)) =>
          match rest with
          | [] => Skipped
          | _ :: _ =>
              match transaction_of orig dt rest with
              | Some t => Emitted t
              | None => Skipped
              end
          end
      end
  end.

Fixpoint parse_lines (today_year : Z) (lines : list text)
  : exn + list Transaction :=
  match lines with
  | [] => inr []
  | l :: ls =>
      match parse_line today_year l with
      | Raised e => inl e
      | Skipped => parse_lines today_year ls
      | Emitted t =>
          match parse_lines today_year ls with
          | inl e => inl e
          | inr ts => inr (t :: ts)
          end
      end
  end.

End Revision4.

(** ** database_manager.py *)

(** A call on the store returns a value or raises; the connection's state
    after the call is returned in both cases. *)
Inductive result (A : Type) : Type :=
| Ok (a : A)
| Raise (e : exn).
Arguments Ok {A} a.
Arguments Raise {A} e.

Module DatabaseManager.
Import Str.
Open Scope Z_scope.

(** The four tables of [_create_tables]; a table is the list of its rows
    in rowid order. *)
Record category_row : Type := mkCategory {
  c_id : Z;
  c_name : text
}.

Record store_row : Type := mkStore {
  s_id : Z;
  s_name : text;
  s_category_id : option Z          (* [category_id INTEGER], nullable *)
}.

Record statement_row : Type := mkStatement {
  st_id : Z;
  st_month : Z;
  st_year : Z;
  st_card_name : text;
  st_last4digits : text;
  st_file_path : option text
}.

Record transaction_row : Type := mkRow {
  t_id : Z;
  t_statement_id : Z;
  t_date : date;                    (* stored as [date.isoformat()] *)
  t_store_id : Z;
  t_amount : Z;
  t_installment_number : option Z
}.

(** The tables and, for the [AUTOINCREMENT] keys, the largest rowid each
    table has ever held ([sqlite_sequence]). *)
Record db : Type := mkDb {
  categories : list category_row;
  stores : list store_row;
  statements : list statement_row;
  transactions : list transaction_row;
  seq_categories : Z;
  seq_stores : Z;
  seq_statements : Z;
  seq_transactions : Z
}.

Definition M (A : Type) : Type := db -> result A * db.

Definition ret {A : Type} (a : A) : M A := fun d => (Ok a, d).
Definition raise {A : Type} (e : exn) : M A := fun d => (Raise e, d).
Definition bind {A B : Type} (m : M A) (k : A -> M B) : M B :=
  fun d => match m d with
           | (Ok a, d') => k a d'
           | (Raise e, d') => (Raise e, d')
           end.

Notation "x <- m ;; k" := (bind m (fun x => k))
  (at level 61, m at next level, right associativity).

Definition NO_ASIGNADA : text := T "NO ASIGNADA".

(** The rowid an [AUTOINCREMENT] insert gets: one more than the largest
    the table has ever held. *)
Definition next_id (seq : Z) (ids : list Z) : Z := 1 + fold_left Z.max ids seq.

Definition opt_is (o : option Z) (v : Z) : bool :=
  match o with
  | Some x => x =? v
  | None => false
  end.

Definition empty_db : db := mkDb [] [] [] [] 0 0 0 0.

Definition insert_category (name : text) (d : db) : db :=
  let i := next_id (seq_categories d) (map c_id (categories d)) in
  mkDb (categories d ++ [mkCategory i name]) (stores d) (statements d)
       (transactions d) i (seq_stores d) (seq_statements d)
       (seq_transactions d).

Definition has_category_named (name : text) (d : db) : bool :=
  existsb (fun c => text_eqb (c_name c) name) (categories d).

Definition _ensure_default_category (d : db) : db :=
  if has_category_named NO_ASIGNADA d then d else insert_category NO_ASIGNADA d.

Definition is_cash_statement (s : statement_row) : bool :=
  (st_year s =? 1900) && (st_month s =? 1)
  && text_eqb (st_card_name s) (T "EFECTIVO") && text_eqb (st_last4digits s) [].

Definition insert_statement (month year : Z) (card_name last4digits : text)
           (file_path : option text) (d : db) : Z * db :=
  let i := next_id (seq_statements d) (map st_id (statements d)) in
  (i, mkDb (categories d) (stores d)
           (statements d ++ [mkStatement i month year card_name last4digits file_path])
           (transactions d) (seq_categories d) (seq_stores d) i
           (seq_transactions d)).

Definition _ensure_cash_statement (d : db) : db :=
  if existsb is_cash_statement (statements d) then d
  else snd (insert_statement 1 1900 (T "EFECTIVO") [] None d).

(** [DatabaseManager.__init__] on a database file that holds [d] (the
    empty database for a new file). *)
Definition init (d : db) : db := _ensure_cash_statement (_ensure_default_category d).

(** [c.fetchone()[0]]: subscripting [None] is a [TypeError]. *)
Definition get_default_category_id : M Z :=
  fun d =>
    match find (fun c => text_eqb (c_name c) NO_ASIGNADA) (categories d) with
    | Some c => (Ok (c_id c), d)
    | None => (Raise TypeError, d)
    end.

Definition add_category (name : text) : M unit :=
  fun d =>
    if has_category_named name d
    then (Raise ValueError, d)
    else (Ok tt, insert_category name d).

(** [UPDATE stores SET category_id=? WHERE category_id=?] *)
Definition move_stores (from to : Z) (d : db) : db :=
  mkDb (categories d)
       (map (fun s => if opt_is (s_category_id s) from
                      then mkStore (s_id s) (s_name s) (Some to) else s)
            (stores d))
       (statements d) (transactions d) (seq_categories d) (seq_stores d)
       (seq_statements d) (seq_transactions d).

(** [DELETE FROM categories WHERE id=?] *)
Definition remove_category (cid : Z) (d : db) : db :=
  mkDb (filter (fun c => negb (c_id c =? cid)) (categories d))
       (stores d) (statements d) (transactions d) (seq_categories d)
       (seq_stores d) (seq_statements d) (seq_transactions d).

Definition delete_category (cid : Z) : M unit :=
  default <- get_default_category_id ;;
  if cid =? default
  then raise ValueError
  else fun d => (Ok tt, remove_category cid (move_stores cid default d)).

Definition insert_store (name : text) (cid : Z) (d : db) : Z * db :=
  let i := next_id (seq_stores d) (map s_id (stores d)) in
  (i, mkDb (categories d) (stores d ++ [mkStore i name (Some cid)])
           (statements d) (transactions d) (seq_categories d) i
           (seq_statements d) (seq_transactions d)).

Definition get_store_id (name : text) : M Z :=
  fun d =>
    match find (fun s => text_eqb (s_name s) name) (stores d) with
    | Some s => (Ok (s_id s), d)
    | None =>
        (default <- get_default_category_id ;;
         fun d' => let (i, d'') := insert_store name default d' in (Ok i, d'')) d
    end.

Definition has_category (cid : Z) (d : db) : bool :=
  existsb (fun c => c_id c =? cid) (categories d).

Definition has_store (sid : Z) (d : db) : bool :=
  existsb (fun s => s_id s =? sid) (stores d).

Definition has_statement (sid : Z) (d : db) : bool :=
  existsb (fun s => st_id s =? sid) (statements d).

(** [UPDATE stores SET category_id=? WHERE id=?]; with [foreign_keys=ON] a
    category id that no row of [categories] carries makes the statement
    fail when it changes a row. *)
Definition update_store_category (sid cid : Z) : M unit :=
  fun d =>
    if has_store sid d && negb (has_category cid d)
    then (Raise IntegrityError, d)
    else (Ok tt,
          mkDb (categories d)
               (map (fun s => if s_id s =? sid
                              then mkStore (s_id s) (s_name s) (Some cid) else s)
                    (stores d))
               (statements d) (transactions d) (seq_categories d)
               (seq_stores d) (seq_statements d) (seq_transactions d)).

(** The rows of
    [SELECT c.id,c.name FROM stores s JOIN categories c
     ON s.category_id=c.id WHERE s.id=?]. *)
Definition store_category_rows (sid : Z) (d : db) : list (Z * text) :=
  flat_map
    (fun s =>
       if s_id s =? sid then
         flat_map (fun c => if opt_is (s_category_id s) (c_id c)
                            then [(c_id c, c_name c)] else [])
                  (categories d)
       else [])
    (stores d).

(** [c.fetchone() or (self.get_default_category_id(), "NO ASIGNADA")]: a
    row is a non-empty tuple, hence true.  [sid] is an integer [sqlite3]
    binds (64 bits); on any other, [execute] raises [OverflowError] and the
    query does not run. *)
Definition get_store_category (sid : Z) : M (Z * text) :=
  fun d =>
    match store_category_rows sid d with
    | row :: _ => (Ok row, d)
    | [] => (default <- get_default_category_id ;; ret (default, NO_ASIGNADA)) d
    end.

Definition same_statement_key (month year : Z) (card_name last4digits : text)
           (s : statement_row) : bool :=
  (st_month s =? month) && (st_year s =? year)
  && text_eqb (st_card_name s) card_name
  && text_eqb (st_last4digits s) last4digits.

Definition add_statement (month year : Z) (card_name last4digits file_path : text)
  : M Z :=
  fun d =>
    if existsb (same_statement_key month year card_name last4digits) (statements d)
    then (Raise ValueError, d)
    else let (i, d') := insert_statement month year card_name last4digits
                                         (Some file_path) d in
         (Ok i, d').

(** [INSERT INTO transactions(...) VALUES(...)]; the statement and the
    store must exist ([foreign_keys=ON]).  [sid] and the instalment number
    are integers [sqlite3] binds (64 bits); on any other, [execute] raises
    [OverflowError] and the statement does not run. *)
Definition insert_transaction (sid : Z) (dt : date) (store_id amt : Z)
           (inst : option Z) : M unit :=
  fun d =>
    if has_statement sid d && has_store store_id d then
      let i := next_id (seq_transactions d) (map t_id (transactions d)) in
      (Ok tt,
       mkDb (categories d) (stores d) (statements d)
            (transactions d ++ [mkRow i sid dt store_id amt inst])
            (seq_categories d) (seq_stores d) (seq_statements d) i)
    else (Raise IntegrityError, d).

Fixpoint add_transactions (sid : Z) (txs : list Transaction) : M unit :=
  match txs with
  | [] => ret tt
  | t :: rest =>
      store_id <- get_store_id (store_name t) ;;
      _ <- insert_transaction sid (tx_date t) store_id (amount t)
                              (installment_number t) ;;
      add_transactions sid rest
  end.

Definition add_manual_transaction (sid : Z) (dt : date) (name : text) (amt : Z)
  : M unit :=
  store_id <- get_store_id name ;;
  insert_transaction sid dt store_id amt None.

(** *** Category sums *)

(** The join
    [transactions t JOIN stores s ON t.store_id=s.id
     JOIN categories c ON s.category_id=c.id], from the inside out: the
    categories a store row joins with, each with the amount [a] of the
    transaction at hand. *)
Definition category_rows_of (d : db) (s : store_row) (a : Z)
  : list (category_row * Z) :=
  flat_map (fun c => if opt_is (s_category_id s) (c_id c) then [(c, a)] else [])
           (categories d).

(** The rows of the join for one transaction. *)
Definition rows_of (d : db) (t : transaction_row) : list (category_row * Z) :=
  flat_map (fun s => if s_id s =? t_store_id t
                     then category_rows_of d s (t_amount t) else [])
           (stores d).

(** The rows of the join that pass the [WHERE] clause [scope], each as the
    category and the amount. *)
Definition joined (scope : transaction_row -> bool) (d : db)
  : list (category_row * Z) :=
  flat_map (fun t => if scope t then rows_of d t else []) (transactions d).

(** One group of [GROUP BY c.id]: the key, [c.name] and the amounts of the
    rows of the group, in the order the join yields them; [SUM(t.amount)]
    is taken over these. *)
Record group : Type := mkGroup {
  g_id : Z;
  g_name : text;
  g_amounts : list Z
}.

Fixpoint add_to_groups (c : category_row) (a : Z) (gs : list group) : list group :=
  match gs with
  | [] => [mkGroup (c_id c) (c_name c) [a]]
  | g :: r =>
      if c_id c =? g_id g then mkGroup (g_id g) (g_name g) (g_amounts g ++ [a]) :: r
      else if c_id c <? g_id g then mkGroup (c_id c) (c_name c) [a] :: g :: r
      else g :: add_to_groups c a r
  end.

(** [GROUP BY c.id] *)
Definition group_by_category (rows : list (category_row * Z)) : list group :=
  fold_left (fun gs ca => add_to_groups (fst ca) (snd ca) gs) rows [].

(** What the two sum queries leave to SQLite.  The column [amount] is
    [REAL]: [SUM(t.amount)] is the double the engine accumulates over the
    amounts of a group, which is not their exact sum and depends on how the
    engine adds; and [ORDER BY SUM(t.amount) DESC] names no second key, so
    where groups with equal sums go is the engine's choice.  The model takes
    from the engine what SQL states and no more: [SUM] is some function of
    the amounts of the group, and the result comes as some arrangement of
    the groups in which no sum is followed by a larger one. *)
Record engine : Type := mkEngine {
  real : Type;
  SUM : list Z -> real;
  sum_ge : real -> real -> Prop;
  ORDER_BY_SUM_DESC : list group -> list group;
  ORDER_BY_permutes : forall gs, Permutation (ORDER_BY_SUM_DESC gs) gs;
  ORDER_BY_sorts :
    forall gs,
      StronglySorted (fun g1 g2 => sum_ge (SUM (g_amounts g1)) (SUM (g_amounts g2)))
                     (ORDER_BY_SUM_DESC gs)
}.

Definition category_sum_groups (E : engine) (scope : transaction_row -> bool)
           (d : db) : list group :=
  ORDER_BY_SUM_DESC E (group_by_category (joined scope d)).

Definition in_statement (sid : Z) (t : transaction_row) : bool :=
  t_statement_id t =? sid.

Definition get_category_sums (E : engine) (sid : Z) : M (list (text * real E)) :=
  fun d => (Ok (map (fun g => (g_name g, SUM E (g_amounts g)))
                    (category_sum_groups E (in_statement sid) d)), d).


Definition total (l : list Z) : Z := fold_right Z.add 0 l.

(** What the sums are sums of: the amounts the join attributes to
    category [cid], added exactly. *)
Definition category_total (scope : transaction_row -> bool) (d : db) (cid : Z) : Z :=
  total (map snd (filter (fun ca => c_id (fst ca) =? cid) (joined scope d))).

(** The amounts of merchant [m] in scope. *)
Definition merchant_total (scope : transaction_row -> bool) (d : db) (m : Z) : Z :=
  total (map t_amount
             (filter (fun t => scope t && (t_store_id t =? m)) (transactions d))).

(** The amounts the groups [gs] hold for key [k]. *)
Definition amounts_of (gs : list group) (k : Z) : list Z :=
  flat_map (fun g => if g_id g =? k then g_amounts g else []) gs.

(** An engine for the worked examples: it adds exactly, and puts the groups
    in place one by one, a group ahead of the first one whose sum is not
    larger. *)
Fixpoint place (g : group) (gs : list group) : list group :=
  match gs with
  | [] => [g]
  | h :: r =>
      if total (g_amounts h) <=? total (g_amounts g) then g :: h :: r
      else h :: place g r
  end.

Definition exact_engine : engine.
Proof.
  refine (@mkEngine Z total (fun a b => b <= a) (fold_right place []) _ _).
  - assert (Hplace : forall g gs, Permutation (place g gs) (g :: gs)).
    { intros g gs. induction gs as [| h r IH]; cbn [place]; [reflexivity |].
      destruct (total (g_amounts h) <=? total (g_amounts g)); [reflexivity |].
      rewrite IH. apply perm_swap. }
    intros gs. induction gs as [| g r IH]; cbn [fold_right]; [reflexivity |].
    rewrite Hplace. now constructor.
  - assert (Hplace : forall g gs, Permutation (place g gs) (g :: gs)).
    { intros g gs. induction gs as [| h r IH]; cbn [place]; [reflexivity |].
      destruct (total (g_amounts h) <=? total (g_amounts g)); [reflexivity |].
      rewrite IH. apply perm_swap. }
    assert (Hsorted : forall g gs,
               StronglySorted
                 (fun g1 g2 => total (g_amounts g2) <= total (g_amounts g1)) gs ->
               StronglySorted
                 (fun g1 g2 => total (g_amounts g2) <= total (g_amounts g1))
                 (place g gs)).
    { intros g gs. induction gs as [| h r IH]; cbn [place]; intros Hs.
      - repeat constructor.
      - inversion Hs as [| x l Hr Hall]; subst.
        destruct (total (g_amounts h) <=? total (g_amounts g)) eqn:Hb.
        + apply Z.leb_le in Hb. constructor; [exact Hs |].
          constructor; [exact Hb |].
          eapply Forall_impl; [| exact Hall]. cbv beta. intros y Hy. lia.
        + apply Z.leb_gt in Hb. constructor; [now apply IH |].
          apply Forall_forall. intros y Hy.
          apply (Permutation_in _ (Hplace g r)) in Hy.
          destruct Hy as [<- | Hy]; [lia |].
          rewrite Forall_forall in Hall. now apply Hall. }
    intros gs. induction gs as [| g r IH]; cbn [fold_right]; [constructor |].
    now apply Hsorted.
Defined.

Fixpoint distinct (l : list Z) : bool :=
  match l with
  | [] => true
  | x :: r => negb (existsb (Z.eqb x) r) && distinct r
  end.

(** The primary keys of [stores] and [categories]. *)
Definition keys_ok (d : db) : bool :=
  distinct (map s_id (stores d)) && distinct (map c_id (categories d)).


(** What the foreign keys of the schema ask of the rows: a store points at
    a category of the table, a transaction at a store and a statement of
    theirs. *)
Definition refs_ok (d : db) : bool :=
  forallb (fun s => match s_category_id s with
                    | Some c => has_category c d
                    | None => false
                    end) (stores d)
  && forallb (fun t => has_store (t_store_id t) d
                       && has_statement (t_statement_id t) d)
             (transactions d).

(** The primary keys of [statements] and [transactions]. *)
Definition row_keys_ok (d : db) : bool :=
  distinct (map st_id (statements d)) && distinct (map t_id (transactions d)).

(** The columns of [UNIQUE(month,year,card_name,last4digits)]. *)
Definition statement_key (s : statement_row) : Z * Z * text * text :=
  (st_month s, st_year s, st_card_name s, st_last4digits s).

(** The category the store with id [sid] points at. *)
Definition store_category_id (d : db) (sid : Z) : option Z :=
  match find (fun s => s_id s =? sid) (stores d) with
  | Some s => s_category_id s
  | None => None
  end.


End DatabaseManager.

(** ** app.py *)

Module ExpenseApp.

(** The loop of [load_statement] over the parsed transactions: the day is
    kept, month and year are those of the statement; a day the period does
    not have drops the transaction. *)
Fixpoint adjusted (year month : Z) (txs : list Transaction) : list Transaction :=
  match txs with
  | [] => []
  | t :: r =>
      match Datetime.date_new year month (day (tx_date t)) with
      | Some nd =>
          mkTransaction nd (store_name t) (amount t) (installment_number t)
          :: adjusted year month r
      | None => adjusted year month r
      end
  end.

(** [parse_pdf] followed by the substitution of the period. *)
Definition import_lines (today_year year month : Z) (lines : list text)
  : exn + list Transaction :=
  match PDFParser.parse_lines today_year lines with
  | inl e => inl e
  | inr txs => inr (adjusted year month txs)
  end.

(** The statements the application runs on the connection itself. *)

(** [DELETE FROM statements WHERE id=?]; the transactions of the statement
    go with it ([ON DELETE CASCADE]). *)
Definition delete_statement (sid : Z) (d : DatabaseManager.db) : DatabaseManager.db :=
  DatabaseManager.mkDb
    (DatabaseManager.categories d) (DatabaseManager.stores d)
    (filter (fun s => negb (DatabaseManager.st_id s =? sid)%Z)
            (DatabaseManager.statements d))
    (filter (fun t => negb (DatabaseManager.t_statement_id t =? sid)%Z)
            (DatabaseManager.transactions d))
    (DatabaseManager.seq_categories d) (DatabaseManager.seq_stores d)
    (DatabaseManager.seq_statements d) (DatabaseManager.seq_transactions d).

(** [DELETE FROM transactions WHERE id=?] *)
Definition delete_transaction (tid : Z) (d : DatabaseManager.db) : DatabaseManager.db :=
  DatabaseManager.mkDb
    (DatabaseManager.categories d) (DatabaseManager.stores d)
    (DatabaseManager.statements d)
    (filter (fun t => negb (DatabaseManager.t_id t =? tid)%Z)
            (DatabaseManager.transactions d))
    (DatabaseManager.seq_categories d) (DatabaseManager.seq_stores d)
    (DatabaseManager.seq_statements d) (DatabaseManager.seq_transactions d).

(** [UPDATE statements SET month=?, year=?, card_name=? WHERE id=?]; a clash
    with the key of another statement fails the update, which the caller
    reports and otherwise ignores. *)
Definition modify_statement (sid month year : Z) (card_name : text)
           (d : DatabaseManager.db) : DatabaseManager.db :=
  let clash :=
    existsb
      (fun s =>
         (DatabaseManager.st_id s =? sid)%Z
         && existsb
              (fun o =>
                 negb (DatabaseManager.st_id o =? sid)%Z
                 && DatabaseManager.same_statement_key
                      month year card_name (DatabaseManager.st_last4digits s) o)
              (DatabaseManager.statements d))
      (DatabaseManager.statements d) in
  if clash then d
  else
    DatabaseManager.mkDb
      (DatabaseManager.categories d) (DatabaseManager.stores d)
      (map (fun s =>
              if (DatabaseManager.st_id s =? sid)%Z
              then DatabaseManager.mkStatement
                     (DatabaseManager.st_id s) month year card_name
                     (DatabaseManager.st_last4digits s)
                     (DatabaseManager.st_file_path s)
              else s)
           (DatabaseManager.statements d))
      (DatabaseManager.transactions d)
      (DatabaseManager.seq_categories d) (DatabaseManager.seq_stores d)
      (DatabaseManager.seq_statements d) (DatabaseManager.seq_transactions d).

(** What [load_statement] tells the user, or how it ends. *)
Inductive load_report : Type :=
| Cancelled                  (* a dialog left empty: plain [return] *)
| StatementExists            (* [showerror] with the [ValueError] of [add_statement] *)
| ParserFailed               (* [showerror] with the exception of [parse_pdf] *)
| NoTransactions             (* [showwarning('Sin datos', ...)] *)
| Loaded (n : nat)           (* [showinfo] with the number of transactions stored *)
| Uncaught.                  (* an exception the method does not catch *)

(** The integers [sqlite3] binds as a parameter; any other is an
    [OverflowError] of the [execute]. *)
Definition fits_integer (z : Z) : bool :=
  ((- 2 ^ 63 <=? z) && (z <? 2 ^ 63))%Z.

(** [load_statement] from the answers of its dialogs on: [month] and [year]
    are [int(ms)] and [int(ys)], [cn] the card name as typed, [file_path]
    the file chosen and [lines] the text lines [parse_pdf] reads from it.
    The statement is inserted before the file is parsed. *)
Definition load_statement (today_year month year : Z) (cn file_path : text)
           (lines : list text) (d : DatabaseManager.db)
  : load_report * DatabaseManager.db :=
  match cn with
  | [] => (Cancelled, d)
  | _ =>
      if negb (fits_integer month && fits_integer year) then (Uncaught, d)
      else
        match DatabaseManager.add_statement month year (Str.strip cn) []
                                            file_path d with
        | (Raise _, d1) => (StatementExists, d1)
        | (Ok sid, d1) =>
            match PDFParser.parse_lines today_year lines with
            | inl _ => (ParserFailed, d1)
            | inr txs =>
                match adjusted year month txs with
                | [] => (NoTransactions, d1)
                | adj =>
                    match DatabaseManager.add_transactions sid adj d1 with
                    | (Ok _, d2) => (Loaded (length adj), d2)
                    | (Raise _, d2) => (Uncaught, d2)
                    end
                end
            end
        end
  end.


(** The class [[ -_]] of the file-name pattern: it is a range, from the
    space (U+0020) to the underscore (U+005F). *)
Definition in_space_to_underscore (c : ascii) : bool :=
  ((32 <=? Str.code c) && (Str.code c <=? 95))%N.

(** [(\d{2})] at the head of [s]. *)
Definition two_digits (s : text) : option text :=
  match s with
  | m1 :: m2 :: _ =>
      if Str.isdigit m1 && Str.isdigit m2 then Some [m1; m2] else None
  | _ => None
  end.

(** [(\d{4})[ -_]?(\d{2})] at the head of [s]: the two groups.  The optional
    class is greedy: the match that takes a character for it is tried
    first, the one that takes none when that fails. *)
Definition PERIOD_PATTERN_here (s : text) : option (text * text) :=
  match s with
  | y1 :: y2 :: y3 :: y4 :: r =>
      if Str.isdigit y1 && Str.isdigit y2 && Str.isdigit y3 && Str.isdigit y4
      then
        let taken := match r with
                     | c :: r' => if in_space_to_underscore c
                                  then two_digits r' else None
                     | [] => None
                     end in
        match taken with
        | Some m => Some ([y1; y2; y3; y4], m)
        | None =>
            match two_digits r with
            | Some m => Some ([y1; y2; y3; y4], m)
            | None => None
            end
        end
      else None
  | _ => None
  end.

(** [re.search]: the match at the leftmost position that has one. *)
Fixpoint PERIOD_PATTERN_search (s : text) : option (text * text) :=
  match PERIOD_PATTERN_here s with
  | Some g => Some g
  | None =>
      match s with
      | [] => None
      | _ :: r => PERIOD_PATTERN_search r
      end
  end.

(** The month and the year [load_statement] proposes in its dialogs, as
    [(default_month, default_year)]: those the file name shows, today's
    when it shows none. *)
Definition default_period (today_month today_year : Z) (filename : text) : Z * Z :=
  match PERIOD_PATTERN_search filename with
  | Some (y, m) => (Str.int m, Str.int y)
  | None => (today_month, today_year)
  end.


End ExpenseApp.

(** ** Histories of the store

    Every way the program changes the database, as a call; a history is a
    list of calls run in order from some state.  A call that raises leaves
    the connection in the state it had reached.  [Reopen] is the program
    started again on the database as it is: [DatabaseManager.__init__] runs
    on it, and puts the default category and the cash statement back when a
    call has removed or renamed them. *)

Module History.
Import DatabaseManager.

Inductive call : Type :=
| AddCategory (name : text)
| DeleteCategory (cid : Z)
| GetStoreId (name : text)
| UpdateStoreCategory (sid cid : Z)
| AddStatement (month year : Z) (card_name last4digits file_path : text)
| AddTransactions (sid : Z) (txs : list Transaction)
| AddManualTransaction (sid : Z) (dt : date) (name : text) (amt : Z)
| DeleteStatement (sid : Z)
| DeleteTransaction (tid : Z)
| ModifyStatement (sid month year : Z) (card_name : text)
| Reopen.

Definition step (c : call) (d : db) : db :=
  match c with
  | AddCategory name => snd (add_category name d)
  | DeleteCategory cid => snd (delete_category cid d)
  | GetStoreId name => snd (get_store_id name d)
  | UpdateStoreCategory sid cid => snd (update_store_category sid cid d)
  | AddStatement m y cn l4 fp => snd (add_statement m y cn l4 fp d)
  | AddTransactions sid txs => snd (add_transactions sid txs d)
  | AddManualTransaction sid dt name amt =>
      snd (add_manual_transaction sid dt name amt d)
  | DeleteStatement sid => ExpenseApp.delete_statement sid d
  | DeleteTransaction tid => ExpenseApp.delete_transaction tid d
  | ModifyStatement sid m y cn => ExpenseApp.modify_statement sid m y cn d
  | Reopen => init d
  end.

Definition run (cs : list call) (d : db) : db :=
  fold_left (fun d' c => step c d') cs d.

(** The states the program can be in: what a history makes of the database
    a new file starts with. *)
Definition reachable (d : db) : Prop :=
  exists cs, d = run cs (init empty_db).

(** What every state of the program has: distinct primary keys and the
    default category. *)
Definition consistent (d : db) : Prop :=
  keys_ok d = true /\ has_category_named NO_ASIGNADA d = true.

(** What the constraints of the schema keep besides the keys: every
    reference points at a row, and the names of categories and of stores
    are distinct. *)
Definition sound (d : db) : Prop :=
  refs_ok d = true
  /\ NoDup (map c_name (categories d))
  /\ NoDup (map s_name (stores d)).

(** The keys of the other two tables: statements and transactions have
    distinct primary keys, and no two statements share month, year, card
    name and last digits. *)
Definition keyed (d : db) : Prop :=
  row_keys_ok d = true
  /\ NoDup (map statement_key (statements d)).


End History.

(** * Properties of the line parser *)

Section ParserFacts.
Import Str PDFParser.
Open Scope char_scope.

(** February never has a thirtieth day, in no year. *)
Lemma feb_30_invalid (y : Z) : Datetime.valid y 2 30 = false.
Proof.
  unfold Datetime.valid, Datetime.days_in_month.
  change (2 =? 2)%Z with true. cbv iota.
  destruct (Datetime.is_leap y);
    rewrite !andb_false_iff; right; reflexivity.
Qed.

Lemma sep_not_space (c : ascii) : is_date_sep c = true -> isspace c = false.
Proof.
  unfold is_date_sep, chr_eqb. intros H.
  apply orb_true_iff in H. destruct H as [H | H];
    apply Ascii.eqb_eq in H; subst c; reflexivity.
Qed.

Lemma span_nil_head (p : ascii -> bool) (c : ascii) (r : text) :
  p c = false -> span p (c :: r) = ([], c :: r).
Proof. intros H. simpl. rewrite H. reflexivity. Qed.

(** A line that opens with a numeric short date does not open with a day
    and a month name: the second date form is only tried, and can only
    raise, on lines of the other shape. *)
Lemma DATE_PATTERN_excludes_MONTH_PATTERN (line d mn tail : text) :
  DATE_PATTERN line = Some (d, mn, tail) -> MONTH_PATTERN line = None.
Proof.
  unfold DATE_PATTERN, MONTH_PATTERN.
  destruct (digits12 line) as [d0 r1].
  destruct d0 as [| x d0]; [discriminate |].
  destruct r1 as [| sep r2]; [discriminate |].
  destruct (is_date_sep sep) eqn:Hsep; [| discriminate].
  intros _. rewrite (span_nil_head isspace sep r2 (sep_not_space sep Hsep)).
  reflexivity.
Qed.

(** The numeric form with a day the current year does not have: the line
    is skipped, nothing is raised. *)
Lemma numeric_invalid_date_skipped (today_year : Z) (orig d mn tail : text) :
  DATE_PATTERN (strip orig) = Some (d, mn, tail) ->
  Datetime.valid today_year (int mn) (int d) = false ->
  parse_line today_year orig = Skipped.
Proof.
  intros Hm Hv. unfold parse_line.
  destruct (strip orig) as [| c l] eqn:Hl; [reflexivity |].
  unfold find_date, numeric_date, month_name_date. rewrite Hm.
  unfold Datetime.date_new. rewrite Hv.
  rewrite (DATE_PATTERN_excludes_MONTH_PATTERN _ Hm). reflexivity.
Qed.

(** *** The shape of an amount match *)

Lemma firstn_length_app (A : Type) (a b : list A) :
  firstn (length a) (a ++ b) = a.
Proof. induction a as [| x a IH]; simpl; [reflexivity | now rewrite IH]. Qed.

Lemma span_app (p : ascii -> bool) (s : text) :
  fst (span p s) ++ snd (span p s) = s.
Proof.
  induction s as [| c r IH]; simpl; [reflexivity |].
  destruct (p c); [| reflexivity].
  destruct (span p r) as [a b]. simpl in *. now rewrite IH.
Qed.

Lemma span_all (p : ascii -> bool) (s : text) :
  forallb p (fst (span p s)) = true.
Proof.
  induction s as [| c r IH]; simpl; [reflexivity |].
  destruct (p c) eqn:Hc; [| reflexivity].
  destruct (span p r) as [a b]. simpl in *. now rewrite Hc.
Qed.

Lemma span_prefix (p : ascii -> bool) (a b : text) :
  forallb p a = true ->
  match b with
  | [] => True
  | c :: _ => p c = false
  end ->
  span p (a ++ b) = (a, b).
Proof.
  induction a as [| x a IH]; simpl; intros Ha Hb.
  - destruct b as [| c r]; [reflexivity |]. simpl. now rewrite Hb.
  - apply andb_true_iff in Ha. destruct Ha as [Hx Ha].
    rewrite Hx, (IH Ha Hb). reflexivity.
Qed.

(** What [AMOUNT_PATTERN] matches at the head of [s]: a digit, a run of
    digits and periods, the comma, two digits and the sign if it is
    there. *)
Lemma AMOUNT_PATTERN_here_shape (s : text) (len : nat) :
  AMOUNT_PATTERN_here s = Some len ->
  exists c run d1 d2 r2,
    s = c :: run ++ "," :: d1 :: d2 :: r2
    /\ isdigit c = true /\ forallb is_digit_or_dot run = true
    /\ isdigit d1 = true /\ isdigit d2 = true
    /\ firstn len s = c :: run ++ "," :: d1 :: d2 :: minus_tail r2
    /\ len = length (c :: run ++ "," :: d1 :: d2 :: minus_tail r2).
Proof.
  unfold AMOUNT_PATTERN_here.
  destruct s as [| c r]; [discriminate |].
  destruct (isdigit c) eqn:Hc; [| discriminate].
  pose proof (span_app is_digit_or_dot r) as Happ.
  pose proof (span_all is_digit_or_dot r) as Hall.
  destruct (span is_digit_or_dot r) as [run r1]. simpl in Happ, Hall.
  destruct r1 as [| k r1]; [discriminate |].
  destruct (Ascii.eqb k ",") eqn:Hk.
  2:{ intros H. exfalso. revert H.
      destruct k as [[] [] [] [] [] [] [] []]; try discriminate Hk;
        discriminate. }
  apply Ascii.eqb_eq in Hk. subst k.
  destruct r1 as [| d1 r1]; [discriminate |].
  destruct r1 as [| d2 r2]; [discriminate |].
  destruct (isdigit d1) eqn:H1; [| discriminate].
  destruct (isdigit d2) eqn:H2; [| discriminate].
  simpl andb. cbv iota. intros H. injection H as <-.
  exists c, run, d1, d2, r2.
  assert (Hlen : S (length run + 3
                    + match r2 with
                      | "-" :: _ => 1
                      | _ => 0
                      end)%nat
                 = length (c :: run ++ "," :: d1 :: d2 :: minus_tail r2)).
  { simpl. rewrite length_app. simpl.
    assert (length (minus_tail r2)
            = match r2 with
              | "-" :: _ => 1
              | _ => 0
              end)%nat as ->.
    { destruct r2 as [| x r2]; [reflexivity |].
      destruct x as [[] [] [] [] [] [] [] []]; reflexivity. }
    lia. }
  rewrite Hlen.
  assert (Hm : exists r3, r2 = minus_tail r2 ++ r3).
  { destruct r2 as [| x r2]; [now exists [] |].
    destruct (Ascii.eqb x "-") eqn:Hx.
    - apply Ascii.eqb_eq in Hx. subst x. now exists r2.
    - exists (x :: r2).
      destruct x as [[] [] [] [] [] [] [] []]; try discriminate Hx;
        reflexivity. }
  destruct Hm as [r3 Hr3].
  repeat split; try assumption.
  - now rewrite <- Happ.
  - rewrite <- Happ.
    transitivity
      (firstn (length (c :: run ++ "," :: d1 :: d2 :: minus_tail r2))
              ((c :: run ++ "," :: d1 :: d2 :: minus_tail r2) ++ r3)).
    + f_equal. simpl. rewrite <- app_assoc. simpl. rewrite <- Hr3.
      reflexivity.
    + apply firstn_length_app.
Qed.

Lemma AMOUNT_PATTERN_here_bounds (s : text) (len : nat) :
  AMOUNT_PATTERN_here s = Some len -> (1 <= len <= length s)%nat.
Proof.
  intros H. apply AMOUNT_PATTERN_here_shape in H.
  destruct H as (c & run & d1 & d2 & r2 & _ & _ & _ & _ & _ & Hf & Hl).
  split.
  - rewrite Hl. simpl. lia.
  - apply (f_equal (@length ascii)) in Hf.
    rewrite length_firstn, <- Hl in Hf. lia.
Qed.

(** *** The scan of [finditer] *)

Local Arguments AMOUNT_PATTERN_here : simpl never.

Lemma skipn_step (A : Type) (a pos : nat) (x : A) (r : list A) :
  (S pos <= a)%nat -> skipn (a - pos) (x :: r) = skipn (a - S pos) r.
Proof.
  intros H. replace (a - pos)%nat with (S (a - S pos)) by lia. reflexivity.
Qed.

(** Every match reported is a match of the pattern at its start, lies in
    the part still to be scanned and is not empty. *)
Lemma finditer_from_sound (s : text) :
  forall pos skip a b,
    In (a, b) (finditer_from pos skip s) ->
    (pos + skip <= a)%nat
    /\ AMOUNT_PATTERN_here (skipn (a - pos) s) = Some (b - a)%nat
    /\ (a < b)%nat /\ (b <= pos + length s)%nat.
Proof.
  induction s as [| x r IH]; intros pos skip a b Hin; simpl in Hin.
  - contradiction.
  - destruct skip as [| k].
    + destruct (AMOUNT_PATTERN_here (x :: r)) as [len |] eqn:Hh.
      * pose proof (AMOUNT_PATTERN_here_bounds _ Hh) as Hb. simpl in Hb.
        destruct Hin as [Heq | Hin].
        -- injection Heq as <- <-.
           rewrite Nat.sub_diag.
           replace (pos + len - pos)%nat with len by lia.
           simpl. repeat split; try lia. exact Hh.
        -- apply IH in Hin. destruct Hin as (H1 & H2 & H3 & H4).
           rewrite skipn_step by lia. simpl. repeat split; try lia. exact H2.
      * apply IH in Hin. destruct Hin as (H1 & H2 & H3 & H4).
        rewrite skipn_step by lia. simpl. repeat split; try lia. exact H2.
    + apply IH in Hin. destruct Hin as (H1 & H2 & H3 & H4).
      rewrite skipn_step by lia. simpl. repeat split; try lia. exact H2.
Qed.

(** The matches come in order and do not overlap. *)
Lemma finditer_from_sorted (s : text) :
  forall pos skip,
    StronglySorted (fun m1 m2 : nat * nat => (snd m1 <= fst m2)%nat)
                   (finditer_from pos skip s).
Proof.
  induction s as [| x r IH]; intros pos skip; simpl.
  - constructor.
  - destruct skip as [| k]; [| apply IH].
    destruct (AMOUNT_PATTERN_here (x :: r)) as [len |] eqn:Hh; [| apply IH].
    pose proof (AMOUNT_PATTERN_here_bounds _ Hh) as Hb.
    constructor; [apply IH |].
    apply Forall_forall. intros [a b] Hin.
    apply finditer_from_sound in Hin. simpl. lia.
Qed.

(** Every position where the pattern matches, from the scan position on,
    lies inside one of the matches reported. *)
Lemma finditer_from_covers (s : text) :
  forall pos skip p l,
    (pos + skip <= p)%nat ->
    AMOUNT_PATTERN_here (skipn (p - pos) s) = Some l ->
    exists a b, In (a, b) (finditer_from pos skip s) /\ (a <= p < b)%nat.
Proof.
  induction s as [| x r IH]; intros pos skip p l Hp Hh.
  - rewrite skipn_nil in Hh. discriminate.
  - simpl. destruct skip as [| k].
    + destruct (Nat.eq_dec p pos) as [-> | Hne].
      * rewrite Nat.sub_diag in Hh. simpl in Hh. rewrite Hh.
        pose proof (AMOUNT_PATTERN_here_bounds _ Hh) as Hb.
        exists pos, (pos + l)%nat. split; [now left | lia].
      * rewrite skipn_step in Hh by lia.
        destruct (AMOUNT_PATTERN_here (x :: r)) as [len |] eqn:Hx.
        -- pose proof (AMOUNT_PATTERN_here_bounds _ Hx) as Hb.
           destruct (Nat.lt_ge_cases p (pos + len)) as [Hlt | Hge].
           ++ exists pos, (pos + len)%nat. split; [now left | lia].
           ++ destruct (IH (S pos) (len - 1)%nat p l) as (a & b & Hin & Hab);
                [lia | exact Hh |].
              exists a, b. split; [now right | exact Hab].
        -- destruct (IH (S pos) 0%nat p l) as (a & b & Hin & Hab);
             [lia | exact Hh |].
           exists a, b. split; [exact Hin | exact Hab].
    + rewrite skipn_step in Hh by lia.
      destruct (IH (S pos) k p l) as (a & b & Hin & Hab); [lia | exact Hh |].
      exists a, b. split; [exact Hin | exact Hab].
Qed.

(** The loop that keeps the last match. *)
Lemma last_amount_match_app (rest : text) (earlier : list (nat * nat)) (am : nat * nat) :
  AMOUNT_PATTERN_finditer rest = earlier ++ [am] ->
  last_amount_match rest = Some am.
Proof.
  unfold last_amount_match. intros ->. rewrite fold_left_app. reflexivity.
Qed.

Lemma last_amount_match_in (rest : text) (am : nat * nat) :
  last_amount_match rest = Some am ->
  exists earlier, AMOUNT_PATTERN_finditer rest = earlier ++ [am].
Proof.
  unfold last_amount_match.
  destruct (AMOUNT_PATTERN_finditer rest) as [| m ms] using rev_ind.
  - discriminate.
  - rewrite fold_left_app. simpl. intros H. injection H as ->.
    now exists ms.
Qed.

(** *** The value of an amount match *)

Lemma digit_not_dot (c : ascii) : isdigit c = true -> chr_eqb c "." = false.
Proof.
  unfold chr_eqb. intros H. destruct (Ascii.eqb c ".") eqn:E; [| reflexivity].
  apply Ascii.eqb_eq in E. subst c. discriminate H.
Qed.

Lemma digit_not_comma (c : ascii) : isdigit c = true -> chr_eqb c "," = false.
Proof.
  unfold chr_eqb. intros H. destruct (Ascii.eqb c ",") eqn:E; [| reflexivity].
  apply Ascii.eqb_eq in E. subst c. discriminate H.
Qed.

Lemma digit_not_minus (c : ascii) : isdigit c = true -> chr_eqb "-" c = false.
Proof.
  unfold chr_eqb. intros H. destruct (Ascii.eqb "-" c) eqn:E; [| reflexivity].
  apply Ascii.eqb_eq in E. subst c. discriminate H.
Qed.

(** Removing the periods from a run of digits and periods leaves digits. *)
Lemma remove_dots_digits (run : text) :
  forallb is_digit_or_dot run = true ->
  forallb isdigit (remove_chr "." run) = true.
Proof.
  induction run as [| c r IH]; simpl; intros H; [reflexivity |].
  apply andb_true_iff in H. destruct H as [Hc Hr].
  destruct (chr_eqb c ".") eqn:Hd; simpl.
  - now apply IH.
  - unfold is_digit_or_dot in Hc. rewrite Hd, orb_false_r in Hc.
    rewrite Hc. now apply IH.
Qed.

Lemma replace_comma_digits (ds : text) :
  forallb isdigit ds = true -> replace_chr "," "." ds = ds.
Proof.
  induction ds as [| c r IH]; simpl; intros H; [reflexivity |].
  apply andb_true_iff in H. destruct H as [Hc Hr].
  rewrite (digit_not_comma c Hc), (IH Hr). reflexivity.
Qed.

Lemma contains_cons (c x : ascii) (l : text) :
  contains c (x :: l) = chr_eqb c x || contains c l.
Proof. reflexivity. Qed.

Lemma contains_app (c : ascii) (a b : text) :
  contains c (a ++ b) = contains c a || contains c b.
Proof. unfold contains. apply existsb_app. Qed.

Lemma no_minus_in_run (run : text) :
  forallb is_digit_or_dot run = true -> contains "-" run = false.
Proof.
  induction run as [| c r IH]; simpl; intros H; [reflexivity |].
  apply andb_true_iff in H. destruct H as [Hc Hr].
  rewrite (IH Hr), orb_false_r.
  unfold is_digit_or_dot in Hc. apply orb_true_iff in Hc.
  destruct Hc as [Hc | Hc]; [now apply digit_not_minus |].
  unfold chr_eqb in *. apply Ascii.eqb_eq in Hc. subst c. reflexivity.
Qed.

(** [clean] for a match: the digits, a point, the two decimals, and the
    sign when the match has it. *)
Lemma clean_amount_shape (c : ascii) (run : text) (d1 d2 : ascii) (tl : text) :
  isdigit c = true -> forallb is_digit_or_dot run = true ->
  isdigit d1 = true -> isdigit d2 = true ->
  tl = [] \/ tl = ["-"] ->
  clean_amount (c :: run ++ "," :: d1 :: d2 :: tl)
  = (c :: remove_chr "." run) ++ "." :: d1 :: d2 :: tl.
Proof.
  intros Hc Hrun H1 H2 Htl. unfold clean_amount.
  pose proof (remove_dots_digits run Hrun) as Hds.
  assert (Hrm : remove_chr "." (c :: run ++ "," :: d1 :: d2 :: tl)
                = (c :: remove_chr "." run) ++ "," :: d1 :: d2 :: tl).
  { unfold remove_chr. simpl. rewrite (digit_not_dot c Hc). simpl.
    rewrite filter_app. simpl.
    rewrite (digit_not_dot d1 H1), (digit_not_dot d2 H2). simpl.
    destruct Htl as [-> | ->]; reflexivity. }
  rewrite Hrm. unfold replace_chr. rewrite map_app.
  fold (replace_chr "," "." (c :: remove_chr "." run)).
  rewrite replace_comma_digits by (simpl; now rewrite Hc).
  simpl. rewrite (digit_not_comma d1 H1), (digit_not_comma d2 H2).
  destruct Htl as [-> | ->]; reflexivity.
Qed.

Lemma float_of_digits (ds : text) (d1 d2 : ascii) :
  ds <> [] -> forallb isdigit ds = true ->
  isdigit d1 = true -> isdigit d2 = true ->
  float (ds ++ ["."; d1; d2]) = Some (100 * int ds + int [d1; d2])%Z.
Proof.
  intros Hne Hds H1 H2. unfold float.
  rewrite (span_prefix isdigit ds ("." :: [d1; d2]) Hds) by reflexivity.
  destruct ds as [| x ds]; [contradiction |].
  rewrite H1, H2. reflexivity.
Qed.

Lemma float_trailing_minus (ds : text) (d1 d2 : ascii) :
  forallb isdigit ds = true ->
  float (ds ++ ["."; d1; d2; "-"]) = None.
Proof.
  intros Hds. unfold float.
  rewrite (span_prefix isdigit ds ("." :: [d1; d2; "-"]) Hds) by reflexivity.
  destruct ds; reflexivity.
Qed.

Lemma minus_tail_cases (r : text) : minus_tail r = [] \/ minus_tail r = ["-"].
Proof.
  destruct r as [| x r]; [now left |].
  destruct x as [[] [] [] [] [] [] [] []]; simpl; auto.
Qed.

(** The digits of an amount string before its comma, periods removed. *)
Lemma amount_match_value (s : text) (len : nat) :
  AMOUNT_PATTERN_here s = Some len ->
  exists ds d1 d2,
    ds <> [] /\ forallb isdigit ds = true
    /\ isdigit d1 = true /\ isdigit d2 = true
    /\ ((contains "-" (firstn len s) = false
         /\ float (clean_amount (firstn len s))
            = Some (100 * int ds + int [d1; d2])%Z)
        \/ (contains "-" (firstn len s) = true
            /\ float (clean_amount (firstn len s)) = None)).
Proof.
  intros H. apply AMOUNT_PATTERN_here_shape in H.
  destruct H as (c & run & d1 & d2 & r2 & _ & Hc & Hrun & H1 & H2 & Hf & _).
  exists (c :: remove_chr "." run), d1, d2.
  pose proof (remove_dots_digits run Hrun) as Hds.
  assert (Hall : forallb isdigit (c :: remove_chr "." run) = true)
    by (simpl; now rewrite Hc).
  repeat split; try assumption; [discriminate |].
  rewrite Hf.
  rewrite (clean_amount_shape c run d1 d2 Hc Hrun H1 H2 (minus_tail_cases r2)).
  assert (Hcont : forall tl,
             contains "-" (c :: run ++ "," :: d1 :: d2 :: tl) = contains "-" tl).
  { intros tl.
    rewrite contains_cons, contains_app, !contains_cons.
    rewrite (no_minus_in_run run Hrun), (digit_not_minus c Hc),
      (digit_not_minus d1 H1), (digit_not_minus d2 H2).
    reflexivity. }
  rewrite Hcont.
  destruct (minus_tail_cases r2) as [-> | ->].
  - left. split; [reflexivity |].
    apply float_of_digits; try assumption. discriminate.
  - right. split; [reflexivity |].
    now apply float_trailing_minus.
Qed.

(** The amount of a match of the scan: the decimal value of its digits,
    negated when a [-] stands just before it; no amount at all when the
    match itself ends in [-], because [float] refuses the sign that
    [clean] still carries. *)
Lemma signed_amount_of_match (rest : text) (a b : nat) :
  In (a, b) (AMOUNT_PATTERN_finditer rest) ->
  exists ds d1 d2,
    ds <> [] /\ forallb isdigit ds = true
    /\ isdigit d1 = true /\ isdigit d2 = true
    /\ ((contains "-" (slice a b rest) = false
         /\ signed_amount rest (a, b)
            = Some (if preceded_by_minus rest a
                    then - (100 * int ds + int [d1; d2])
                    else 100 * int ds + int [d1; d2])%Z)
        \/ (contains "-" (slice a b rest) = true
            /\ signed_amount rest (a, b) = None)).
Proof.
  intros Hin. apply finditer_from_sound in Hin.
  destruct Hin as (_ & Hh & _ & _). rewrite Nat.sub_0_r in Hh.
  destruct (amount_match_value _ Hh) as (ds & d1 & d2 & Hne & Hds & H1 & H2 & Hv).
  exists ds, d1, d2. repeat split; try assumption.
  unfold signed_amount, amount_is_negative, slice. simpl fst. simpl snd.
  destruct Hv as [[Hc Hf] | [Hc Hf]]; rewrite Hc, Hf; [left | right];
    split; reflexivity.
Qed.

(** *** The claims on the parser *)

(** C1 (defect in the code).  A line whose date form is recognized but
    names a day the month does not have should be skipped without an
    exception.  The numeric form does so ([numeric_invalid_date_skipped]);
    the day and month-name form builds the date outside any [try]: on the
    line ["30 Feb market 1.000,00-"], in every year, [parse_pdf] raises
    [ValueError] instead of skipping the line. *)
Theorem month_name_invalid_date_raises (today_year : Z) :
  parse_lines today_year [T "30 Feb market 1.000,00-"]
  = inl ValueError.
Proof.
  assert (Hd : find_date today_year (T "30 Feb market 1.000,00-")
               = inl ValueError).
  { unfold find_date, numeric_date, month_name_date.
    replace (DATE_PATTERN (T "30 Feb market 1.000,00-"))
      with (@None (text * text * text)) by (vm_compute; reflexivity).
    replace (MONTH_PATTERN (T "30 Feb market 1.000,00-"))
      with (Some (T "30", T "Feb", T " market 1.000,00-"))
      by (vm_compute; reflexivity).
    replace (MONTH_NAMES_get (firstn 3 (lower (T "Feb")))) with (Some 2%Z)
      by (vm_compute; reflexivity).
    change (2 =? 0)%Z with false. cbv iota.
    unfold Datetime.date_new.
    change (int (T "30")) with 30%Z.
    rewrite feb_30_invalid. reflexivity. }
  unfold parse_lines, parse_line.
  change (strip (T "30 Feb market 1.000,00-")) with (T "30 Feb market 1.000,00-").
  rewrite Hd. reflexivity.
Qed.

(** C9 (defect in the code).  An amount match that ends in [-] should give
    the negated decimal value.  The sign is kept in [clean], [float] raises
    on it and the bare [except] skips the line: ["05/03 market 1.000,00-"]
    yields no transaction, in every year, although the match
    ["1.000,00-"] is found and flagged negative. *)
Theorem trailing_minus_amount_is_dropped (today_year : Z) :
  last_amount_match (T "market 1.000,00-") = Some (7, 16)%nat
  /\ amount_is_negative (T "market 1.000,00-") (7, 16)%nat = true
  /\ clean_amount (slice 7 16 (T "market 1.000,00-")) = T "1000.00-"
  /\ signed_amount (T "market 1.000,00-") (7, 16)%nat = None
  /\ parse_lines today_year [T "05/03 market 1.000,00-"] = inr [].
Proof.
  repeat split; try (vm_compute; reflexivity).
  unfold parse_lines, parse_line.
  change (strip (T "05/03 market 1.000,00-")) with (T "05/03 market 1.000,00-").
  unfold find_date, numeric_date, month_name_date.
  replace (DATE_PATTERN (T "05/03 market 1.000,00-"))
    with (Some (T "05", T "03", T " market 1.000,00-"))
    by (vm_compute; reflexivity).
  replace (MONTH_PATTERN (T "05/03 market 1.000,00-"))
    with (@None (text * text * text)) by (vm_compute; reflexivity).
  destruct (Datetime.date_new today_year (int (T "03")) (int (T "05")));
    reflexivity.
Qed.

Lemma digit_value_range (c : ascii) :
  isdigit c = true -> (0 <= digit_value c <= 9)%Z.
Proof.
  unfold isdigit, digit_value. cbv zeta. intros H.
  apply andb_true_iff in H. destruct H as [H1 H2].
  apply N.leb_le in H1. apply N.leb_le in H2.
  generalize dependent (code c). intros n H1 H2. lia.
Qed.

Lemma int_nonneg (ds : text) : forallb isdigit ds = true -> (0 <= int ds)%Z.
Proof.
  unfold int.
  assert (H : forall acc, (0 <= acc)%Z -> forallb isdigit ds = true ->
              (0 <= fold_left (fun a c => 10 * a + digit_value c) ds acc)%Z).
  { induction ds as [| c r IH]; cbn [fold_left forallb]; intros acc Hacc Hd;
      [exact Hacc |].
    apply andb_true_iff in Hd. destruct Hd as [Hc Hr].
    apply IH; [| exact Hr]. pose proof (digit_value_range c Hc). lia. }
  intros Hd. apply H; [lia | exact Hd].
Qed.

(** The value [float] gives for a match, tied to the characters of the
    match. *)
Lemma amount_match_exact (s : text) (len : nat) (v : Z) :
  AMOUNT_PATTERN_here s = Some len ->
  float (clean_amount (firstn len s)) = Some v ->
  exists intpart d1 d2,
    firstn len s = intpart ++ [","; d1; d2]
    /\ forallb is_digit_or_dot intpart = true
    /\ isdigit d1 = true /\ isdigit d2 = true
    /\ v = (100 * int (remove_chr "." intpart) + int [d1; d2])%Z
    /\ (0 <= v)%Z.
Proof.
  intros Hh Hf. apply AMOUNT_PATTERN_here_shape in Hh.
  destruct Hh as (c & run & d1 & d2 & r2 & _ & Hc & Hrun & H1 & H2 & Hfirst & _).
  pose proof (remove_dots_digits run Hrun) as Hds.
  assert (Hall : forallb isdigit (c :: remove_chr "." run) = true)
    by (cbn [forallb]; now rewrite Hc).
  rewrite Hfirst in Hf.
  rewrite (clean_amount_shape c run d1 d2 Hc Hrun H1 H2 (minus_tail_cases r2)) in Hf.
  destruct (minus_tail_cases r2) as [Hm | Hm]; rewrite Hm in *.
  - rewrite float_of_digits in Hf; try assumption; [| discriminate].
    injection Hf as <-.
    assert (Hpos : (0 <= 100 * int (c :: remove_chr "." run) + int [d1; d2])%Z).
    { pose proof (int_nonneg _ Hall).
      assert (0 <= int [d1; d2])%Z
        by (apply int_nonneg; cbn [forallb]; now rewrite H1, H2).
      lia. }
    assert (Hrm : remove_chr "." (c :: run) = c :: remove_chr "." run).
    { unfold remove_chr. cbn [filter]. rewrite (digit_not_dot c Hc). reflexivity. }
    exists (c :: run), d1, d2.
    split; [exact Hfirst |].
    split; [cbn [forallb]; unfold is_digit_or_dot at 1; now rewrite Hc, Hrun |].
    split; [exact H1 |]. split; [exact H2 |].
    split; [now rewrite Hrm | exact Hpos].
  - rewrite float_trailing_minus in Hf by assumption. discriminate.
Qed.

(** C3.  When the scan of the remainder finds two or more amounts, the
    amount kept is the last one found: it matches the pattern where it
    starts, every earlier one ends before it starts, and the pattern matches
    nowhere from its end on.  The transaction is built from that match
    alone: when the match carries no [-] of its own, a transaction is
    emitted, whatever the line and the date, and its amount is the decimal
    value of the digits of the last match, negated when a [-] stands just
    before it; when the match ends in [-], no transaction is emitted at
    all -- no earlier match stands in for the last one. *)
Theorem last_amount_occurrence_wins (rest : text) :
  (2 <= length (AMOUNT_PATTERN_finditer rest))%nat ->
  exists earlier am,
    AMOUNT_PATTERN_finditer rest = earlier ++ [am]
    /\ earlier <> []
    /\ last_amount_match rest = Some am
    /\ AMOUNT_PATTERN_here (skipn (fst am) rest) = Some (snd am - fst am)%nat
    /\ Forall (fun m => (fst m < snd m <= fst am)%nat) earlier
    /\ (forall p l, AMOUNT_PATTERN_here (skipn p rest) = Some l -> (p < snd am)%nat)
    /\ (forall orig dt,
           (contains "-" (slice (fst am) (snd am) rest) = false ->
            exists intpart d1 d2 t,
              slice (fst am) (snd am) rest = intpart ++ [","; d1; d2]
              /\ transaction_of orig dt rest = Some t
              /\ amount t
                 = (if preceded_by_minus rest (fst am)
                    then - (100 * int (remove_chr "." intpart) + int [d1; d2])
                    else 100 * int (remove_chr "." intpart) + int [d1; d2])%Z)
           /\ (contains "-" (slice (fst am) (snd am) rest) = true ->
               transaction_of orig dt rest = None)).
Proof.
  intros Hlen.
  destruct (AMOUNT_PATTERN_finditer rest) as [| am earlier] eqn:Hfi
    using rev_ind; [simpl in Hlen; lia |].
  clear IHearlier.
  exists earlier, am.
  assert (Hne : earlier <> []).
  { intros ->. simpl in Hlen. lia. }
  assert (Hlast : last_amount_match rest = Some am)
    by (eapply last_amount_match_app; eassumption).
  pose proof (finditer_from_sorted rest 0 0) as Hs.
  fold (AMOUNT_PATTERN_finditer rest) in Hs. rewrite Hfi in Hs.
  assert (Hsound : forall a b, In (a, b) (earlier ++ [am]) ->
             AMOUNT_PATTERN_here (skipn a rest) = Some (b - a)%nat
             /\ (a < b)%nat).
  { intros a b Hin. rewrite <- Hfi in Hin.
    apply finditer_from_sound in Hin. rewrite Nat.sub_0_r in Hin. tauto. }
  assert (Hbefore : forall m, In m earlier -> (snd m <= fst am)%nat).
  { clear - Hs. induction earlier as [| m0 ms IH]; intros m Hin;
      [contradiction |].
    simpl in Hs. inversion Hs as [| ? ? Hs' Hall]; subst.
    destruct Hin as [<- | Hin].
    - rewrite Forall_forall in Hall. apply Hall.
      apply in_or_app. right. now left.
    - now apply IH. }
  split; [reflexivity |]. split; [exact Hne |]. split; [exact Hlast |].
  split; [| split; [| split]].
  - destruct am as [a b]. apply (Hsound a b). apply in_or_app. right. now left.
  - apply Forall_forall. intros [a b] Hin. simpl. split.
    + apply (Hsound a b). apply in_or_app. now left.
    + apply (Hbefore (a, b) Hin).
  - intros p l Hp.
    destruct (@finditer_from_covers rest 0 0 p l) as (a & b & Hin & Hab);
      [lia | now rewrite Nat.sub_0_r |].
    fold (AMOUNT_PATTERN_finditer rest) in Hin. rewrite Hfi in Hin.
    apply in_app_or in Hin. destruct Hin as [Hin | [Heq | []]].
    + apply Hbefore in Hin. simpl in Hin.
      destruct am as [a' b']. pose proof (Hsound a' b') as Hx.
      simpl in *. assert ((a' < b')%nat) by (apply Hx, in_or_app; right; now left).
      lia.
    + subst am. simpl. lia.
  - intros orig dt. destruct am as [a b]. cbn [fst snd].
    assert (Hh : AMOUNT_PATTERN_here (skipn a rest) = Some (b - a)%nat).
    { apply (Hsound a b). apply in_or_app. right. now left. }
    unfold transaction_of, signed_amount, amount_is_negative.
    rewrite Hlast. cbn [fst snd]. unfold slice.
    destruct (amount_match_value _ Hh)
      as (ds & e1 & e2 & _ & _ & _ & _ & [[Hc Hf] | [Hc Hf]]).
    + split; [| intros Hyes; congruence].
      intros _.
      destruct (@amount_match_exact (skipn a rest) (b - a) _ Hh Hf)
        as (intpart & d1 & d2 & Hsl & _ & _ & _ & Hval & _).
      rewrite Hf, Hc. cbn [orb].
      destruct (description rest (a, b)) as [desc inst].
      exists intpart, d1, d2. eexists.
      split; [exact Hsl |]. split; [reflexivity |].
      cbn [amount]. now rewrite Hval.
    + split; [intros Hno; congruence |].
      intros _. now rewrite Hf.
Qed.

Lemma last_amount_occurrence_wins_witness :
  (2 <= length (AMOUNT_PATTERN_finditer (T "cuota 12,50 1.000,00")))%nat
  /\ exists earlier am t,
       AMOUNT_PATTERN_finditer (T "cuota 12,50 1.000,00") = earlier ++ [am]
       /\ last_amount_match (T "cuota 12,50 1.000,00") = Some am
       /\ transaction_of (T "05/03 cuota 12,50 1.000,00") (Date 2026 3 5)
                         (T "cuota 12,50 1.000,00") = Some t
       /\ amount t = 100000%Z.
Proof.
  assert (H : (2 <= length (AMOUNT_PATTERN_finditer (T "cuota 12,50 1.000,00")))%nat)
    by (vm_compute; lia).
  split; [exact H |].
  destruct (last_amount_occurrence_wins (T "cuota 12,50 1.000,00") H)
    as (earlier & am & H1 & _ & H3 & _ & _ & _ & H7).
  assert (Ham : am = (12, 20)%nat).
  { vm_compute in H3. now injection H3 as <-. }
  subst am.
  destruct (proj1 (H7 (T "05/03 cuota 12,50 1.000,00") (Date 2026 3 5)))
    as (intpart & d1 & d2 & t & _ & Ht & _); [vm_compute; reflexivity |].
  exists earlier, (12, 20)%nat, t.
  split; [exact H1 |]. split; [exact H3 |]. split; [exact Ht |].
  vm_compute in Ht. now injection Ht as <-.
Defined.

(** C2 (as the code has it).  A line that opens with a numeric short date
    [DD/MM] which is a date of the current year, and whose last amount match
    carries no trailing [-], is imported as exactly one transaction dated
    day [DD] of the statement's month and year, whatever [MM] is -- when the
    statement's month has a day [DD]; when it has none, the transaction is
    dropped by the substitution of the period. *)
Theorem numeric_short_date_import
        (today_year year month : Z) (orig d mn tail : text) (am : nat * nat) :
  DATE_PATTERN (strip orig) = Some (d, mn, tail) ->
  Datetime.valid today_year (int mn) (int d) = true ->
  last_amount_match (strip tail) = Some am ->
  contains "-" (slice (fst am) (snd am) (strip tail)) = false ->
  exists name amt inst,
    ExpenseApp.import_lines today_year year month [orig]
    = inr (if Datetime.valid year month (int d)
           then [mkTransaction (Date year month (int d)) name amt inst]
           else []).
Proof.
  intros Hm Hv Hlast Hc.
  destruct (last_amount_match_in _ Hlast) as [earlier Hfi].
  destruct am as [a b]. simpl fst in Hc. simpl snd in Hc.
  assert (Hin : In (a, b) (AMOUNT_PATTERN_finditer (strip tail))).
  { rewrite Hfi. apply in_or_app. right. now left. }
  destruct (signed_amount_of_match _ _ _ Hin)
    as (ds & d1 & d2 & _ & _ & _ & _ & [[_ Hs] | [Hc' _]]);
    [| rewrite Hc in Hc'; discriminate].
  unfold ExpenseApp.import_lines, parse_lines, parse_line.
  destruct (strip orig) as [| c l] eqn:Hl; [discriminate Hm |].
  unfold find_date, numeric_date. rewrite Hm.
  unfold Datetime.date_new at 1. rewrite Hv.
  destruct (strip tail) as [| c' l'] eqn:Ht; [discriminate Hlast |].
  unfold transaction_of. rewrite Hlast.
  destruct (signed_amount (c' :: l') (a, b)) as [amt |]; [| discriminate Hs].
  destruct (description (c' :: l') (a, b)) as [desc inst].
  exists (match desc with
          | [] => orig
          | _ :: _ => desc
          end), amt, inst.
  unfold ExpenseApp.adjusted, Datetime.date_new. simpl tx_date. simpl day.
  destruct (Datetime.valid year month (int d)); reflexivity.
Qed.

Lemma numeric_short_date_import_witness :
  DATE_PATTERN (strip (T "05/03 SUPERMERCADO * LA FLOR C.03/06 9.583,29"))
  = Some (T "05", T "03", T " SUPERMERCADO * LA FLOR C.03/06 9.583,29")
  /\ Datetime.valid 2026 (int (T "03")) (int (T "05")) = true
  /\ last_amount_match (strip (T " SUPERMERCADO * LA FLOR C.03/06 9.583,29"))
     = Some (31, 39)%nat
  /\ exists name amt inst,
       ExpenseApp.import_lines 2026 2024 3
         [T "05/03 SUPERMERCADO * LA FLOR C.03/06 9.583,29"]
       = inr (if Datetime.valid 2024 3 (int (T "05"))
              then [mkTransaction (Date 2024 3 (int (T "05"))) name amt inst]
              else []).
Proof.
  assert (H1 : DATE_PATTERN (strip (T "05/03 SUPERMERCADO * LA FLOR C.03/06 9.583,29"))
               = Some (T "05", T "03", T " SUPERMERCADO * LA FLOR C.03/06 9.583,29"))
    by (vm_compute; reflexivity).
  assert (H2 : Datetime.valid 2026 (int (T "03")) (int (T "05")) = true)
    by (vm_compute; reflexivity).
  assert (H3 : last_amount_match (strip (T " SUPERMERCADO * LA FLOR C.03/06 9.583,29"))
               = Some (31, 39)%nat)
    by (vm_compute; reflexivity).
  split; [exact H1 |]. split; [exact H2 |]. split; [exact H3 |].
  apply (numeric_short_date_import 2026 2024 3
           (T "05/03 SUPERMERCADO * LA FLOR C.03/06 9.583,29") H1 H2 H3).
  vm_compute. reflexivity.
Defined.

(** C2 as stated fails when the statement's month has no day [DD]: the line
    ["31/01 market 10,00"] opens with a valid short date and ends in a
    well-formed amount, and importing it into a February statement yields no
    transaction. *)
Lemma numeric_short_date_import_counterexample :
  DATE_PATTERN (strip (T "31/01 market 10,00"))
  = Some (T "31", T "01", T " market 10,00")
  /\ Datetime.valid 2025 (int (T "01")) (int (T "31")) = true
  /\ last_amount_match (strip (T " market 10,00")) = Some (7, 12)%nat
  /\ exists t, parse_lines 2025 [T "31/01 market 10,00"] = inr [t]
  /\ ExpenseApp.import_lines 2025 2025 2 [T "31/01 market 10,00"] = inr [].
Proof.
  repeat split; try (vm_compute; reflexivity).
  eexists. split; vm_compute; reflexivity.
Qed.

(** The worked line of the specification, imported into March 2024. *)
Example import_of_the_sample_line :
  ExpenseApp.import_lines 2026 2024 3
    [T "05/03 SUPERMERCADO * LA FLOR C.03/06 9.583,29"]
  = inr [mkTransaction (Date 2024 3 5) (T "LA FLOR") 958329 (Some 3%Z)].
Proof. vm_compute. reflexivity. Qed.

(** A sign just before the match, not inside it, is the one that reaches the
    transaction. *)
Example sign_before_the_match :
  parse_lines 2026 [T "05/03 market -1.000,00"]
  = inr [mkTransaction (Date 2026 3 5) (T "market -") (-100000) None].
Proof. vm_compute. reflexivity. Qed.

(** *** The older revision of the parser

    The revision kept in database_manager.py behaves the same way on the two
    lines above, and its third date form is unguarded as well. *)

Lemma older_revision_raises_on_feb_30 (today_year : Z) :
  Revision4.parse_lines today_year [T "30 Feb market 1.000,00-"] = inl ValueError.
Proof.
  assert (Hd : Revision4.find_date today_year (T "30 Feb market 1.000,00-")
               = inl ValueError).
  { unfold Revision4.find_date, numeric_date, Revision4.month_name_date.
    replace (DATE_PATTERN (T "30 Feb market 1.000,00-"))
      with (@None (text * text * text)) by (vm_compute; reflexivity).
    replace (MONTH_PATTERN (T "30 Feb market 1.000,00-"))
      with (Some (T "30", T "Feb", T " market 1.000,00-"))
      by (vm_compute; reflexivity).
    replace (Revision4.MONTH_NAMES_get (lower (Revision4.rstrip_periods (T "Feb"))))
      with (Some 2%Z) by (vm_compute; reflexivity).
    change (2 =? 0)%Z with false. cbv iota.
    unfold Datetime.date_new.
    change (int (T "30")) with 30%Z.
    rewrite feb_30_invalid. reflexivity. }
  unfold Revision4.parse_lines, Revision4.parse_line.
  change (strip (T "30 Feb market 1.000,00-")) with (T "30 Feb market 1.000,00-").
  rewrite Hd. reflexivity.
Qed.

Lemma older_revision_raises_on_hyphen_date (today_year : Z) :
  Revision4.parse_lines today_year [T "31-abr-24 market 10,00"] = inl ValueError.
Proof.
  unfold Revision4.parse_lines, Revision4.parse_line.
  change (strip (T "31-abr-24 market 10,00")) with (T "31-abr-24 market 10,00").
  unfold Revision4.find_date, numeric_date, Revision4.month_name_date.
  replace (DATE_PATTERN (T "31-abr-24 market 10,00"))
    with (@None (text * text * text)) by (vm_compute; reflexivity).
  replace (MONTH_PATTERN (T "31-abr-24 market 10,00"))
    with (@None (text * text * text)) by (vm_compute; reflexivity).
  vm_compute. reflexivity.
Qed.

Lemma older_revision_drops_trailing_minus (today_year : Z) :
  Revision4.parse_lines today_year [T "05/03 market 1.000,00-"] = inr [].
Proof.
  unfold Revision4.parse_lines, Revision4.parse_line.
  change (strip (T "05/03 market 1.000,00-")) with (T "05/03 market 1.000,00-").
  unfold Revision4.find_date, numeric_date, Revision4.month_name_date,
    Revision4.hyphen_date.
  replace (DATE_PATTERN (T "05/03 market 1.000,00-"))
    with (Some (T "05", T "03", T " market 1.000,00-"))
    by (vm_compute; reflexivity).
  replace (MONTH_PATTERN (T "05/03 market 1.000,00-"))
    with (@None (text * text * text)) by (vm_compute; reflexivity).
  replace (Revision4.HYPHEN_PATTERN (T "05/03 market 1.000,00-"))
    with (@None (text * text * text * text)) by (vm_compute; reflexivity).
  destruct (Datetime.date_new today_year (int (T "03")) (int (T "05")));
    reflexivity.
Qed.

Example older_revision_sample_line :
  Revision4.parse_lines 2026
    [T "05/03 SUPERMERCADO * 0042 LA FLOR C.03/06 9.583,29"]
  = inr [mkTransaction (Date 2026 3 5) (T "LA FLOR") 958329 (Some 3%Z)].
Proof. vm_compute. reflexivity. Qed.

End ParserFacts.

(** * Properties of the store *)

Section StoreFacts.
Import Str DatabaseManager History.
Open Scope Z_scope.

(** The comparison of [WHERE name=?] is equality of strings. *)
Lemma text_eqb_eq (a b : text) : text_eqb a b = true <-> a = b.
Proof.
  revert b. induction a as [| x a IH]; intros [| y b]; simpl;
    try (split; [discriminate | discriminate]); [tauto |].
  rewrite andb_true_iff, IH. unfold chr_eqb. rewrite Ascii.eqb_eq.
  split; [intros [-> ->]; reflexivity | intros H; injection H; auto].
Qed.

Lemma text_eqb_refl (a : text) : text_eqb a a = true.
Proof. now apply text_eqb_eq. Qed.

Lemma get_default_category_id_found (d : db) (default : Z) :
  fst (get_default_category_id d) = Ok default ->
  exists c, find (fun c => text_eqb (c_name c) NO_ASIGNADA) (categories d) = Some c
            /\ c_id c = default
            /\ get_default_category_id d = (Ok default, d).
Proof.
  unfold get_default_category_id.
  destruct (find _ (categories d)) as [c |] eqn:Hf; simpl; [| discriminate].
  intros H. injection H as <-. now exists c.
Qed.

Lemma has_category_of_default (d : db) (default : Z) :
  fst (get_default_category_id d) = Ok default -> has_category default d = true.
Proof.
  intros H. apply get_default_category_id_found in H.
  destruct H as (c & Hf & Hid & _).
  apply find_some in Hf. destruct Hf as [Hin _].
  unfold has_category. apply existsb_exists. exists c.
  split; [exact Hin | now apply Z.eqb_eq].
Qed.

(** C5.  Whatever the store holds, deleting the category that
    [get_default_category_id] names raises the [ValueError] of the guard and
    changes nothing: every table is as before, and the default category is
    still there. *)
Theorem delete_default_category_refused (d : db) (default : Z) :
  fst (get_default_category_id d) = Ok default ->
  delete_category default d
  = (Raise ValueError, d)
    /\ has_category default (snd (delete_category default d)) = true.
Proof.
  intros H.
  assert (Hd : delete_category default d
               = (Raise ValueError, d)).
  { destruct (get_default_category_id_found d H) as (c & _ & _ & Hg).
    unfold delete_category, bind. rewrite Hg, Z.eqb_refl. reflexivity. }
  split; [exact Hd |].
  rewrite Hd. simpl. now apply has_category_of_default.
Qed.

Lemma delete_default_category_refused_witness :
  fst (get_default_category_id
         (snd (get_store_id (T "market") (init empty_db)))) = Ok 1
  /\ fst (delete_category 1 (snd (get_store_id (T "market") (init empty_db))))
     = Raise ValueError.
Proof.
  assert (H : fst (get_default_category_id
                     (snd (get_store_id (T "market") (init empty_db)))) = Ok 1)
    by (vm_compute; reflexivity).
  split; [exact H |].
  rewrite (proj1 (delete_default_category_refused _ H)). reflexivity.
Defined.

Lemma store_category_rows_no_store (d : db) (sid : Z) :
  has_store sid d = false -> store_category_rows sid d = [].
Proof.
  unfold has_store, store_category_rows.
  induction (stores d) as [| s l IH]; simpl; [reflexivity |].
  intros H. apply orb_false_iff in H. destruct H as [Hs Hl].
  rewrite Hs. simpl. now apply IH.
Qed.

(** C10.  For a store id that no row of [stores] carries, or whose row
    joins with no category, [get_store_category] returns the id of the
    default category with the name ["NO ASIGNADA"]; the store is not
    changed.  The id is one [sqlite3] binds, an integer of 64 bits: any
    other is refused by [execute] with [OverflowError] before the query
    runs, and is no id of a row. *)
Theorem get_store_category_falls_back (d : db) (sid default : Z) :
  ExpenseApp.fits_integer sid = true ->
  fst (get_default_category_id d) = Ok default ->
  has_store sid d = false \/ store_category_rows sid d = [] ->
  get_store_category sid d = (Ok (default, NO_ASIGNADA), d).
Proof.
  intros _ Hdef Hrows.
  assert (Hnil : store_category_rows sid d = []).
  { destruct Hrows as [H | H]; [now apply store_category_rows_no_store | exact H]. }
  destruct (get_default_category_id_found d Hdef) as (c & _ & _ & Hg).
  unfold get_store_category. rewrite Hnil.
  unfold bind, ret. rewrite Hg. reflexivity.
Qed.

Lemma get_store_category_falls_back_witness :
  ExpenseApp.fits_integer 7 = true
  /\ fst (get_default_category_id (init empty_db)) = Ok 1
  /\ has_store 7 (init empty_db) = false
  /\ get_store_category 7 (init empty_db) = (Ok (1, NO_ASIGNADA), init empty_db).
Proof.
  assert (H0 : ExpenseApp.fits_integer 7 = true) by (vm_compute; reflexivity).
  assert (H1 : fst (get_default_category_id (init empty_db)) = Ok 1)
    by (vm_compute; reflexivity).
  assert (H2 : has_store 7 (init empty_db) = false) by (vm_compute; reflexivity).
  split; [exact H0 |]. split; [exact H1 |]. split; [exact H2 |].
  apply (@get_store_category_falls_back (init empty_db) 7 1 H0 H1). left. exact H2.
Defined.

(** *** Deleting a category *)


Lemma map_id_on (A : Type) (f : A -> A) (l : list A) :
  (forall x, In x l -> f x = x) -> map f l = l.
Proof.
  induction l as [| y r IH]; simpl; intros H; [reflexivity |].
  rewrite (H y) by now left. rewrite IH; [reflexivity |].
  intros x Hx. apply H. now right.
Qed.







(** *** Resolving a merchant *)

Lemma fold_left_max_ge (l : list Z) (a : Z) :
  a <= fold_left Z.max l a /\ forall x, In x l -> x <= fold_left Z.max l a.
Proof.
  revert a. induction l as [| y r IH]; intros a; simpl.
  - split; [lia | contradiction].
  - destruct (IH (Z.max a y)) as [H1 H2]. split; [lia |].
    intros x [<- | Hx]; [lia | now apply H2].
Qed.

(** An [AUTOINCREMENT] key is larger than every key of the table. *)
Lemma next_id_fresh (seq : Z) (ids : list Z) (x : Z) :
  In x ids -> x < next_id seq ids.
Proof.
  intros H. unfold next_id.
  pose proof (proj2 (fold_left_max_ge ids seq) x H). lia.
Qed.

Lemma find_map_keep (A : Type) (p : A -> bool) (f : A -> A) (l : list A) (s : A) :
  (forall x, p (f x) = p x) ->
  find p l = Some s -> find p (map f l) = Some (f s).
Proof.
  intros Hp. induction l as [| y r IH]; simpl; [discriminate |].
  rewrite Hp. destruct (p y); [intros H; now injection H as -> | exact IH].
Qed.

Lemma find_app_keep (A : Type) (p : A -> bool) (l e : list A) (s : A) :
  find p l = Some s -> find p (l ++ e) = Some s.
Proof.
  induction l as [| y r IH]; simpl; [discriminate |].
  destruct (p y); [auto | exact IH].
Qed.

Lemma find_app_new (A : Type) (p : A -> bool) (l : list A) (x : A) :
  find p l = None -> p x = true -> find p (l ++ [x]) = Some x.
Proof.
  intros Hl Hx. induction l as [| y r IH]; simpl in *.
  - now rewrite Hx.
  - destruct (p y); [discriminate | now apply IH].
Qed.

Lemma get_store_id_stores (name : text) (d : db) :
  exists e, stores (snd (get_store_id name d)) = stores d ++ e.
Proof.
  unfold get_store_id.
  destruct (find _ (stores d)); [exists []; simpl; now rewrite app_nil_r |].
  unfold bind, get_default_category_id.
  destruct (find _ (categories d)); simpl.
  - eexists. reflexivity.
  - exists []. now rewrite app_nil_r.
Qed.

Lemma insert_transaction_stores (sid : Z) (dt : date) (store_id amt : Z)
      (inst : option Z) (d : db) :
  stores (snd (insert_transaction sid dt store_id amt inst d)) = stores d.
Proof.
  unfold insert_transaction.
  destruct (has_statement sid d && has_store store_id d); reflexivity.
Qed.

Lemma add_transactions_stores (sid : Z) (txs : list Transaction) :
  forall d, exists e, stores (snd (add_transactions sid txs d)) = stores d ++ e.
Proof.
  induction txs as [| t r IH]; intros d; simpl.
  - exists []. simpl. now rewrite app_nil_r.
  - unfold bind at 1.
    destruct (get_store_id_stores (store_name t) d) as [e1 He1].
    destruct (get_store_id (store_name t) d) as [[i | err] d1]; simpl in He1.
    + unfold bind at 1.
      pose proof (insert_transaction_stores sid (tx_date t) i (amount t)
                    (installment_number t) d1) as He2.
      destruct (insert_transaction sid (tx_date t) i (amount t)
                                   (installment_number t) d1) as [[u | err] d2];
        simpl in He2.
      * destruct (IH d2) as [e3 He3]. exists (e1 ++ e3).
        rewrite He3, He2, He1. now rewrite app_assoc.
      * exists e1. simpl. now rewrite He2.
    + exists e1. exact He1.
Qed.

(** No call renames a merchant, changes its id or removes it: the row a
    name finds keeps its id through every call. *)
Lemma step_keeps_store (name : text) (s : store_row) (c : call) (d : db) :
  find (fun s => text_eqb (s_name s) name) (stores d) = Some s ->
  exists s', find (fun s => text_eqb (s_name s) name) (stores (step c d)) = Some s'
             /\ s_id s' = s_id s.
Proof.
  intros Hf.
  assert (Happ : forall d', (exists e, stores d' = stores d ++ e) ->
             exists s', find (fun s => text_eqb (s_name s) name) (stores d') = Some s'
                        /\ s_id s' = s_id s).
  { intros d' [e ->]. exists s. split; [now apply find_app_keep | reflexivity]. }
  assert (Hsame : forall d', stores d' = stores d ->
             exists s', find (fun s => text_eqb (s_name s) name) (stores d') = Some s'
                        /\ s_id s' = s_id s).
  { intros d' H. apply Happ. exists []. now rewrite app_nil_r. }
  assert (Hmap : forall (f : store_row -> store_row) d',
             (forall x, s_name (f x) = s_name x /\ s_id (f x) = s_id x) ->
             stores d' = map f (stores d) ->
             exists s', find (fun s => text_eqb (s_name s) name) (stores d') = Some s'
                        /\ s_id s' = s_id s).
  { intros f d' Hfx ->. exists (f s). split; [| apply Hfx].
    apply find_map_keep; [| exact Hf]. intros x. now rewrite (proj1 (Hfx x)). }
  destruct c; simpl.
  - apply Hsame. unfold add_category.
    destruct (has_category_named name0 d); reflexivity.
  - unfold delete_category, bind, get_default_category_id.
    destruct (find _ (categories d)) as [c0 |]; [| now apply Hsame].
    destruct (cid =? c_id c0); [now apply Hsame |].
    apply (Hmap (fun s => if opt_is (s_category_id s) cid
                          then mkStore (s_id s) (s_name s) (Some (c_id c0)) else s));
      [| reflexivity].
    intros x. destruct (opt_is (s_category_id x) cid); split; reflexivity.
  - apply Happ. apply get_store_id_stores.
  - unfold update_store_category.
    destruct (has_store sid d && negb (has_category cid d)); [now apply Hsame |].
    apply (Hmap (fun s => if s_id s =? sid
                          then mkStore (s_id s) (s_name s) (Some cid) else s));
      [| reflexivity].
    intros x. destruct (s_id x =? sid); split; reflexivity.
  - apply Hsame. unfold add_statement.
    destruct (existsb _ (statements d)); reflexivity.
  - apply Happ. apply add_transactions_stores.
  - apply Happ. unfold add_manual_transaction, bind.
    destruct (get_store_id_stores name0 d) as [e He].
    destruct (get_store_id name0 d) as [[i | err] d1]; simpl in He.
    + exists e. now rewrite insert_transaction_stores.
    + exists e. exact He.
  - now apply Hsame.
  - now apply Hsame.
  - apply Hsame. unfold ExpenseApp.modify_statement.
    destruct (existsb _ (statements d)); reflexivity.
  - apply Hsame. unfold init, _ensure_cash_statement, _ensure_default_category.
    destruct (has_category_named NO_ASIGNADA d);
      destruct (existsb is_cash_statement _); reflexivity.
Qed.

Lemma run_keeps_store (name : text) (cs : list call) :
  forall (s : store_row) (d : db),
    find (fun s => text_eqb (s_name s) name) (stores d) = Some s ->
    exists s', find (fun s => text_eqb (s_name s) name) (stores (run cs d)) = Some s'
               /\ s_id s' = s_id s.
Proof.
  induction cs as [| c r IH]; intros s d Hf; simpl.
  - now exists s.
  - destruct (@step_keeps_store name s c d Hf) as (s1 & Hf1 & Hid1).
    destruct (IH s1 _ Hf1) as (s2 & Hf2 & Hid2).
    exists s2. split; [exact Hf2 | congruence].
Qed.

Lemma get_store_id_hit (name : text) (s : store_row) (d : db) :
  find (fun s => text_eqb (s_name s) name) (stores d) = Some s ->
  get_store_id name d = (Ok (s_id s), d).
Proof. intros H. unfold get_store_id. now rewrite H. Qed.

(** C6.  In a store that has its default category, resolving a description
    returns an id.  The lookup is by equality of strings: the row returned
    carries exactly that name.  A name already there creates nothing; a new
    name adds exactly one row, with a fresh id and the current default
    category, and touches no other table.  After that, through any history of
    calls on the store, resolving the same string returns the same id and
    creates nothing. *)
Theorem merchant_resolution (d : db) (name : text) (default : Z) :
  fst (get_default_category_id d) = Ok default ->
  exists i d1,
    get_store_id name d = (Ok i, d1)
    /\ (exists s, In s (stores d1) /\ s_id s = i /\ s_name s = name)
    /\ match find (fun s => text_eqb (s_name s) name) (stores d) with
       | Some s => i = s_id s /\ d1 = d
       | None =>
           stores d1 = stores d ++ [mkStore i name (Some default)]
           /\ (forall s, In s (stores d) -> s_id s < i)
           /\ categories d1 = categories d
           /\ statements d1 = statements d
           /\ transactions d1 = transactions d
       end
    /\ (forall cs, get_store_id name (run cs d1) = (Ok i, run cs d1)).
Proof.
  intros Hdef.
  destruct (get_default_category_id_found d Hdef) as (c & _ & _ & Hg).
  assert (Hstable : forall s d1,
             find (fun s => text_eqb (s_name s) name) (stores d1) = Some s ->
             forall cs, get_store_id name (run cs d1) = (Ok (s_id s), run cs d1)).
  { intros s d1 Hf cs.
    destruct (@run_keeps_store name cs s d1 Hf) as (s' & Hf' & <-).
    now apply get_store_id_hit. }
  destruct (find (fun s => text_eqb (s_name s) name) (stores d)) as [s |] eqn:Hf.
  - exists (s_id s), d. split; [now apply get_store_id_hit |].
    split; [| split; [now split | now apply Hstable]].
    apply find_some in Hf. destruct Hf as [Hin Hn].
    exists s. repeat split; [exact Hin |]. now apply text_eqb_eq.
  - exists (fst (insert_store name default d)), (snd (insert_store name default d)).
    split.
    { unfold get_store_id. rewrite Hf. unfold bind. rewrite Hg. reflexivity. }
    split.
    { exists (mkStore (fst (insert_store name default d)) name (Some default)).
      split; [| split; reflexivity].
      unfold insert_store. cbn [snd stores]. apply in_or_app. right. now left. }
    split.
    { split; [reflexivity |]. split; [| repeat split].
      intros s Hin. unfold insert_store. cbn [fst].
      apply next_id_fresh. now apply in_map. }
    apply (Hstable (mkStore (fst (insert_store name default d)) name (Some default))).
    unfold insert_store. cbn [snd stores].
    apply find_app_new; [exact Hf | apply text_eqb_refl].
Qed.

Lemma merchant_resolution_witness :
  fst (get_default_category_id (init empty_db)) = Ok 1
  /\ exists i d1,
       get_store_id (T "LA FLOR") (init empty_db) = (Ok i, d1)
       /\ forall cs, get_store_id (T "LA FLOR") (run cs d1) = (Ok i, run cs d1).
Proof.
  assert (H : fst (get_default_category_id (init empty_db)) = Ok 1)
    by (vm_compute; reflexivity).
  split; [exact H |].
  destruct (merchant_resolution (init empty_db) (T "LA FLOR") H)
    as (i & d1 & H1 & _ & _ & H2).
  exists i, d1. split; assumption.
Defined.

(** *** Category sums *)

Lemma total_app (a b : list Z) : total (a ++ b) = total a + total b.
Proof.
  unfold total. induction a as [| x a IH]; simpl; [reflexivity |].
  rewrite IH. lia.
Qed.

Lemma opt_is_true (o : option Z) (v : Z) : opt_is o v = true <-> o = Some v.
Proof.
  destruct o as [x |]; simpl; [| split; discriminate].
  rewrite Z.eqb_eq. split; [now intros -> | intros H; now injection H].
Qed.

(** The rows of the join. *)
Lemma in_joined (scope : transaction_row -> bool) (d : db) (c : category_row) (a : Z) :
  In (c, a) (joined scope d)
  <-> exists t s,
        In t (transactions d) /\ scope t = true
        /\ In s (stores d) /\ s_id s = t_store_id t
        /\ In c (categories d) /\ s_category_id s = Some (c_id c)
        /\ a = t_amount t.
Proof.
  unfold joined. rewrite in_flat_map. split.
  - intros (t & Ht & Hin).
    destruct (scope t) eqn:Hsc; [| contradiction].
    unfold rows_of in Hin.
    apply in_flat_map in Hin. destruct Hin as (s & Hs & Hin).
    destruct (s_id s =? t_store_id t) eqn:Hid; [| contradiction].
    unfold category_rows_of in Hin.
    apply in_flat_map in Hin. destruct Hin as (c' & Hc & Hin).
    destruct (opt_is (s_category_id s) (c_id c')) eqn:Ho; [| contradiction].
    destruct Hin as [Heq | []]. injection Heq as -> <-.
    exists t, s. repeat split; try assumption.
    + now apply Z.eqb_eq.
    + now apply opt_is_true.
  - intros (t & s & Ht & Hsc & Hs & Hid & Hc & Ho & ->).
    exists t. split; [exact Ht |]. rewrite Hsc.
    unfold rows_of.
    apply in_flat_map. exists s. split; [exact Hs |].
    apply Z.eqb_eq in Hid. rewrite Hid.
    unfold category_rows_of.
    apply in_flat_map. exists c. split; [exact Hc |].
    apply opt_is_true in Ho. rewrite Ho. now left.
Qed.

Lemma amounts_of_absent (gs : list group) (k : Z) :
  ~ In k (map g_id gs) -> amounts_of gs k = [].
Proof.
  induction gs as [| g r IH]; intros H; [reflexivity |].
  cbn [amounts_of flat_map]. cbn [map] in H.
  destruct (g_id g =? k) eqn:He; [apply Z.eqb_eq in He; simpl in H; tauto |].
  apply IH. simpl in H. tauto.
Qed.

Lemma above_absent (k x : Z) (l : list Z) :
  k <= x -> Forall (Z.lt x) l -> ~ In k l.
Proof.
  intros Hk Hall Hin. rewrite Forall_forall in Hall.
  specialize (Hall k Hin). lia.
Qed.

(** A row joins the amounts of its group at their end. *)
Lemma add_to_groups_amounts (c : category_row) (a : Z) (gs : list group) (k : Z) :
  StronglySorted Z.lt (map g_id gs) ->
  amounts_of (add_to_groups c a gs) k
  = amounts_of gs k ++ (if c_id c =? k then [a] else []).
Proof.
  induction gs as [| g r IH]; intros Hs.
  - cbn [add_to_groups amounts_of flat_map g_id g_amounts].
    now rewrite app_nil_r.
  - cbn [map] in Hs. inversion Hs as [| x l Hr Hall]; subst.
    cbn [add_to_groups].
    destruct (c_id c =? g_id g) eqn:He.
    + apply Z.eqb_eq in He. cbn [amounts_of flat_map g_id g_amounts].
      fold (amounts_of r k). rewrite He.
      destruct (g_id g =? k) eqn:Hk.
      * apply Z.eqb_eq in Hk.
        rewrite (@amounts_of_absent r k), !app_nil_r; [reflexivity |].
        apply (above_absent (x := g_id g)); [lia | exact Hall].
      * now rewrite app_nil_r.
    + destruct (c_id c <? g_id g) eqn:Hlt.
      * apply Z.ltb_lt in Hlt.
        change (amounts_of (mkGroup (c_id c) (c_name c) [a] :: g :: r) k)
          with ((if c_id c =? k then [a] else []) ++ amounts_of (g :: r) k).
        destruct (c_id c =? k) eqn:Hk; [| now rewrite app_nil_r].
        apply Z.eqb_eq in Hk.
        rewrite (@amounts_of_absent (g :: r) k); [reflexivity |].
        cbn [map]. intros [H | H]; [lia |].
        revert H. apply (above_absent (x := g_id g)); [lia | exact Hall].
      * change (amounts_of (g :: add_to_groups c a r) k)
          with ((if g_id g =? k then g_amounts g else [])
                  ++ amounts_of (add_to_groups c a r) k).
        rewrite (IH Hr), app_assoc. reflexivity.
Qed.

Lemma add_to_groups_ids (c : category_row) (a : Z) (gs : list group) (k : Z) :
  In k (map g_id (add_to_groups c a gs)) <-> k = c_id c \/ In k (map g_id gs).
Proof.
  induction gs as [| g r IH]; simpl.
  - intuition.
  - destruct (c_id c =? g_id g) eqn:He.
    + apply Z.eqb_eq in He. simpl. rewrite He. intuition.
    + destruct (c_id c <? g_id g); simpl; [intuition |].
      rewrite IH. intuition.
Qed.

Lemma add_to_groups_sorted (c : category_row) (a : Z) (gs : list group) :
  StronglySorted Z.lt (map g_id gs) ->
  StronglySorted Z.lt (map g_id (add_to_groups c a gs)).
Proof.
  induction gs as [| g r IH]; simpl; intros Hs.
  - repeat constructor.
  - inversion Hs as [| x l Hr Hall]; subst.
    destruct (c_id c =? g_id g) eqn:He; [exact Hs |].
    destruct (c_id c <? g_id g) eqn:Hlt; simpl.
    + apply Z.ltb_lt in Hlt. constructor; [exact Hs |].
      constructor; [exact Hlt |].
      eapply Forall_impl; [| exact Hall]. intros y Hy. lia.
    + constructor; [now apply IH |].
      apply Forall_forall. intros y Hy.
      apply add_to_groups_ids in Hy. destruct Hy as [-> | Hy].
      * apply Z.eqb_neq in He. apply Z.ltb_ge in Hlt. lia.
      * rewrite Forall_forall in Hall. now apply Hall.
Qed.

Lemma add_to_groups_source (c : category_row) (a : Z) (gs : list group) (g' : group) :
  In g' (add_to_groups c a gs) ->
  (g_id g' = c_id c /\ g_name g' = c_name c)
  \/ exists g, In g gs /\ g_id g = g_id g' /\ g_name g = g_name g'.
Proof.
  induction gs as [| g r IH]; simpl.
  - intros [<- | []]. now left.
  - destruct (c_id c =? g_id g) eqn:He.
    + intros [<- | Hin]; right.
      * exists g. simpl. auto.
      * exists g'. auto.
    + destruct (c_id c <? g_id g).
      * intros [<- | [<- | Hin]]; [now left | right; exists g; auto
                                  | right; exists g'; auto].
      * intros [<- | Hin]; [right; exists g; auto |].
        destruct (IH Hin) as [H | (g0 & H0 & H1)]; [now left |].
        right. exists g0. auto.
Qed.

(** [GROUP BY c.id] over the rows, from groups already formed, in the order
    of their keys. *)
Lemma grouping (rows : list (category_row * Z)) :
  forall gs,
    StronglySorted Z.lt (map g_id gs) ->
    let res := fold_left (fun gs ca => add_to_groups (fst ca) (snd ca) gs) rows gs in
    StronglySorted Z.lt (map g_id res)
    /\ (forall k, amounts_of res k
                  = amounts_of gs k
                    ++ map snd (filter (fun ca => c_id (fst ca) =? k) rows))
    /\ (forall k, In k (map g_id res)
                  <-> In k (map g_id gs) \/ exists c a, In (c, a) rows /\ c_id c = k)
    /\ (forall g', In g' res ->
                   (exists g, In g gs /\ g_id g = g_id g' /\ g_name g = g_name g')
                   \/ exists c a, In (c, a) rows /\ c_id c = g_id g'
                                  /\ c_name c = g_name g').
Proof.
  induction rows as [| [c a] rows IH]; intros gs Hs; cbn [fold_left fst snd].
  - cbv zeta. split; [exact Hs |]. split; [| split].
    + intros k. cbn [filter map]. now rewrite app_nil_r.
    + intros k. split; [auto |]. intros [H | (c & a & [] & _)]. exact H.
    + intros g' H. left. exists g'. auto.
  - destruct (IH (add_to_groups c a gs) (@add_to_groups_sorted c a gs Hs))
      as (H0 & H1 & H2 & H4).
    cbv zeta. split; [exact H0 |]. split; [| split].
    + intros k. rewrite H1, (@add_to_groups_amounts c a gs k Hs), <- app_assoc.
      cbn [filter fst]. destruct (c_id c =? k); reflexivity.
    + intros k. rewrite H2, add_to_groups_ids. split.
      * intros [[-> | H] | (c' & a' & Hin & Hk)].
        -- right. exists c, a. split; [now left | reflexivity].
        -- now left.
        -- right. exists c', a'. split; [now right | exact Hk].
      * intros [H | (c' & a' & [Heq | Hin] & Hk)].
        -- left. now right.
        -- injection Heq as <- <-. left. now left.
        -- right. exists c', a'. auto.
    + intros g' Hin.
      destruct (H4 g' Hin) as [(g & Hg & Hid & Hn) | (c' & a' & Hr & Hid & Hn)].
      * destruct (add_to_groups_source _ _ _ _ Hg) as [[Hi Hnm] | (g0 & Hg0 & Hi & Hnm)].
        -- right. exists c, a. repeat split; [now left | congruence | congruence].
        -- left. exists g0. repeat split; [exact Hg0 | congruence | congruence].
      * right. exists c', a'. repeat split; [now right | exact Hid | exact Hn].
Qed.

Lemma sorted_ids_NoDup (l : list Z) : StronglySorted Z.lt l -> NoDup l.
Proof.
  induction 1 as [| x l Hs IH Hall]; constructor; [| exact IH].
  intros Hin. rewrite Forall_forall in Hall. specialize (Hall x Hin). lia.
Qed.

(** With one group per key, the amounts held for a key are those of its
    group. *)
Lemma amounts_of_group (gs : list group) (g : group) :
  NoDup (map g_id gs) -> In g gs -> amounts_of gs (g_id g) = g_amounts g.
Proof.
  induction gs as [| h r IH]; simpl; intros Hnd Hin; [contradiction |].
  inversion Hnd as [| x l Hnotin Hnd']; subst.
  fold (amounts_of r (g_id g)). destruct Hin as [-> | Hin].
  - rewrite Z.eqb_refl, (@amounts_of_absent _ _ Hnotin). apply app_nil_r.
  - destruct (g_id h =? g_id g) eqn:He.
    + apply Z.eqb_eq in He. exfalso. apply Hnotin. rewrite He. now apply in_map.
    + now apply IH.
Qed.

(** The groups of a query, whatever the engine: one per category id of the
    join, each with the name of its category and, in the order of the join,
    the amounts of its rows. *)
Lemma category_sum_groups_facts
      (E : engine) (scope : transaction_row -> bool) (d : db) :
  NoDup (map g_id (category_sum_groups E scope d))
  /\ (forall k, In k (map g_id (category_sum_groups E scope d))
                <-> exists c a, In (c, a) (joined scope d) /\ c_id c = k)
  /\ (forall g, In g (category_sum_groups E scope d) ->
                g_amounts g
                = map snd (filter (fun ca => c_id (fst ca) =? g_id g) (joined scope d))
                /\ exists c a, In (c, a) (joined scope d)
                               /\ c_id c = g_id g /\ c_name c = g_name g).
Proof.
  unfold category_sum_groups, group_by_category.
  destruct (@grouping (joined scope d) [] (SSorted_nil _))
    as (H3 & H1 & H2 & H4).
  set (gs := fold_left (fun gs ca => add_to_groups (fst ca) (snd ca) gs)
                       (joined scope d) []) in *.
  pose proof (ORDER_BY_permutes E gs) as Hperm.
  assert (Hnd : NoDup (map g_id gs)) by now apply sorted_ids_NoDup.
  split; [| split].
  - eapply Permutation_NoDup; [| exact Hnd].
    apply Permutation_map. now apply Permutation_sym.
  - intros k. split.
    + intros Hin.
      apply (Permutation_in _ (Permutation_map g_id Hperm)) in Hin.
      apply H2 in Hin. destruct Hin as [[] | H]. exact H.
    + intros H.
      apply (Permutation_in _ (Permutation_sym (Permutation_map g_id Hperm))).
      apply H2. now right.
  - intros g Hin. apply (Permutation_in _ Hperm) in Hin. split.
    + rewrite <- (@amounts_of_group gs g Hnd Hin), H1. reflexivity.
    + destruct (H4 g Hin) as [(g0 & [] & _) | H]. exact H.
Qed.


(** *** Reassigning a merchant *)

Lemma flat_map_none (A B : Type) (test : A -> bool) (f : A -> list B) (l : list A) :
  (forall y, In y l -> test y = false) ->
  flat_map (fun y => if test y then f y else []) l = [].
Proof.
  induction l as [| y r IH]; simpl; intros H; [reflexivity |].
  rewrite (H y) by now left. simpl. apply IH. intros z Hz. apply H. now right.
Qed.

Lemma distinct_head (x : Z) (r : list Z) :
  distinct (x :: r) = true -> ~ In x r /\ distinct r = true.
Proof.
  simpl. intros H. apply andb_true_iff in H. destruct H as [H1 H2].
  split; [| exact H2]. intros Hin. apply negb_true_iff in H1.
  assert (existsb (Z.eqb x) r = true); [| congruence].
  apply existsb_exists. exists x. split; [exact Hin | apply Z.eqb_refl].
Qed.

(** A lookup by key in a table whose keys are distinct finds its row and
    nothing else. *)
Lemma flat_map_unique (A B : Type) (key : A -> Z) (test : A -> bool)
      (f : A -> list B) (v : Z) (l : list A) (x : A) :
  (forall y, test y = true <-> key y = v) ->
  distinct (map key l) = true -> In x l -> key x = v ->
  flat_map (fun y => if test y then f y else []) l = f x.
Proof.
  intros Ht. induction l as [| y r IH]; intros Hd Hin Hk; [contradiction |].
  simpl map in Hd. apply distinct_head in Hd. destruct Hd as [Hnotin Hd].
  simpl. destruct Hin as [-> | Hin].
  - rewrite (proj2 (Ht x) Hk).
    rewrite flat_map_none; [now rewrite app_nil_r |].
    intros z Hz. destruct (test z) eqn:Hz'; [| reflexivity].
    exfalso. apply Hnotin. apply Ht in Hz'. rewrite Hk, <- Hz'. now apply in_map.
  - destruct (test y) eqn:Hy.
    + exfalso. apply Hnotin. apply Ht in Hy. rewrite Hy, <- Hk. now apply in_map.
    + simpl. now apply IH.
Qed.

(** With distinct keys, the join gives a transaction of merchant [m] one
    row: the category the merchant points at. *)
Lemma rows_of_merchant (d : db) (m : Z) (s0 : store_row) (c0 : category_row)
      (t : transaction_row) :
  keys_ok d = true ->
  In s0 (stores d) -> s_id s0 = m ->
  In c0 (categories d) -> s_category_id s0 = Some (c_id c0) ->
  t_store_id t = m ->
  rows_of d t = [(c0, t_amount t)].
Proof.
  intros Hk Hs Hm Hc Hcat Ht.
  unfold keys_ok in Hk. apply andb_true_iff in Hk. destruct Hk as [Hks Hkc].
  unfold rows_of.
  rewrite (flat_map_unique s_id (fun s => s_id s =? t_store_id t)
             (fun s => category_rows_of d s (t_amount t)) (v := m) (stores d) s0);
    try assumption.
  - unfold category_rows_of.
    rewrite (flat_map_unique c_id (fun c => opt_is (s_category_id s0) (c_id c))
               (fun c => [(c, t_amount t)]) (v := c_id c0) (categories d) c0);
      try assumption; try reflexivity.
    intros y. rewrite Hcat. simpl. rewrite Z.eqb_eq. split; congruence.
  - intros y. rewrite Z.eqb_eq, Ht. tauto.
Qed.

Lemma weigh_flat_map_split (A : Type) (P : category_row * Z -> bool)
      (F G H : A -> list (category_row * Z)) (l : list A) :
  (forall t, In t l ->
             total (map snd (filter P (F t)))
             = total (map snd (filter P (G t))) + total (map snd (filter P (H t)))) ->
  total (map snd (filter P (flat_map F l)))
  = total (map snd (filter P (flat_map G l)))
    + total (map snd (filter P (flat_map H l))).
Proof.
  induction l as [| t r IH]; simpl; intros Hl; [reflexivity |].
  rewrite !filter_app, !map_app, !total_app.
  rewrite (Hl t) by now left.
  rewrite IH; [lia |]. intros z Hz. apply Hl. now right.
Qed.

(** The sum of a category splits into what other merchants bring and what
    merchant [m] brings; [m] brings all its amounts to the one category it
    points at. *)
Lemma attribution (d : db) (m : Z) (s0 : store_row) (c0 : category_row)
      (scope : transaction_row -> bool) (k : Z) :
  keys_ok d = true ->
  In s0 (stores d) -> s_id s0 = m ->
  In c0 (categories d) -> s_category_id s0 = Some (c_id c0) ->
  category_total scope d k
  = category_total (fun t => scope t && negb (t_store_id t =? m)) d k
    + (if k =? c_id c0 then merchant_total scope d m else 0).
Proof.
  intros Hk Hs Hm Hc Hcat.
  assert (Hmer : total (map snd (filter (fun ca => c_id (fst ca) =? k)
                   (flat_map (fun t => if scope t && (t_store_id t =? m)
                                       then rows_of d t else [])
                             (transactions d))))
                 = if k =? c_id c0 then merchant_total scope d m else 0).
  { unfold merchant_total.
    induction (transactions d) as [| t r IH]; simpl.
    - destruct (k =? c_id c0); reflexivity.
    - rewrite filter_app, map_app, total_app, IH.
      destruct (scope t && (t_store_id t =? m)) eqn:Ht.
      + apply andb_true_iff in Ht. destruct Ht as [_ Ht]. apply Z.eqb_eq in Ht.
        rewrite (rows_of_merchant d s0 c0 t Hk Hs Hm Hc Hcat Ht). simpl.
        rewrite (Z.eqb_sym (c_id c0) k).
        destruct (k =? c_id c0); simpl; unfold total; simpl; lia.
      + simpl. destruct (k =? c_id c0); unfold total; simpl; lia. }
  rewrite <- Hmer. unfold category_total, joined.
  apply weigh_flat_map_split. intros t _.
  destruct (scope t); simpl; [| reflexivity].
  destruct (t_store_id t =? m); simpl; unfold total; simpl; lia.
Qed.

Lemma distinct_map_ids (f : store_row -> store_row) (l : list store_row) :
  (forall s, s_id (f s) = s_id s) -> map s_id (map f l) = map s_id l.
Proof.
  intros H. rewrite map_map. apply map_ext. exact H.
Qed.

Lemma has_store_in (m : Z) (d : db) :
  has_store m d = true -> exists s, In s (stores d) /\ s_id s = m.
Proof.
  unfold has_store. intros H. apply existsb_exists in H.
  destruct H as (s & Hin & Hs). exists s. split; [exact Hin | now apply Z.eqb_eq].
Qed.

Lemma has_category_in (k : Z) (d : db) :
  has_category k d = true -> exists c, In c (categories d) /\ c_id c = k.
Proof.
  unfold has_category. intros H. apply existsb_exists in H.
  destruct H as (c & Hin & Hc). exists c. split; [exact Hin | now apply Z.eqb_eq].
Qed.

Lemma flat_map_skip_updated (B : Type) (G : store_row -> list B)
      (l : list store_row) (m cnew ts : Z) :
  ts <> m ->
  flat_map (fun s => if s_id s =? ts then G s else [])
           (map (fun s => if s_id s =? m
                          then mkStore (s_id s) (s_name s) (Some cnew) else s) l)
  = flat_map (fun s => if s_id s =? ts then G s else []) l.
Proof.
  intros Hne. induction l as [| s r IH]; simpl; [reflexivity |].
  rewrite IH. f_equal.
  destruct (s_id s =? m) eqn:Hs; [| reflexivity].
  simpl. apply Z.eqb_eq in Hs. rewrite Hs.
  destruct (m =? ts) eqn:Hm; [| reflexivity].
  apply Z.eqb_eq in Hm. congruence.
Qed.

(** What other merchants bring to a category does not depend on the
    category of merchant [m]. *)
Lemma others_unchanged (d : db) (m cnew : Z) (scope : transaction_row -> bool) (k : Z) :
  category_total (fun t => scope t && negb (t_store_id t =? m))
                 (snd (update_store_category m cnew d)) k
  = category_total (fun t => scope t && negb (t_store_id t =? m)) d k.
Proof.
  unfold update_store_category.
  destruct (has_store m d && negb (has_category cnew d)); [reflexivity |].
  unfold category_total, joined. simpl.
  f_equal. f_equal. f_equal.
  apply flat_map_ext. intros t.
  destruct (scope t && negb (t_store_id t =? m)) eqn:Hsc; [| reflexivity].
  apply andb_true_iff in Hsc. destruct Hsc as [_ Hne].
  apply negb_true_iff in Hne. apply Z.eqb_neq in Hne.
  unfold rows_of. cbn [stores].
  rewrite (flat_map_skip_updated
             (fun s => category_rows_of
                         (mkDb (categories d)
                               (map (fun s => if s_id s =? m
                                              then mkStore (s_id s) (s_name s) (Some cnew)
                                              else s) (stores d))
                               (statements d) (transactions d) (seq_categories d)
                               (seq_stores d) (seq_statements d) (seq_transactions d))
                         s (t_amount t))
             (stores d) cnew Hne).
  reflexivity.
Qed.

(** C7.  In a store with distinct keys, pointing merchant [m] at an existing
    category [cnew] succeeds and touches only the category reference of
    [m]: no transaction, statement or category changes.  From then on, for
    every statement, the amounts of each category are what the other
    merchants bring to it, plus, for [cnew] alone, all the amounts of [m] in
    that statement -- before the call those amounts were with the category
    [m] pointed at.  For every statement that holds a transaction of [m],
    and whatever the engine, [get_category_sums] returns a pair for [cnew]
    whose sum is taken over amounts that include every amount of [m] in the
    statement; added exactly, they are those of the other merchants of
    [cnew] and those of [m]. *)
Theorem reassign_moves_merchant_amounts (d : db) (m cnew : Z) :
  keys_ok d = true ->
  has_store m d = true ->
  has_category cnew d = true ->
  exists d',
    update_store_category m cnew d = (Ok tt, d')
    /\ transactions d' = transactions d
    /\ statements d' = statements d
    /\ categories d' = categories d
    /\ (forall s, In s (stores d') -> s_id s = m -> s_category_id s = Some cnew)
    /\ (forall sid k,
           category_total (in_statement sid) d' k
           = category_total (fun t => in_statement sid t && negb (t_store_id t =? m)) d k
             + (if k =? cnew then merchant_total (in_statement sid) d m else 0))
    /\ (forall sid k s0 cold,
           In s0 (stores d) -> s_id s0 = m -> s_category_id s0 = Some cold ->
           has_category cold d = true ->
           category_total (in_statement sid) d k
           = category_total (fun t => in_statement sid t && negb (t_store_id t =? m)) d k
             + (if k =? cold then merchant_total (in_statement sid) d m else 0))
    /\ (forall (E : engine) sid,
           (exists t, In t (transactions d) /\ t_statement_id t = sid
                      /\ t_store_id t = m) ->
           exists g,
             In g (category_sum_groups E (in_statement sid) d')
             /\ g_id g = cnew
             /\ (forall t, In t (transactions d) -> t_statement_id t = sid ->
                           t_store_id t = m -> In (t_amount t) (g_amounts g))
             /\ total (g_amounts g)
                = category_total (fun t => in_statement sid t && negb (t_store_id t =? m)) d cnew
                  + merchant_total (in_statement sid) d m
             /\ In (g_name g, SUM E (g_amounts g))
                   (map (fun g => (g_name g, SUM E (g_amounts g)))
                        (category_sum_groups E (in_statement sid) d'))
             /\ fst (get_category_sums E sid d')
                = Ok (map (fun g => (g_name g, SUM E (g_amounts g)))
                          (category_sum_groups E (in_statement sid) d'))).
Proof.
  intros Hk Hs Hc.
  destruct (has_store_in m d Hs) as (s0 & Hs0 & Hm0).
  destruct (has_category_in cnew d Hc) as (c0 & Hc0 & Hcid).
  pose proof (others_unchanged d m cnew) as Hothers.
  unfold update_store_category in *. rewrite Hs, Hc in *. simpl negb in *.
  simpl andb in *. cbv iota in *. simpl snd in Hothers.
  set (d' := mkDb (categories d)
                  (map (fun s => if s_id s =? m
                                 then mkStore (s_id s) (s_name s) (Some cnew) else s)
                       (stores d))
                  (statements d) (transactions d) (seq_categories d)
                  (seq_stores d) (seq_statements d) (seq_transactions d)) in *.
  assert (Hk' : keys_ok d' = true).
  { unfold keys_ok in *. simpl. rewrite distinct_map_ids; [exact Hk |].
    intros s. destruct (s_id s =? m); reflexivity. }
  assert (Hs' : In (mkStore (s_id s0) (s_name s0) (Some cnew)) (stores d')).
  { simpl. apply in_map_iff. exists s0. split; [| exact Hs0].
    apply Z.eqb_eq in Hm0. now rewrite Hm0. }
  assert (Hnew : forall sid k,
             category_total (in_statement sid) d' k
             = category_total (fun t => in_statement sid t && negb (t_store_id t =? m)) d k
               + (if k =? cnew then merchant_total (in_statement sid) d m else 0)).
  { intros sid k.
    rewrite (attribution d' (m := m) (mkStore (s_id s0) (s_name s0) (Some cnew)) c0
               (in_statement sid) k Hk' Hs' Hm0 Hc0)
      by (simpl; now rewrite Hcid).
    rewrite Hothers, Hcid. reflexivity. }
  exists d'. split; [reflexivity |].
  split; [reflexivity |]. split; [reflexivity |]. split; [reflexivity |].
  split; [| split; [exact Hnew | split]].
  - intros s Hin Hid. simpl in Hin. apply in_map_iff in Hin.
    destruct Hin as (s1 & <- & _).
    destruct (s_id s1 =? m) eqn:H1; [reflexivity |].
    apply Z.eqb_neq in H1. contradiction.
  - intros sid k s1 cold Hs1 Hm1 Hcat1 Hcold.
    destruct (has_category_in cold d Hcold) as (c1 & Hc1 & Hcid1).
    rewrite (attribution d (m := m) s1 c1 (in_statement sid) k Hk Hs1 Hm1 Hc1)
      by (now rewrite Hcid1).
    now rewrite Hcid1.
  - intros E sid (t & Ht & Hsid & Hst).
    destruct (category_sum_groups_facts E (in_statement sid) d')
      as (_ & Hids & Hg).
    assert (Hrow : forall t0, In t0 (transactions d) -> t_statement_id t0 = sid ->
                              t_store_id t0 = m ->
                              In (c0, t_amount t0) (joined (in_statement sid) d')).
    { intros t0 Ht0 Hsid0 Hst0. apply in_joined.
      exists t0, (mkStore (s_id s0) (s_name s0) (Some cnew)).
      repeat split; try assumption.
      - unfold in_statement. now apply Z.eqb_eq.
      - simpl. congruence.
      - simpl. now rewrite Hcid. }
    assert (Hin : In cnew (map g_id (category_sum_groups E (in_statement sid) d'))).
    { apply Hids. exists c0, (t_amount t). split; [| exact Hcid].
      now apply Hrow. }
    apply in_map_iff in Hin. destruct Hin as (g & Hgid & Hgin).
    destruct (Hg g Hgin) as (Hamounts & _).
    exists g. split; [exact Hgin |]. split; [exact Hgid |].
    split; [| split; [| split; [| reflexivity]]].
    + intros t0 Ht0 Hsid0 Hst0. rewrite Hamounts, Hgid.
      apply in_map_iff. exists (c0, t_amount t0). split; [reflexivity |].
      apply filter_In. split; [now apply Hrow |].
      cbn [fst]. now apply Z.eqb_eq.
    + rewrite Hamounts, Hgid.
      change (total (map snd (filter (fun ca => c_id (fst ca) =? cnew)
                                     (joined (in_statement sid) d'))))
        with (category_total (in_statement sid) d' cnew).
      rewrite Hnew, Z.eqb_refl. reflexivity.
    + apply in_map_iff. exists g. split; [reflexivity | exact Hgin].
Qed.

Lemma reassign_moves_merchant_amounts_witness :
  let d := History.run
             [AddCategory (T "Comida"); AddStatement 3 2024 (T "VISA") [] (T "a.pdf");
              AddTransactions 2
                [mkTransaction (Date 2024 3 5) (T "LA FLOR") 958329 (Some 3);
                 mkTransaction (Date 2024 3 9) (T "market") (-1000) None]]
             (init empty_db) in
  keys_ok d = true /\ has_store 1 d = true /\ has_category 2 d = true
  /\ fst (get_category_sums exact_engine 2 d) = Ok [(NO_ASIGNADA, 957329)]
  /\ exists d',
       update_store_category 1 2 d = (Ok tt, d')
       /\ transactions d' = transactions d
       /\ fst (get_category_sums exact_engine 2 d')
          = Ok [(T "Comida", 958329); (NO_ASIGNADA, -1000)].
Proof.
  set (d := History.run
             [AddCategory (T "Comida"); AddStatement 3 2024 (T "VISA") [] (T "a.pdf");
              AddTransactions 2
                [mkTransaction (Date 2024 3 5) (T "LA FLOR") 958329 (Some 3);
                 mkTransaction (Date 2024 3 9) (T "market") (-1000) None]]
             (init empty_db)).
  assert (H1 : keys_ok d = true) by (vm_compute; reflexivity).
  assert (H2 : has_store 1 d = true) by (vm_compute; reflexivity).
  assert (H3 : has_category 2 d = true) by (vm_compute; reflexivity).
  cbv zeta.
  split; [exact H1 |]. split; [exact H2 |]. split; [exact H3 |].
  split; [vm_compute; reflexivity |].
  destruct (reassign_moves_merchant_amounts d 1 2 H1 H2 H3)
    as (d' & Hu & Ht & _).
  exists d'. split; [exact Hu |]. split; [exact Ht |].
  assert (Hd' : d' = snd (update_store_category 1 2 d)) by now rewrite Hu.
  rewrite Hd'. vm_compute. reflexivity.
Defined.

(** *** The states the program reaches *)

Lemma distinct_app_fresh (l : list Z) (n : Z) :
  distinct l = true -> (forall x, In x l -> x < n) -> distinct (l ++ [n]) = true.
Proof.
  induction l as [| y r IH]; simpl; intros Hd Hlt; [reflexivity |].
  apply andb_true_iff in Hd. destruct Hd as [H1 H2].
  apply andb_true_iff. split.
  - apply negb_true_iff. apply negb_true_iff in H1.
    rewrite existsb_app, H1. simpl.
    rewrite orb_false_r. apply Z.eqb_neq.
    specialize (Hlt y (or_introl eq_refl)). lia.
  - apply IH; [exact H2 |]. intros x Hx. apply Hlt. now right.
Qed.

Lemma distinct_filter (A : Type) (key : A -> Z) (q : A -> bool) (l : list A) :
  distinct (map key l) = true -> distinct (map key (filter q l)) = true.
Proof.
  induction l as [| y r IH]; simpl; intros Hd; [reflexivity |].
  apply andb_true_iff in Hd. destruct Hd as [H1 H2].
  destruct (q y); simpl; [| now apply IH].
  apply andb_true_iff. split; [| now apply IH].
  apply negb_true_iff. apply negb_true_iff in H1.
  destruct (existsb (Z.eqb (key y)) (map key (filter q r))) eqn:He; [| reflexivity].
  apply existsb_exists in He. destruct He as (x & Hin & Hx).
  apply in_map_iff in Hin. destruct Hin as (z & <- & Hz).
  apply filter_In in Hz. destruct Hz as [Hz _].
  assert (existsb (Z.eqb (key y)) (map key r) = true); [| congruence].
  apply existsb_exists. exists (key z). split; [now apply in_map | exact Hx].
Qed.

Lemma consistent_same_keys (d d' : db) :
  map s_id (stores d') = map s_id (stores d) ->
  categories d' = categories d ->
  consistent d -> consistent d'.
Proof.
  unfold consistent, keys_ok, has_category_named.
  intros Hs Hc. rewrite Hs, Hc. tauto.
Qed.

Lemma add_category_consistent (name : text) (d : db) :
  consistent d -> consistent (snd (add_category name d)).
Proof.
  unfold add_category. destruct (has_category_named name d); [tauto |].
  unfold consistent, keys_ok, has_category_named. simpl.
  intros [Hk Hd]. apply andb_true_iff in Hk. destruct Hk as [Hks Hkc].
  split.
  - rewrite Hks, map_app. simpl.
    apply distinct_app_fresh; [exact Hkc |].
    intros x Hx. now apply next_id_fresh.
  - rewrite existsb_app, Hd. reflexivity.
Qed.

Lemma delete_category_consistent (cid : Z) (d : db) :
  consistent d -> consistent (snd (delete_category cid d)).
Proof.
  intros Hc. unfold delete_category, bind, get_default_category_id.
  destruct (find _ (categories d)) as [c0 |] eqn:Hf; [| exact Hc].
  destruct (cid =? c_id c0) eqn:He; [exact Hc |].
  destruct Hc as [Hk Hd]. unfold consistent, keys_ok, has_category_named in *.
  simpl. apply andb_true_iff in Hk. destruct Hk as [Hks Hkc]. split.
  - apply andb_true_iff. split.
    + rewrite distinct_map_ids; [exact Hks |].
      intros s. destruct (opt_is (s_category_id s) cid); reflexivity.
    + now apply distinct_filter.
  - apply existsb_exists. exists c0.
    pose proof (find_some _ _ Hf) as [Hin Hn]. split; [| exact Hn].
    apply filter_In. split; [exact Hin |].
    apply negb_true_iff. rewrite Z.eqb_sym. exact He.
Qed.

Lemma get_store_id_consistent (name : text) (d : db) :
  consistent d -> consistent (snd (get_store_id name d)).
Proof.
  intros Hc. unfold get_store_id.
  destruct (find _ (stores d)); [exact Hc |].
  unfold bind, get_default_category_id.
  destruct (find _ (categories d)); [| exact Hc].
  destruct Hc as [Hk Hd]. unfold consistent, keys_ok, has_category_named in *.
  simpl. split; [| exact Hd].
  apply andb_true_iff in Hk. destruct Hk as [Hks Hkc].
  rewrite Hkc, andb_true_r, map_app. simpl.
  apply distinct_app_fresh; [exact Hks |].
  intros x Hx. now apply next_id_fresh.
Qed.

Lemma update_store_category_consistent (sid cid : Z) (d : db) :
  consistent d -> consistent (snd (update_store_category sid cid d)).
Proof.
  unfold update_store_category.
  destruct (has_store sid d && negb (has_category cid d)); [tauto |].
  apply consistent_same_keys; [| reflexivity].
  simpl. apply distinct_map_ids.
  intros s. destruct (s_id s =? sid); reflexivity.
Qed.

Lemma insert_transaction_consistent (sid : Z) (dt : date) (store_id amt : Z)
      (inst : option Z) (d : db) :
  consistent d -> consistent (snd (insert_transaction sid dt store_id amt inst d)).
Proof.
  unfold insert_transaction.
  destruct (has_statement sid d && has_store store_id d); [| tauto].
  now apply consistent_same_keys.
Qed.

Lemma add_transactions_consistent (sid : Z) (txs : list Transaction) :
  forall d, consistent d -> consistent (snd (add_transactions sid txs d)).
Proof.
  induction txs as [| t r IH]; intros d Hc; simpl; [exact Hc |].
  unfold bind at 1.
  pose proof (@get_store_id_consistent (store_name t) d Hc) as H1.
  destruct (get_store_id (store_name t) d) as [[i | err] d1]; simpl in H1;
    [| exact H1].
  unfold bind at 1.
  pose proof (@insert_transaction_consistent sid (tx_date t) i (amount t)
                (installment_number t) d1 H1) as H2.
  destruct (insert_transaction sid (tx_date t) i (amount t)
                               (installment_number t) d1) as [[u | err] d2];
    simpl in H2; [now apply IH | exact H2].
Qed.

Lemma step_consistent (c : call) (d : db) : consistent d -> consistent (step c d).
Proof.
  intros Hc. destruct c; simpl.
  - now apply add_category_consistent.
  - now apply delete_category_consistent.
  - now apply get_store_id_consistent.
  - now apply update_store_category_consistent.
  - unfold add_statement. destruct (existsb _ (statements d)); [exact Hc |].
    revert Hc. now apply consistent_same_keys.
  - now apply add_transactions_consistent.
  - unfold add_manual_transaction, bind.
    pose proof (@get_store_id_consistent name d Hc) as H1.
    destruct (get_store_id name d) as [[i | err] d1]; simpl in H1; [| exact H1].
    now apply insert_transaction_consistent.
  - revert Hc. now apply consistent_same_keys.
  - revert Hc. now apply consistent_same_keys.
  - unfold ExpenseApp.modify_statement.
    destruct (existsb _ (statements d)); [exact Hc |].
    revert Hc. now apply consistent_same_keys.
  - unfold init, _ensure_default_category. rewrite (proj2 Hc).
    unfold _ensure_cash_statement.
    destruct (existsb is_cash_statement (statements d)); [exact Hc |].
    revert Hc. now apply consistent_same_keys.
Qed.

(** Every state the program reaches has distinct keys and its default
    category: the assumptions of the claims on the store hold in all of
    them. *)
Lemma reachable_consistent (d : db) : reachable d -> consistent d.
Proof.
  intros [cs ->].
  assert (H0 : consistent (init empty_db)) by (split; vm_compute; reflexivity).
  revert H0. generalize (init empty_db).
  induction cs as [| c r IH]; intros d0 H0; simpl; [exact H0 |].
  apply IH. now apply step_consistent.
Qed.

Lemma reachable_has_default (d : db) :
  reachable d -> exists default, fst (get_default_category_id d) = Ok default.
Proof.
  intros H. apply reachable_consistent in H. destruct H as [_ H].
  unfold has_category_named in H. apply existsb_exists in H.
  destruct H as (c & Hin & Hn).
  unfold get_default_category_id.
  destruct (find (fun c => text_eqb (c_name c) NO_ASIGNADA) (categories d))
    as [c0 |] eqn:Hf.
  - now exists (c_id c0).
  - exfalso. pose proof (find_none _ _ Hf c Hin) as Hx. simpl in Hx. congruence.
Qed.

End StoreFacts.

(** * Further properties of the line parser *)

Section MoreParserFacts.
Import Str PDFParser.
Open Scope char_scope.

Local Arguments AMOUNT_PATTERN_here : simpl never.

Lemma digits12_no_digit (c : ascii) (r : text) :
  isdigit c = false -> digits12 (c :: r) = ([], c :: r).
Proof. intros H. unfold digits12. now rewrite H. Qed.

Lemma digits12_shape (s g r : text) :
  digits12 s = (g, r) ->
  s = g ++ r
  /\ (g = []
      \/ (exists c, g = [c] /\ isdigit c = true)
      \/ (exists c1 c2, g = [c1; c2] /\ isdigit c1 = true /\ isdigit c2 = true)).
Proof.
  unfold digits12. destruct s as [| c1 r1].
  - intros H. injection H as <- <-. auto.
  - destruct (isdigit c1) eqn:H1.
    + destruct r1 as [| c2 r2].
      * intros H. injection H as <- <-. split; [reflexivity |].
        right. left. now exists c1.
      * destruct (isdigit c2) eqn:H2; intros H; injection H as <- <-.
        -- split; [reflexivity |]. right. right. now exists c1, c2.
        -- split; [reflexivity |]. right. left. now exists c1.
    + intros H. injection H as <- <-. auto.
Qed.


Lemma int_digits12_range (s g r : text) :
  digits12 s = (g, r) -> (0 <= int g <= 99)%Z.
Proof.
  intros H. apply digits12_shape in H.
  destruct H as [_ [-> | [(c & -> & Hc) | (c1 & c2 & -> & H1 & H2)]]].
  - unfold int. cbn [fold_left]. lia.
  - unfold int. cbn [fold_left]. pose proof (digit_value_range c Hc). lia.
  - unfold int. cbn [fold_left].
    pose proof (digit_value_range c1 H1). pose proof (digit_value_range c2 H2).
    lia.
Qed.


(** The ways the loop body ends, read back from its outcome. *)
Lemma parse_line_emitted (today_year : Z) (orig : text) (t : Transaction) :
  parse_line today_year orig = Emitted t ->
  exists dt rest,
    strip orig <> []
    /\ find_date today_year (strip orig) = inr (Some (dt, rest))
    /\ rest <> []
    /\ transaction_of orig dt rest = Some t.
Proof.
  unfold parse_line.
  destruct (strip orig) as [| c l] eqn:Hl; [discriminate |].
  destruct (find_date today_year (c :: l)) as [e | [[dt rest] |]];
    try discriminate.
  destruct rest as [| c' l']; [discriminate |].
  destruct (transaction_of orig dt (c' :: l')) as [t' |] eqn:Ht; [| discriminate].
  intros H. injection H as <-.
  exists dt, (c' :: l'). repeat split; try discriminate; assumption.
Qed.

Lemma find_date_valid (today_year : Z) (line : text) (dt : date) (rest : text) :
  find_date today_year line = inr (Some (dt, rest)) ->
  year dt = today_year
  /\ Datetime.valid today_year (month dt) (day dt) = true.
Proof.
  unfold find_date, numeric_date, month_name_date, Datetime.date_new.
  destruct (DATE_PATTERN line) as [[[d mn] tail] |].
  - destruct (Datetime.valid today_year (int mn) (int d)) eqn:Hv.
    + intros H. injection H as <- _. now split.
    + destruct (MONTH_PATTERN line) as [[[d' name] tail'] |]; [| discriminate].
      destruct (MONTH_NAMES_get (firstn 3 (lower name))) as [m |]; [| discriminate].
      destruct (m =? 0)%Z; [discriminate |].
      destruct (Datetime.valid today_year m (int d')) eqn:Hv'; [| discriminate].
      intros H. injection H as <- _. now split.
  - destruct (MONTH_PATTERN line) as [[[d' name] tail'] |]; [| discriminate].
    destruct (MONTH_NAMES_get (firstn 3 (lower name))) as [m |]; [| discriminate].
    destruct (m =? 0)%Z; [discriminate |].
    destruct (Datetime.valid today_year m (int d')) eqn:Hv'; [| discriminate].
    intros H. injection H as <- _. now split.
Qed.

Lemma transaction_of_fields (orig : text) (dt : date) (rest : text) (t : Transaction) :
  transaction_of orig dt rest = Some t ->
  exists am amt,
    last_amount_match rest = Some am
    /\ signed_amount rest am = Some amt
    /\ tx_date t = dt
    /\ amount t = amt
    /\ installment_number t = snd (description rest am)
    /\ store_name t = match fst (description rest am) with
                      | [] => orig
                      | _ :: _ => fst (description rest am)
                      end.
Proof.
  unfold transaction_of.
  destruct (last_amount_match rest) as [am |]; [| discriminate].
  destruct (signed_amount rest am) as [amt |] eqn:Hs; [| discriminate].
  destruct (description rest am) as [desc inst] eqn:Hd.
  intros H. injection H as <-. exists am, amt.
  rewrite Hs, Hd. repeat split.
Qed.

(** X1.  A line that opens with a numeric short date which is not a day of
    the current year (a day the month lacks, a month above 12, day or month
    zero) is skipped without an exception: the document parses as if the
    line were not there. *)
Theorem numeric_date_off_the_calendar_is_skipped
        (today_year : Z) (orig d mn tail : text) (lines : list text) :
  DATE_PATTERN (strip orig) = Some (d, mn, tail) ->
  Datetime.valid today_year (int mn) (int d) = false ->
  parse_line today_year orig = Skipped
  /\ parse_lines today_year (orig :: lines) = parse_lines today_year lines.
Proof.
  intros Hm Hv.
  assert (H : parse_line today_year orig = Skipped)
    by (eapply numeric_invalid_date_skipped; eassumption).
  split; [exact H |]. simpl. now rewrite H.
Qed.

Lemma numeric_date_off_the_calendar_is_skipped_witness :
  DATE_PATTERN (strip (T "31/02 market 1.000,00"))
  = Some (T "31", T "02", T " market 1.000,00")
  /\ Datetime.valid 2026 (int (T "02")) (int (T "31")) = false
  /\ parse_lines 2026 [T "31/02 market 1.000,00"; T "05/03 market 10,00"]
     = parse_lines 2026 [T "05/03 market 10,00"].
Proof.
  assert (H1 : DATE_PATTERN (strip (T "31/02 market 1.000,00"))
               = Some (T "31", T "02", T " market 1.000,00"))
    by (vm_compute; reflexivity).
  assert (H2 : Datetime.valid 2026 (int (T "02")) (int (T "31")) = false)
    by (vm_compute; reflexivity).
  split; [exact H1 |]. split; [exact H2 |].
  exact (proj2 (numeric_date_off_the_calendar_is_skipped
                  2026 (T "31/02 market 1.000,00") [T "05/03 market 10,00"] H1 H2)).
Defined.

Lemma MONTH_NAMES_get_range (k : text) (mn : Z) :
  MONTH_NAMES_get k = Some mn -> (1 <= mn <= 12)%Z.
Proof.
  unfold MONTH_NAMES_get, MONTH_NAMES. cbn [find fst snd].
  repeat (match goal with
          | |- context [if text_eqb ?a k then _ else _] =>
              destruct (text_eqb a k);
              [intros H; injection H as <-; lia |]
          end).
  discriminate.
Qed.

Lemma MONTH_PATTERN_excludes_DATE_PATTERN (line d name tail : text) :
  MONTH_PATTERN line = Some (d, name, tail) -> DATE_PATTERN line = None.
Proof.
  intros Hm. destruct (DATE_PATTERN line) as [[[d' mn] tail'] |] eqn:Hd;
    [| reflexivity].
  rewrite (DATE_PATTERN_excludes_MONTH_PATTERN _ Hd) in Hm. discriminate.
Qed.

(** X2.  The loop body raises in one case only: the line opens with a day
    and a month name of the table, and that month of the current year has
    no such day.  The exception is then [ValueError]; nothing else in the
    treatment of a line (no date, no amount, an amount [float] refuses, an
    empty description) ever raises. *)
Theorem parse_line_raises_iff (today_year : Z) (orig : text) (e : exn) :
  parse_line today_year orig = Raised e
  <-> e = ValueError
      /\ exists d name tail mn,
           MONTH_PATTERN (strip orig) = Some (d, name, tail)
           /\ MONTH_NAMES_get (firstn 3 (lower name)) = Some mn
           /\ Datetime.valid today_year mn (int d) = false.
Proof.
  split.
  - unfold parse_line.
    destruct (strip orig) as [| c l] eqn:Hl; [discriminate |].
    destruct (find_date today_year (c :: l)) as [e' | [[dt rest] |]] eqn:Hf.
    + intros H. injection H as <-.
      unfold find_date in Hf.
      destruct (numeric_date today_year (c :: l)); [discriminate |].
      unfold month_name_date, Datetime.date_new in Hf.
      destruct (MONTH_PATTERN (c :: l)) as [[[d name] tail] |]; [| discriminate].
      destruct (MONTH_NAMES_get (firstn 3 (lower name))) as [mn |] eqn:Hg;
        [| discriminate].
      destruct (mn =? 0)%Z; [discriminate |].
      destruct (Datetime.valid today_year mn (int d)) eqn:Hv; [discriminate |].
      injection Hf as <-. split; [reflexivity |].
      exists d, name, tail, mn. repeat split; assumption.
    + destruct rest as [| c' l']; [discriminate |].
      destruct (transaction_of orig dt (c' :: l')); discriminate.
    + discriminate.
  - intros (-> & d & name & tail & mn & Hm & Hg & Hv).
    unfold parse_line.
    destruct (strip orig) as [| c l] eqn:Hl; [discriminate Hm |].
    unfold find_date, numeric_date.
    rewrite (MONTH_PATTERN_excludes_DATE_PATTERN _ Hm).
    unfold month_name_date, Datetime.date_new. rewrite Hm, Hg, Hv.
    pose proof (MONTH_NAMES_get_range _ Hg) as Hr.
    destruct (mn =? 0)%Z eqn:H0; [apply Z.eqb_eq in H0; lia | reflexivity].
Qed.

(** X3.  Parsing is line by line: the transactions of a document are those
    of its first pages followed by those of the rest, an exception in the
    first pages is the exception of the whole, and a document never yields
    more transactions than it has lines. *)
Theorem parse_lines_app (today_year : Z) (a b : list text) :
  parse_lines today_year (a ++ b)
  = match parse_lines today_year a with
    | inl e => inl e
    | inr x =>
        match parse_lines today_year b with
        | inl e => inl e
        | inr y => inr (x ++ y)
        end
    end
  /\ forall ts, parse_lines today_year a = inr ts -> (length ts <= length a)%nat.
Proof.
  split.
  - induction a as [| l a IH]; simpl.
    + destruct (parse_lines today_year b); reflexivity.
    + destruct (parse_line today_year l) as [| t | e]; [exact IH | | reflexivity].
      rewrite IH.
      destruct (parse_lines today_year a) as [e | x]; [reflexivity |].
      destruct (parse_lines today_year b); reflexivity.
  - induction a as [| l a IH]; simpl; intros ts H.
    + injection H as <-. simpl. lia.
    + destruct (parse_line today_year l) as [| t | e]; [| | discriminate].
      * specialize (IH ts H). lia.
      * destruct (parse_lines today_year a) as [e | x]; [discriminate |].
        injection H as <-. specialize (IH x eq_refl). simpl. lia.
Qed.

(** X4.  Every transaction the parser emits is dated in the current year,
    and its date is a day of the calendar: month 1 to 12, day within the
    month, leap years counted. *)
Theorem emitted_date_is_a_day_of_the_current_year
        (today_year : Z) (orig : text) (t : Transaction) :
  parse_line today_year orig = Emitted t ->
  year (tx_date t) = today_year
  /\ (1 <= month (tx_date t) <= 12)%Z
  /\ (1 <= day (tx_date t) <= Datetime.days_in_month today_year (month (tx_date t)))%Z
  /\ (1 <= today_year <= 9999)%Z.
Proof.
  intros H. apply parse_line_emitted in H.
  destruct H as (dt & rest & _ & Hf & _ & Ht).
  apply transaction_of_fields in Ht.
  destruct Ht as (am & amt & _ & _ & -> & _).
  apply find_date_valid in Hf. destruct Hf as [Hy Hv].
  unfold Datetime.valid in Hv.
  rewrite !andb_true_iff, !Z.leb_le in Hv. tauto.
Qed.

Lemma emitted_date_is_a_day_of_the_current_year_witness :
  parse_line 2026 (T "12 Ene. market 12,50 1.000,00")
  = Emitted (mkTransaction (Date 2026 1 12) (T "market 12,50") 100000 None)
  /\ year (Date 2026 1 12) = 2026%Z.
Proof.
  assert (H : parse_line 2026 (T "12 Ene. market 12,50 1.000,00")
              = Emitted (mkTransaction (Date 2026 1 12) (T "market 12,50") 100000 None))
    by (vm_compute; reflexivity).
  split; [exact H |].
  exact (proj1 (emitted_date_is_a_day_of_the_current_year _ _ H)).
Defined.










(** What a match of [INSTALL_PATTERN] at the head of [s] is made of. *)
Lemma INSTALL_PATTERN_here_shape (s g1 : text) :
  INSTALL_PATTERN_here s = Some g1 ->
  exists c dot ws g2 post,
    s = c :: dot ++ ws ++ g1 ++ "/" :: g2 ++ post
    /\ is_C c = true
    /\ (dot = [] \/ dot = ["."])
    /\ forallb isspace ws = true
    /\ g1 <> [] /\ forallb isdigit g1 = true /\ (length g1 <= 2)%nat
    /\ g2 <> [] /\ forallb isdigit g2 = true.
Proof.
  unfold INSTALL_PATTERN_here.
  destruct s as [| c r]; [discriminate |].
  destruct (is_C c) eqn:HC; [| discriminate].
  set (r1 := match r with "." :: r' => r' | _ => r end).
  assert (Hdot : exists dot, (dot = [] \/ dot = ["."]) /\ r = dot ++ r1).
  { subst r1. destruct r as [| k r']; [exists []; split; [now left | reflexivity] |].
    destruct (Ascii.eqb k ".") eqn:Hk.
    - apply Ascii.eqb_eq in Hk. subst k. exists ["."]. split; [now right | reflexivity].
    - exists []. split; [now left |].
      destruct k as [[] [] [] [] [] [] [] []]; try discriminate Hk; reflexivity. }
  destruct Hdot as (dot & Hdot & Hr).
  pose proof (span_app isspace r1) as Hsp. pose proof (span_all isspace r1) as Hws.
  destruct (span isspace r1) as [ws r2]. cbn [fst snd] in Hsp, Hws.
  destruct (digits12 r2) as [g r3] eqn:Hg.
  destruct (digits12_shape _ Hg) as [Hr2 Hshape].
  destruct g as [| x g]; [discriminate |].
  destruct r3 as [| k r4]; [discriminate |].
  destruct (Ascii.eqb k "/") eqn:Hk.
  2:{ intros H. exfalso. revert H.
      destruct k as [[] [] [] [] [] [] [] []]; try discriminate Hk; discriminate. }
  apply Ascii.eqb_eq in Hk. subst k.
  destruct (digits12 r4) as [g2 r5] eqn:Hg2.
  destruct (digits12_shape _ Hg2) as [Hr4 Hshape2].
  destruct g2 as [| y g2]; [discriminate |].
  intros H. injection H as <-.
  exists c, dot, ws, (y :: g2), r5.
  split; [| split; [exact HC | split; [exact Hdot | split; [exact Hws |]]]].
  - rewrite Hr, <- Hsp, Hr2, Hr4. reflexivity.
  - split; [discriminate |].
    assert (H1 : forallb isdigit (x :: g) = true /\ (length (x :: g) <= 2)%nat).
    { destruct Hshape as [H | [(c1 & -> & H) | (c1 & c2 & -> & Ha & Hb)]];
        [discriminate | |].
      - cbn. rewrite H. split; [reflexivity | lia].
      - cbn. rewrite Ha, Hb. split; [reflexivity | lia]. }
    split; [exact (proj1 H1) |]. split; [exact (proj2 H1) |].
    split; [discriminate |].
    destruct Hshape2 as [H | [(c1 & -> & H) | (c1 & c2 & -> & Ha & Hb)]];
      [discriminate | |].
    + cbn. now rewrite H.
    + cbn. now rewrite Ha, Hb.
Qed.


Lemma INSTALL_PATTERN_here_range (s g1 : text) :
  INSTALL_PATTERN_here s = Some g1 -> (0 <= int g1 <= 99)%Z.
Proof.
  unfold INSTALL_PATTERN_here.
  destruct s as [| c r]; [discriminate |].
  destruct (is_C c); [| discriminate].
  destruct (span isspace _) as [ws r2].
  destruct (digits12 r2) as [g r3] eqn:Hg.
  destruct g as [| x g]; [discriminate |].
  destruct r3 as [| k r4]; [discriminate |].
  destruct (Ascii.eqb k "/") eqn:Hk.
  2:{ intros H. exfalso. revert H.
      destruct k as [[] [] [] [] [] [] [] []]; try discriminate Hk; discriminate. }
  apply Ascii.eqb_eq in Hk. subst k.
  destruct (digits12 r4) as [g2 r5]. destruct g2; [discriminate |].
  intros H. injection H as <-. eapply int_digits12_range. exact Hg.
Qed.

Local Arguments INSTALL_PATTERN_here : simpl never.

Lemma INSTALL_PATTERN_search_first (s : text) :
  forall pos start g1,
    INSTALL_PATTERN_search_from pos s = Some (start, g1) ->
    exists k,
      start = (pos + k)%nat
      /\ INSTALL_PATTERN_here (skipn k s) = Some g1
      /\ forall j, (j < k)%nat -> INSTALL_PATTERN_here (skipn j s) = None.
Proof.
  induction s as [| c r IH]; intros pos start g1; cbn [INSTALL_PATTERN_search_from].
  - destruct (INSTALL_PATTERN_here []) eqn:Hh; [| discriminate].
    intros H. injection H as <- <-. exists 0%nat.
    split; [lia | split; [exact Hh | intros j Hj; lia]].
  - destruct (INSTALL_PATTERN_here (c :: r)) as [g |] eqn:Hh.
    + intros H. injection H as <- <-. exists 0%nat.
      split; [lia | split; [exact Hh | intros j Hj; lia]].
    + intros H. destruct (IH _ _ _ H) as (k & Hk & Hm & Hnone).
      exists (S k). split; [lia | split; [exact Hm |]].
      intros [| j] Hj; [exact Hh |]. apply Hnone. lia.
Qed.

Lemma INSTALL_PATTERN_search_none (s : text) :
  forall pos,
    INSTALL_PATTERN_search_from pos s = None ->
    forall j, INSTALL_PATTERN_here (skipn j s) = None.
Proof.
  induction s as [| c r IH]; intros pos; cbn [INSTALL_PATTERN_search_from].
  - destruct (INSTALL_PATTERN_here []) eqn:Hh; [discriminate |].
    intros _ j. now rewrite skipn_nil.
  - destruct (INSTALL_PATTERN_here (c :: r)) as [g |] eqn:Hh; [discriminate |].
    intros H [| j]; [exact Hh |]. cbn [skipn]. now apply (IH (S pos)).
Qed.

(** X6.  The installment number of an emitted transaction is read off the
    description, the text of the remainder before the last amount,
    stripped.  When there is a number, the description holds a marker: a
    [C] or [c], an optional period, white space, one or two digits, a [/]
    and at least one digit more; the marker taken is the first one the
    description has, and the number is the decimal value of the digits
    before the [/], hence between 0 and 99.  There is no number exactly
    when the description holds no marker. *)
Theorem emitted_installment_range
        (today_year : Z) (orig : text) (t : Transaction) :
  parse_line today_year orig = Emitted t ->
  exists dt rest am,
    find_date today_year (strip orig) = inr (Some (dt, rest))
    /\ last_amount_match rest = Some am
    /\ (forall n,
           installment_number t = Some n ->
           (0 <= n <= 99)%Z
           /\ exists pre c dot ws g1 g2 post,
                strip (firstn (fst am) rest)
                = pre ++ c :: dot ++ ws ++ g1 ++ "/" :: g2 ++ post
                /\ is_C c = true
                /\ (dot = [] \/ dot = ["."])
                /\ forallb isspace ws = true
                /\ g1 <> [] /\ forallb isdigit g1 = true /\ (length g1 <= 2)%nat
                /\ g2 <> [] /\ forallb isdigit g2 = true
                /\ n = int g1
                /\ forall j, (j < length pre)%nat ->
                             INSTALL_PATTERN_here
                               (skipn j (strip (firstn (fst am) rest))) = None)
    /\ (installment_number t = None
        <-> forall j, INSTALL_PATTERN_here
                        (skipn j (strip (firstn (fst am) rest))) = None).
Proof.
  intros H. apply parse_line_emitted in H.
  destruct H as (dt & rest & _ & Hfd & _ & Ht).
  apply transaction_of_fields in Ht.
  destruct Ht as (am & amt & Hlast & _ & _ & _ & Hi & _).
  exists dt, rest, am.
  split; [exact Hfd |]. split; [exact Hlast |].
  set (desc := strip (firstn (fst am) rest)) in *.
  assert (Hinst : installment_number t
                  = match INSTALL_PATTERN_search desc with
                    | Some (_, g1) => Some (int g1)
                    | None => None
                    end).
  { rewrite Hi. unfold description. fold desc.
    destruct (INSTALL_PATTERN_search desc) as [[start g1] |];
      destruct (contains "*" _); reflexivity. }
  unfold INSTALL_PATTERN_search in Hinst.
  destruct (INSTALL_PATTERN_search_from 0 desc) as [[start g1] |] eqn:Hs.
  - destruct (INSTALL_PATTERN_search_first _ _ Hs) as (k & _ & Hm & Hnone).
    split.
    + intros n Hn. rewrite Hinst in Hn. injection Hn as <-.
      split; [eapply INSTALL_PATTERN_here_range; exact Hm |].
      destruct (INSTALL_PATTERN_here_shape _ Hm)
        as (c & dot & ws & g2 & post & Hsh & HC & Hdot & Hws & H1 & H2 & H3 & H4 & H5).
      assert (Hk : (k < length desc)%nat).
      { destruct (Nat.lt_ge_cases k (length desc)) as [Hlt | Hge]; [exact Hlt |].
        rewrite skipn_all2 in Hsh by exact Hge. discriminate. }
      exists (firstn k desc), c, dot, ws, g1, g2, post.
      split; [now rewrite <- Hsh, firstn_skipn |].
      repeat (split; [assumption |]).
      split; [reflexivity |].
      intros j Hj. apply Hnone. rewrite length_firstn in Hj. lia.
    + split; [rewrite Hinst; discriminate |].
      intros Hall. rewrite Hall in Hm. discriminate.
  - split.
    + intros n Hn. rewrite Hinst in Hn. discriminate.
    + split; [| intros _; exact Hinst].
      intros _. now apply (INSTALL_PATTERN_search_none _ _ Hs).
Qed.

Lemma emitted_installment_range_witness :
  parse_line 2026 (T "05/03 SUPERMERCADO * LA FLOR C.03/06 9.583,29")
  = Emitted (mkTransaction (Date 2026 3 5) (T "LA FLOR") 958329 (Some 3%Z))
  /\ exists rest am pre g1 post,
       last_amount_match rest = Some am
       /\ strip (firstn (fst am) rest) = pre ++ "C" :: "." :: g1 ++ "/" :: post
       /\ int g1 = 3%Z.
Proof.
  assert (H : parse_line 2026 (T "05/03 SUPERMERCADO * LA FLOR C.03/06 9.583,29")
              = Emitted (mkTransaction (Date 2026 3 5) (T "LA FLOR") 958329 (Some 3%Z)))
    by (vm_compute; reflexivity).
  split; [exact H |].
  destruct (emitted_installment_range _ _ H)
    as (dt & rest & am & Hfd & Hlast & Hn & _).
  vm_compute in Hfd. injection Hfd as <- <-.
  vm_compute in Hlast. injection Hlast as <-.
  exists (T "SUPERMERCADO * LA FLOR C.03/06 9.583,29"), (31, 39)%nat,
         (T "SUPERMERCADO * LA FLOR "), (T "03"), (T "06").
  split; [vm_compute; reflexivity |]. split; vm_compute; reflexivity.
Defined.



(** X7.  The amount of an emitted transaction comes from the last amount
    match of the remainder, and that match has no sign of its own: it is an
    integer part of digits and periods, a comma and two decimals.  The
    amount is the decimal value of those digits, periods dropped, and it is
    negated exactly when a [-] stands just before the match. *)
Theorem emitted_amount_value_and_sign
        (today_year : Z) (orig : text) (t : Transaction) :
  parse_line today_year orig = Emitted t ->
  exists dt rest a b intpart d1 d2,
    find_date today_year (strip orig) = inr (Some (dt, rest))
    /\ last_amount_match rest = Some (a, b)
    /\ slice a b rest = intpart ++ [","; d1; d2]
    /\ forallb is_digit_or_dot intpart = true
    /\ isdigit d1 = true /\ isdigit d2 = true
    /\ (0 <= 100 * int (remove_chr "." intpart) + int [d1; d2])%Z
    /\ amount t
       = (if preceded_by_minus rest a
          then - (100 * int (remove_chr "." intpart) + int [d1; d2])
          else 100 * int (remove_chr "." intpart) + int [d1; d2])%Z.
Proof.
  intros H. apply parse_line_emitted in H.
  destruct H as (dt & rest & _ & Hf & _ & Ht).
  apply transaction_of_fields in Ht.
  destruct Ht as ([a b] & amt & Hlast & Hs & _ & Ha & _ & _).
  destruct (last_amount_match_in _ Hlast) as [earlier Hfi].
  assert (Hin : In (a, b) (AMOUNT_PATTERN_finditer rest)).
  { rewrite Hfi. apply in_or_app. right. now left. }
  apply finditer_from_sound in Hin. destruct Hin as (_ & Hh & _ & _).
  rewrite Nat.sub_0_r in Hh.
  unfold signed_amount in Hs. cbn [fst snd] in Hs.
  destruct (float (clean_amount (slice a b rest))) as [v |] eqn:Hv;
    [| discriminate].
  injection Hs as Hs.
  destruct (@amount_match_exact (skipn a rest) (b - a) v Hh Hv)
    as (intpart & d1 & d2 & Hsl & Hip & H1 & H2 & Hval & Hpos).
  exists dt, rest, a, b, intpart, d1, d2.
  repeat split; try assumption.
  - now rewrite <- Hval.
  - rewrite Ha, <- Hs, <- Hval. unfold amount_is_negative. cbn [fst snd].
    unfold slice. rewrite Hsl.
    assert (Hno : contains "-" (intpart ++ [","; d1; d2]) = false).
    { rewrite contains_app, (no_minus_in_run intpart Hip), !contains_cons.
      rewrite (digit_not_minus d1 H1), (digit_not_minus d2 H2). reflexivity. }
    rewrite Hno. reflexivity.
Qed.

Lemma emitted_amount_value_and_sign_witness :
  parse_line 2026 (T "05/03 market -1.000,00")
  = Emitted (mkTransaction (Date 2026 3 5) (T "market -") (-100000) None)
  /\ exists dt rest a b intpart d1 d2,
       find_date 2026 (strip (T "05/03 market -1.000,00")) = inr (Some (dt, rest))
       /\ last_amount_match rest = Some (a, b)
       /\ slice a b rest = intpart ++ [","; d1; d2]
       /\ preceded_by_minus rest a = true.
Proof.
  assert (H : parse_line 2026 (T "05/03 market -1.000,00")
              = Emitted (mkTransaction (Date 2026 3 5) (T "market -") (-100000) None))
    by (vm_compute; reflexivity).
  split; [exact H |].
  destruct (emitted_amount_value_and_sign _ _ H)
    as (dt & rest & a & b & intpart & d1 & d2 & Hf & Hl & Hs & _).
  exists dt, rest, a, b, intpart, d1, d2.
  split; [exact Hf |]. split; [exact Hl |]. split; [exact Hs |].
  assert (Hf' : find_date 2026 (strip (T "05/03 market -1.000,00"))
                = inr (Some (Date 2026 3 5, T "market -1.000,00")))
    by (vm_compute; reflexivity).
  rewrite Hf' in Hf. injection Hf as <- <-.
  vm_compute in Hl. injection Hl as <- <-.
  vm_compute. reflexivity.
Defined.

(** X8.  A line is a candidate only if, leading white space apart, it
    opens with a digit: blank lines, headings and any other text are
    skipped, and never raise. *)
Theorem line_not_opening_with_a_digit_is_skipped (today_year : Z) (orig : text) :
  match strip orig with
  | [] => True
  | c :: _ => isdigit c = false
  end ->
  parse_line today_year orig = Skipped.
Proof.
  unfold parse_line.
  destruct (strip orig) as [| c r]; [reflexivity |].
  intros Hc.
  unfold find_date, numeric_date, month_name_date, DATE_PATTERN, MONTH_PATTERN.
  rewrite (digits12_no_digit c r Hc). reflexivity.
Qed.

Lemma line_not_opening_with_a_digit_is_skipped_witness :
  match strip (T "  TOTAL A PAGAR 9.583,29") with
  | [] => True
  | c :: _ => isdigit c = false
  end
  /\ parse_line 2026 (T "  TOTAL A PAGAR 9.583,29") = Skipped.
Proof.
  assert (H : match strip (T "  TOTAL A PAGAR 9.583,29") with
              | [] => True
              | c :: _ => isdigit c = false
              end) by (vm_compute; reflexivity).
  split; [exact H |].
  exact (line_not_opening_with_a_digit_is_skipped 2026 (T "  TOTAL A PAGAR 9.583,29") H).
Defined.


End MoreParserFacts.

(** * Further properties of the import and the store *)

Section MoreStoreFacts.
Import Str DatabaseManager History.
Open Scope Z_scope.

Lemma days_in_month_28 (y m : Z) : 28 <= Datetime.days_in_month y m.
Proof.
  unfold Datetime.days_in_month.
  destruct (m =? 2); [destruct (Datetime.is_leap y); lia |].
  destruct ((m =? 4) || (m =? 6) || (m =? 9) || (m =? 11)); lia.
Qed.

Lemma valid_day_one (y m d : Z) :
  Datetime.valid y m d = true -> Datetime.valid y m 1 = true.
Proof.
  unfold Datetime.valid. rewrite !andb_true_iff, !Z.leb_le.
  pose proof (days_in_month_28 y m).
  intros (((((H1 & H2) & H3) & H4) & H5) & H6).
  repeat split; try assumption; lia.
Qed.

(** X9.  The substitution of the statement period in [load_statement] keeps
    the transactions whose day the target month has, in their order, with
    the day, the merchant, the amount and the installment they had and the
    month and year of the statement; it drops the others.  A period that is
    no month of the calendar drops everything; a calendar period drops
    nothing when no day is above 28. *)
Theorem adjusted_keeps_the_days_of_the_period (y m : Z) (txs : list Transaction) :
  ExpenseApp.adjusted y m txs
  = map (fun t => mkTransaction (Date y m (day (tx_date t))) (store_name t)
                                (amount t) (installment_number t))
        (filter (fun t => Datetime.valid y m (day (tx_date t))) txs)
  /\ (Datetime.valid y m 1 = false -> ExpenseApp.adjusted y m txs = [])
  /\ (Datetime.valid y m 1 = true ->
      Forall (fun t => 1 <= day (tx_date t) <= 28) txs ->
      length (ExpenseApp.adjusted y m txs) = length txs).
Proof.
  assert (Heq : ExpenseApp.adjusted y m txs
                = map (fun t => mkTransaction (Date y m (day (tx_date t))) (store_name t)
                                              (amount t) (installment_number t))
                      (filter (fun t => Datetime.valid y m (day (tx_date t))) txs)).
  { induction txs as [| t r IH]; simpl; [reflexivity |].
    unfold Datetime.date_new.
    destruct (Datetime.valid y m (day (tx_date t))); simpl; now rewrite IH. }
  split; [exact Heq |]. split.
  - intros Hv. rewrite Heq.
    induction txs as [| t r IH]; simpl; [reflexivity |].
    destruct (Datetime.valid y m (day (tx_date t))) eqn:Ht.
    + apply valid_day_one in Ht. congruence.
    + apply IH. clear IH Heq.
      induction r as [| t' r IH]; simpl; [reflexivity |].
      unfold Datetime.date_new.
      destruct (Datetime.valid y m (day (tx_date t'))); simpl; now rewrite IH.
  - intros Hv Hall. rewrite Heq, length_map. clear Heq.
    induction Hall as [| t r Ht Hr IH]; simpl; [reflexivity |].
    assert (Hd : Datetime.valid y m (day (tx_date t)) = true).
    { unfold Datetime.valid in *.
      rewrite !andb_true_iff, !Z.leb_le in *.
      pose proof (days_in_month_28 y m). repeat split; try tauto; lia. }
    rewrite Hd. simpl. now rewrite IH.
Qed.

(** *** Constraints of the schema as invariants *)

Lemma in_has_category (c : category_row) (d : db) :
  In c (categories d) -> has_category (c_id c) d = true.
Proof.
  intros H. unfold has_category. apply existsb_exists.
  exists c. split; [exact H | apply Z.eqb_refl].
Qed.

Lemma in_has_store (s : store_row) (d : db) :
  In s (stores d) -> has_store (s_id s) d = true.
Proof.
  intros H. unfold has_store. apply existsb_exists.
  exists s. split; [exact H | apply Z.eqb_refl].
Qed.

Lemma has_statement_in (k : Z) (d : db) :
  has_statement k d = true -> exists s, In s (statements d) /\ st_id s = k.
Proof.
  unfold has_statement. intros H. apply existsb_exists in H.
  destruct H as (s & Hin & Hs). exists s. split; [exact Hin | now apply Z.eqb_eq].
Qed.


Lemma refs_ok_iff (d : db) :
  refs_ok d = true
  <-> (forall s, In s (stores d) ->
                 exists c, s_category_id s = Some c /\ has_category c d = true)
      /\ (forall t, In t (transactions d) ->
                    has_store (t_store_id t) d = true
                    /\ has_statement (t_statement_id t) d = true).
Proof.
  unfold refs_ok. rewrite andb_true_iff, !forallb_forall. split.
  - intros [Hs Ht]. split.
    + intros s Hin. specialize (Hs s Hin).
      destruct (s_category_id s) as [c |]; [| discriminate]. now exists c.
    + intros t Hin. specialize (Ht t Hin). now apply andb_true_iff in Ht.
  - intros [Hs Ht]. split.
    + intros s Hin. destruct (Hs s Hin) as (c & -> & Hc). exact Hc.
    + intros t Hin. apply andb_true_iff. now apply Ht.
Qed.

(** References survive when the tables they point into keep their keys. *)
Lemma refs_ok_grow (d d' : db) :
  (forall c, has_category c d = true -> has_category c d' = true) ->
  (forall s, has_store s d = true -> has_store s d' = true) ->
  (forall s, has_statement s d = true -> has_statement s d' = true) ->
  (forall s, In s (stores d') ->
             In s (stores d)
             \/ exists c, s_category_id s = Some c /\ has_category c d' = true) ->
  (forall t, In t (transactions d') ->
             In t (transactions d)
             \/ (has_store (t_store_id t) d' = true
                 /\ has_statement (t_statement_id t) d' = true)) ->
  refs_ok d = true -> refs_ok d' = true.
Proof.
  intros Hc Hs Hst Hstores Htx H. apply refs_ok_iff in H. destruct H as [H1 H2].
  apply refs_ok_iff. split.
  - intros s Hin. destruct (Hstores s Hin) as [Hold | Hnew]; [| exact Hnew].
    destruct (H1 s Hold) as (c & Hsc & Hhc). exists c. split; [exact Hsc | auto].
  - intros t Hin. destruct (Htx t Hin) as [Hold | Hnew]; [| exact Hnew].
    destruct (H2 t Hold) as [Ha Hb]. split; auto.
Qed.

Lemma existsb_app_l (A : Type) (p : A -> bool) (l e : list A) :
  existsb p l = true -> existsb p (l ++ e) = true.
Proof. intros H. rewrite existsb_app, H. reflexivity. Qed.

Lemma NoDup_app_fresh (A : Type) (l : list A) (x : A) :
  NoDup l -> ~ In x l -> NoDup (l ++ [x]).
Proof.
  intros Hn Hx. induction Hn as [| y r Hy Hr IH]; simpl.
  - constructor; [intros [] | constructor].
  - constructor.
    + intros Hin. apply in_app_or in Hin. destruct Hin as [Hin | [<- | []]].
      * contradiction.
      * apply Hx. now left.
    + apply IH. intros Hin. apply Hx. now right.
Qed.

Lemma NoDup_map_filter (A B : Type) (f : A -> B) (q : A -> bool) (l : list A) :
  NoDup (map f l) -> NoDup (map f (filter q l)).
Proof.
  induction l as [| y r IH]; simpl; intros H; [constructor |].
  inversion H as [| x l' Hnotin Hr]; subst.
  destruct (q y); simpl; [| now apply IH].
  constructor; [| now apply IH].
  intros Hin. apply Hnotin. apply in_map_iff in Hin.
  destruct Hin as (z & Hz & Hin). apply filter_In in Hin.
  apply in_map_iff. exists z. tauto.
Qed.

Lemma not_named_not_in (A : Type) (name_of : A -> text) (name : text) (l : list A) :
  existsb (fun x => text_eqb (name_of x) name) l = false ->
  ~ In name (map name_of l).
Proof.
  intros H Hin. apply in_map_iff in Hin. destruct Hin as (x & Hx & Hin).
  assert (existsb (fun x => text_eqb (name_of x) name) l = true); [| congruence].
  apply existsb_exists. exists x. split; [exact Hin | now apply text_eqb_eq].
Qed.

Lemma find_none_existsb (A : Type) (p : A -> bool) (l : list A) :
  find p l = None -> existsb p l = false.
Proof.
  induction l as [| y r IH]; simpl; [reflexivity |].
  destruct (p y); [discriminate | exact IH].
Qed.

Lemma existsb_false_find (A : Type) (p : A -> bool) (l : list A) :
  existsb p l = false -> find p l = None.
Proof.
  induction l as [| y r IH]; simpl; [reflexivity |].
  destruct (p y); [discriminate | exact IH].
Qed.

Lemma existsb_map_same (A : Type) (q : A -> bool) (f : A -> A) (l : list A) :
  (forall x, q (f x) = q x) -> existsb q (map f l) = existsb q l.
Proof.
  intros H. induction l as [| y r IH]; simpl; [reflexivity |].
  now rewrite H, IH.
Qed.

Lemma add_category_sound (name : text) (d : db) :
  sound d -> sound (snd (add_category name d)).
Proof.
  unfold add_category.
  destruct (has_category_named name d) eqn:Hn; [tauto |].
  intros (Hr & Hc & Hs). split; [| split].
  - revert Hr. apply refs_ok_grow; simpl; auto.
    intros c H. unfold has_category in *. simpl. now apply existsb_app_l.
  - simpl. rewrite map_app. simpl. apply NoDup_app_fresh; [exact Hc |].
    now apply not_named_not_in.
  - exact Hs.
Qed.

Lemma delete_category_sound (cid : Z) (d : db) :
  sound d -> sound (snd (delete_category cid d)).
Proof.
  intros Hsound. unfold delete_category, bind, get_default_category_id.
  destruct (find _ (categories d)) as [c0 |] eqn:Hf; [| exact Hsound].
  destruct (cid =? c_id c0) eqn:He; [exact Hsound |].
  apply Z.eqb_neq in He. apply find_some in Hf. destruct Hf as [Hc0 _].
  destruct Hsound as (Hr & Hc & Hs).
  assert (Hkeep : forall c, c <> cid -> has_category c d = true ->
            has_category c (remove_category cid (move_stores cid (c_id c0) d)) = true).
  { intros c Hne H. apply has_category_in in H. destruct H as (x & Hx & Hid).
    unfold has_category. simpl. apply existsb_exists. exists x. split.
    - apply filter_In. split; [exact Hx |].
      apply negb_true_iff. apply Z.eqb_neq. congruence.
    - now apply Z.eqb_eq. }
  simpl. split; [| split].
  - apply refs_ok_iff in Hr. destruct Hr as [H1 H2].
    apply refs_ok_iff. split.
    + intros s Hin. simpl in Hin. apply in_map_iff in Hin.
      destruct Hin as (s0 & <- & Hin0).
      destruct (H1 s0 Hin0) as (c & Hsc & Hhc).
      destruct (opt_is (s_category_id s0) cid) eqn:Ho.
      * exists (c_id c0). split; [reflexivity |].
        apply Hkeep; [congruence | now apply in_has_category].
      * exists c. split; [exact Hsc |]. apply Hkeep; [| exact Hhc].
        intros ->. rewrite Hsc in Ho. simpl in Ho. rewrite Z.eqb_refl in Ho.
        discriminate.
    + intros t Hin. simpl in Hin. destruct (H2 t Hin) as [Ha Hb]. split.
      * unfold has_store in *. simpl. rewrite existsb_map_same; [exact Ha |].
        intros s. destruct (opt_is (s_category_id s) cid); reflexivity.
      * exact Hb.
  - simpl. now apply NoDup_map_filter.
  - simpl. rewrite map_map.
    erewrite map_ext; [exact Hs |].
    intros s. simpl. destruct (opt_is (s_category_id s) cid); reflexivity.
Qed.

Lemma get_store_id_sound (name : text) (d : db) :
  sound d -> sound (snd (get_store_id name d)).
Proof.
  intros Hsound. unfold get_store_id.
  destruct (find (fun s => text_eqb (s_name s) name) (stores d)) eqn:Hfs;
    [exact Hsound |].
  unfold bind, get_default_category_id.
  destruct (find _ (categories d)) as [c0 |] eqn:Hf; [| exact Hsound].
  apply find_some in Hf. destruct Hf as [Hc0 _].
  destruct Hsound as (Hr & Hc & Hs). simpl. split; [| split].
  - revert Hr. apply refs_ok_grow; simpl; auto.
    + intros s H. unfold has_store in *. simpl. now apply existsb_app_l.
    + intros s Hin. apply in_app_or in Hin. destruct Hin as [Hin | [<- | []]];
        [now left | right].
      exists (c_id c0). split; [reflexivity |].
      unfold has_category. simpl. apply existsb_exists.
      exists c0. split; [exact Hc0 | apply Z.eqb_refl].
  - exact Hc.
  - simpl. rewrite map_app. simpl. apply NoDup_app_fresh; [exact Hs |].
    apply not_named_not_in. now apply find_none_existsb.
Qed.

Lemma update_store_category_sound (sid cid : Z) (d : db) :
  sound d -> sound (snd (update_store_category sid cid d)).
Proof.
  intros Hsound. unfold update_store_category.
  destruct (has_store sid d && negb (has_category cid d)) eqn:Hg;
    [exact Hsound |].
  destruct Hsound as (Hr & Hc & Hs). simpl. split; [| split].
  - apply refs_ok_iff in Hr. destruct Hr as [H1 H2].
    apply refs_ok_iff. split.
    + intros s Hin. simpl in Hin. apply in_map_iff in Hin.
      destruct Hin as (s0 & <- & Hin0).
      destruct (s_id s0 =? sid) eqn:Hid.
      * exists cid. split; [reflexivity |].
        apply Z.eqb_eq in Hid.
        assert (Hhs : has_store sid d = true)
          by (rewrite <- Hid; now apply in_has_store).
        rewrite Hhs in Hg. simpl in Hg. apply negb_false_iff in Hg. exact Hg.
      * destruct (H1 s0 Hin0) as (c & Hsc & Hhc). now exists c.
    + intros t Hin. simpl in Hin. destruct (H2 t Hin) as [Ha Hb]. split.
      * unfold has_store in *. simpl. rewrite existsb_map_same; [exact Ha |].
        intros s. destruct (s_id s =? sid); reflexivity.
      * exact Hb.
  - exact Hc.
  - simpl. rewrite map_map.
    erewrite map_ext; [exact Hs |].
    intros s. simpl. destruct (s_id s =? sid); reflexivity.
Qed.

Lemma insert_transaction_sound (sid : Z) (dt : date) (store_id amt : Z)
      (inst : option Z) (d : db) :
  sound d -> sound (snd (insert_transaction sid dt store_id amt inst d)).
Proof.
  intros Hsound. unfold insert_transaction.
  destruct (has_statement sid d && has_store store_id d) eqn:Hg;
    [| exact Hsound].
  apply andb_true_iff in Hg. destruct Hg as [Hst Hso].
  destruct Hsound as (Hr & Hc & Hs). simpl. split; [| split]; try assumption.
  revert Hr. apply refs_ok_grow; simpl; auto.
  intros t Hin. apply in_app_or in Hin. destruct Hin as [Hin | [<- | []]];
    [now left | right]. simpl. split; assumption.
Qed.

Lemma add_transactions_sound (sid : Z) (txs : list Transaction) :
  forall d, sound d -> sound (snd (add_transactions sid txs d)).
Proof.
  induction txs as [| t r IH]; intros d Hc; simpl; [exact Hc |].
  unfold bind at 1.
  pose proof (@get_store_id_sound (store_name t) d Hc) as H1.
  destruct (get_store_id (store_name t) d) as [[i | err] d1]; simpl in H1;
    [| exact H1].
  unfold bind at 1.
  pose proof (@insert_transaction_sound sid (tx_date t) i (amount t)
                (installment_number t) d1 H1) as H2.
  destruct (insert_transaction sid (tx_date t) i (amount t)
                               (installment_number t) d1) as [[u | err] d2];
    simpl in H2; [now apply IH | exact H2].
Qed.

Lemma add_statement_sound (m y : Z) (cn l4 fp : text) (d : db) :
  sound d -> sound (snd (add_statement m y cn l4 fp d)).
Proof.
  intros Hsound. unfold add_statement.
  destruct (existsb _ (statements d)); [exact Hsound |].
  destruct Hsound as (Hr & Hc & Hs). simpl. split; [| split]; try assumption.
  revert Hr. apply refs_ok_grow; simpl; auto.
  intros s H. unfold has_statement in *. simpl. now apply existsb_app_l.
Qed.

Lemma delete_statement_sound (sid : Z) (d : db) :
  sound d -> sound (ExpenseApp.delete_statement sid d).
Proof.
  intros (Hr & Hc & Hs). split; [| split]; try assumption.
  apply refs_ok_iff in Hr. destruct Hr as [H1 H2]. apply refs_ok_iff. split.
  - exact H1.
  - intros t Hin. simpl in Hin. apply filter_In in Hin. destruct Hin as [Hin Hne].
    destruct (H2 t Hin) as [Ha Hb]. split; [exact Ha |].
    apply has_statement_in in Hb. destruct Hb as (s & Hs' & Hid).
    unfold has_statement. simpl. apply existsb_exists. exists s. split.
    + apply filter_In. split; [exact Hs' |]. now rewrite Hid.
    + now apply Z.eqb_eq.
Qed.

Lemma delete_transaction_sound (tid : Z) (d : db) :
  sound d -> sound (ExpenseApp.delete_transaction tid d).
Proof.
  intros (Hr & Hc & Hs). split; [| split]; try assumption.
  apply refs_ok_iff in Hr. destruct Hr as [H1 H2]. apply refs_ok_iff. split.
  - exact H1.
  - intros t Hin. simpl in Hin. apply filter_In in Hin. destruct Hin as [Hin _].
    exact (H2 t Hin).
Qed.

Lemma modify_statement_sound (sid m y : Z) (cn : text) (d : db) :
  sound d -> sound (ExpenseApp.modify_statement sid m y cn d).
Proof.
  intros Hsound. unfold ExpenseApp.modify_statement.
  destruct (existsb _ (statements d)); [exact Hsound |].
  destruct Hsound as (Hr & Hc & Hs). split; [| split]; try assumption.
  revert Hr. apply refs_ok_grow; simpl; auto.
  intros s H. unfold has_statement in *. simpl.
  rewrite existsb_map_same; [exact H |].
  intros x. destruct (st_id x =? sid); reflexivity.
Qed.

Lemma init_sound (d : db) : sound d -> sound (init d).
Proof.
  intros H. unfold init.
  assert (H1 : sound (_ensure_default_category d)).
  { pose proof (@add_category_sound NO_ASIGNADA d H) as Ha.
    unfold add_category in Ha. unfold _ensure_default_category.
    destruct (has_category_named NO_ASIGNADA d); exact Ha. }
  revert H1. generalize (_ensure_default_category d). clear. intros d Hsound.
  unfold _ensure_cash_statement.
  destruct (existsb is_cash_statement (statements d)); [exact Hsound |].
  destruct Hsound as (Hr & Hc & Hs). simpl. split; [| split]; try assumption.
  revert Hr. apply refs_ok_grow; simpl; auto.
  intros s H. unfold has_statement in *. simpl. now apply existsb_app_l.
Qed.


Lemma step_sound (c : call) (d : db) : sound d -> sound (step c d).
Proof.
  intros H. destruct c; simpl.
  - now apply add_category_sound.
  - now apply delete_category_sound.
  - now apply get_store_id_sound.
  - now apply update_store_category_sound.
  - now apply add_statement_sound.
  - now apply add_transactions_sound.
  - unfold add_manual_transaction, bind.
    pose proof (@get_store_id_sound name d H) as H1.
    destruct (get_store_id name d) as [[i | err] d1]; simpl in H1; [| exact H1].
    now apply insert_transaction_sound.
  - now apply delete_statement_sound.
  - now apply delete_transaction_sound.
  - now apply modify_statement_sound.
  - now apply init_sound.
Qed.

Lemma run_sound (cs : list call) : forall d, sound d -> sound (run cs d).
Proof.
  induction cs as [| c r IH]; intros d H; simpl; [exact H |].
  apply IH. now apply step_sound.
Qed.

(** *** The keys of statements and transactions *)

Lemma same_statement_key_iff (m y : Z) (cn l4 : text) (s : statement_row) :
  same_statement_key m y cn l4 s = true <-> statement_key s = (m, y, cn, l4).
Proof.
  unfold same_statement_key, statement_key. split.
  - rewrite !andb_true_iff, !Z.eqb_eq.
    intros (((H1 & H2) & H3) & H4).
    apply text_eqb_eq in H3. apply text_eqb_eq in H4. congruence.
  - intros H. injection H as -> -> -> ->.
    now rewrite !Z.eqb_refl, !text_eqb_refl.
Qed.

Lemma keyed_same_rows (d d' : db) :
  statements d' = statements d -> transactions d' = transactions d ->
  keyed d -> keyed d'.
Proof.
  unfold keyed, row_keys_ok. intros -> ->. exact (fun H => H).
Qed.

Lemma get_store_id_keyed (name : text) (d : db) :
  keyed d -> keyed (snd (get_store_id name d)).
Proof.
  unfold get_store_id.
  destruct (find _ (stores d)); [exact (fun H => H) |].
  unfold bind, get_default_category_id.
  destruct (find _ (categories d)); [| exact (fun H => H)].
  now apply keyed_same_rows.
Qed.

Lemma insert_transaction_keyed (sid : Z) (dt : date) (store_id amt : Z)
      (inst : option Z) (d : db) :
  keyed d -> keyed (snd (insert_transaction sid dt store_id amt inst d)).
Proof.
  intros Hk. unfold insert_transaction.
  destruct (has_statement sid d && has_store store_id d); [| exact Hk].
  destruct Hk as [Hr Hn]. unfold row_keys_ok in Hr.
  apply andb_true_iff in Hr. destruct Hr as [H1 H2].
  split; [| exact Hn]. unfold row_keys_ok. cbn [snd statements transactions].
  rewrite H1, map_app. cbn [map t_id andb].
  apply distinct_app_fresh; [exact H2 |].
  intros x Hx. now apply next_id_fresh.
Qed.

Lemma add_transactions_keyed (sid : Z) (txs : list Transaction) :
  forall d, keyed d -> keyed (snd (add_transactions sid txs d)).
Proof.
  induction txs as [| t r IH]; intros d Hk; [exact Hk |].
  cbn [add_transactions]. unfold bind.
  pose proof (get_store_id_keyed (store_name t) Hk) as H1.
  destruct (get_store_id (store_name t) d) as [[i | e] d1]; cbn [snd] in H1 |- *;
    [| exact H1].
  pose proof (insert_transaction_keyed sid (tx_date t) i (amount t)
                                       (installment_number t) H1) as H2.
  destruct (insert_transaction sid (tx_date t) i (amount t)
                               (installment_number t) d1) as [[u | e] d2];
    cbn [snd] in H2 |- *; [now apply IH | exact H2].
Qed.

Lemma insert_statement_keyed (m y : Z) (cn l4 : text) (fp : option text) (d : db) :
  existsb (same_statement_key m y cn l4) (statements d) = false ->
  keyed d -> keyed (snd (insert_statement m y cn l4 fp d)).
Proof.
  intros Hnew [Hr Hn]. unfold row_keys_ok in Hr.
  apply andb_true_iff in Hr. destruct Hr as [H1 H2].
  unfold insert_statement. cbn [snd]. split.
  - unfold row_keys_ok. cbn [statements transactions].
    rewrite H2, andb_true_r, map_app. cbn [map st_id].
    apply distinct_app_fresh; [exact H1 |].
    intros x Hx. now apply next_id_fresh.
  - cbn [statements]. rewrite map_app. cbn [map].
    apply NoDup_app_fresh; [exact Hn |].
    intros Hin. apply in_map_iff in Hin. destruct Hin as (s & Hs & Hin).
    assert (Hex : existsb (same_statement_key m y cn l4) (statements d) = true).
    { apply existsb_exists. exists s. split; [exact Hin |].
      now apply same_statement_key_iff. }
    congruence.
Qed.

Lemma modify_keys_NoDup (sid m y : Z) (cn : text) (l : list statement_row) :
  distinct (map st_id l) = true ->
  NoDup (map statement_key l) ->
  (forall s o, In s l -> In o l -> st_id s = sid -> st_id o <> sid ->
               statement_key o <> (m, y, cn, st_last4digits s)) ->
  NoDup (map statement_key
             (map (fun s => if st_id s =? sid
                            then mkStatement (st_id s) m y cn (st_last4digits s)
                                             (st_file_path s)
                            else s) l)).
Proof.
  set (f := fun s => if st_id s =? sid
                     then mkStatement (st_id s) m y cn (st_last4digits s)
                                      (st_file_path s)
                     else s).
  induction l as [| x r IH]; intros Hd Hn Hclash; [constructor |].
  cbn [map] in Hd, Hn |- *.
  apply distinct_head in Hd. destruct Hd as [Hx Hd].
  inversion Hn as [| k ks Hkx Hnr]; subst.
  constructor.
  - intros Hin. apply in_map_iff in Hin. destruct Hin as (y' & Hy & Hin).
    apply in_map_iff in Hin. destruct Hin as (o & <- & Ho).
    unfold f in Hy.
    destruct (st_id x =? sid) eqn:Ex; destruct (st_id o =? sid) eqn:Eo.
    + apply Z.eqb_eq in Ex. apply Z.eqb_eq in Eo.
      apply Hx. rewrite Ex, <- Eo. now apply in_map.
    + apply Z.eqb_eq in Ex. apply Z.eqb_neq in Eo.
      apply (Hclash x o); [now left | now right | exact Ex | exact Eo |].
      exact Hy.
    + apply Z.eqb_neq in Ex. apply Z.eqb_eq in Eo.
      apply (Hclash o x); [now right | now left | exact Eo | exact Ex |].
      symmetry. exact Hy.
    + apply Hkx. rewrite <- Hy. now apply in_map.
  - apply IH; [exact Hd | exact Hnr |].
    intros s o Hs Ho. apply Hclash; now right.
Qed.

Lemma modify_statement_keyed (sid m y : Z) (cn : text) (d : db) :
  keyed d -> keyed (ExpenseApp.modify_statement sid m y cn d).
Proof.
  intros Hk. unfold ExpenseApp.modify_statement.
  destruct (existsb _ (statements d)) eqn:Hclash; [exact Hk |].
  destruct Hk as [Hr Hn]. unfold row_keys_ok in Hr.
  apply andb_true_iff in Hr. destruct Hr as [H1 H2].
  split.
  - unfold row_keys_ok. cbn [statements transactions].
    rewrite H2, andb_true_r, map_map.
    rewrite (map_ext _ st_id); [exact H1 |].
    intros s. destruct (st_id s =? sid); reflexivity.
  - cbn [statements]. apply modify_keys_NoDup; [exact H1 | exact Hn |].
    intros s o Hs Ho Hsid Hoid Hkey.
    assert (Hex : existsb
                    (fun s0 =>
                       (st_id s0 =? sid)
                       && existsb
                            (fun o0 =>
                               negb (st_id o0 =? sid)
                               && same_statement_key m y cn (st_last4digits s0) o0)
                            (statements d))
                    (statements d) = true).
    { apply existsb_exists. exists s. split; [exact Hs |].
      apply andb_true_iff. split; [now apply Z.eqb_eq |].
      apply existsb_exists. exists o. split; [exact Ho |].
      apply andb_true_iff. split.
      - apply negb_true_iff. now apply Z.eqb_neq.
      - now apply same_statement_key_iff. }
    congruence.
Qed.

Lemma existsb_pointwise (A : Type) (p q : A -> bool) (l : list A) :
  (forall x, p x = q x) -> existsb p l = existsb q l.
Proof.
  intros H. induction l as [| x r IH]; [reflexivity |].
  cbn [existsb]. now rewrite H, IH.
Qed.

Lemma init_keyed (d : db) : keyed d -> keyed (init d).
Proof.
  intros Hk. unfold init.
  assert (H1 : keyed (_ensure_default_category d)).
  { unfold _ensure_default_category.
    destruct (has_category_named NO_ASIGNADA d); [exact Hk |].
    revert Hk. now apply keyed_same_rows. }
  revert H1. generalize (_ensure_default_category d). clear. intros d Hk.
  unfold _ensure_cash_statement.
  destruct (existsb is_cash_statement (statements d)) eqn:E; [exact Hk |].
  apply insert_statement_keyed; [| exact Hk].
  transitivity (existsb is_cash_statement (statements d)); [| exact E].
  apply existsb_pointwise. intros s.
  unfold same_statement_key, is_cash_statement.
  destruct (st_month s =? 1); destruct (st_year s =? 1900); reflexivity.
Qed.

Lemma step_keyed (c : call) (d : db) : keyed d -> keyed (step c d).
Proof.
  intros Hk. destruct c; cbn [step].
  - unfold add_category. destruct (has_category_named name d); [exact Hk |].
    revert Hk. now apply keyed_same_rows.
  - unfold delete_category, bind, get_default_category_id.
    destruct (find _ (categories d)) as [c0 |]; [| exact Hk].
    destruct (cid =? c_id c0); [exact Hk |].
    revert Hk. now apply keyed_same_rows.
  - now apply get_store_id_keyed.
  - unfold update_store_category.
    destruct (has_store sid d && negb (has_category cid d)); [exact Hk |].
    revert Hk. now apply keyed_same_rows.
  - unfold add_statement.
    destruct (existsb _ (statements d)) eqn:E; [exact Hk |].
    now apply insert_statement_keyed.
  - now apply add_transactions_keyed.
  - unfold add_manual_transaction, bind.
    pose proof (get_store_id_keyed name Hk) as H1.
    destruct (get_store_id name d) as [[i | err] d1]; cbn [snd] in H1 |- *;
      [| exact H1].
    now apply insert_transaction_keyed.
  - destruct Hk as [Hr Hn]. unfold row_keys_ok in Hr.
    apply andb_true_iff in Hr. destruct Hr as [H1 H2].
    split; [| now apply NoDup_map_filter].
    unfold row_keys_ok. cbn [ExpenseApp.delete_statement statements transactions].
    now rewrite !distinct_filter.
  - destruct Hk as [Hr Hn]. unfold row_keys_ok in Hr.
    apply andb_true_iff in Hr. destruct Hr as [H1 H2].
    split; [| exact Hn].
    unfold row_keys_ok. cbn [ExpenseApp.delete_transaction statements transactions].
    now rewrite H1, distinct_filter.
  - now apply modify_statement_keyed.
  - now apply init_keyed.
Qed.

Lemma run_keyed (cs : list call) : forall d, keyed d -> keyed (run cs d).
Proof.
  induction cs as [| c r IH]; intros d H; simpl; [exact H |].
  apply IH. now apply step_keyed.
Qed.


(** X10.  In every state the program reaches -- by any calls, the program
    closed and started again at any point among them -- the constraints of
    the schema hold: each merchant points at a category of the table (never
    at none, never at a deleted one), each transaction at a merchant and a
    statement of theirs; no two categories share a name, no two merchants
    share a name, no two statements share month, year, card name and last
    digits; and in each of the four tables the primary keys are distinct. *)
Theorem reachable_states_are_sound (d : db) :
  reachable d ->
  (forall s, In s (stores d) ->
             exists c, s_category_id s = Some (c_id c) /\ In c (categories d))
  /\ (forall t, In t (transactions d) ->
                (exists s, In s (stores d) /\ s_id s = t_store_id t)
                /\ exists st, In st (statements d) /\ st_id st = t_statement_id t)
  /\ NoDup (map c_name (categories d))
  /\ NoDup (map s_name (stores d))
  /\ NoDup (map statement_key (statements d))
  /\ distinct (map c_id (categories d)) = true
  /\ distinct (map s_id (stores d)) = true
  /\ distinct (map st_id (statements d)) = true
  /\ distinct (map t_id (transactions d)) = true.
Proof.
  intros Hreach.
  pose proof (reachable_consistent Hreach) as [Hk _].
  unfold keys_ok in Hk. apply andb_true_iff in Hk. destruct Hk as [Hks Hkc].
  destruct Hreach as [cs ->].
  assert (H0 : sound (init empty_db)).
  { split; [vm_compute; reflexivity |]. split; vm_compute.
    - constructor; [intros [] | constructor].
    - constructor. }
  assert (K0 : keyed (init empty_db)).
  { split; [vm_compute; reflexivity |]. vm_compute.
    constructor; [intros [] | constructor]. }
  assert (Hs : sound (run cs (init empty_db))) by now apply run_sound.
  assert (Hy : keyed (run cs (init empty_db))) by now apply run_keyed.
  destruct Hs as (Hr & Hc & Hn). apply refs_ok_iff in Hr. destruct Hr as [H1 H2].
  destruct Hy as [Hrow Hkey]. unfold row_keys_ok in Hrow.
  apply andb_true_iff in Hrow. destruct Hrow as [Hst Htx].
  split; [| split; [| repeat split; assumption]].
  - intros s Hin. destruct (H1 s Hin) as (c & Hsc & Hhc).
    apply has_category_in in Hhc. destruct Hhc as (x & Hx & Hid).
    exists x. split; [congruence | exact Hx].
  - intros t Ht. destruct (H2 t Ht) as [Ha Hb]. split.
    + now apply has_store_in.
    + now apply has_statement_in.
Qed.

Lemma reachable_states_are_sound_witness :
  let d := run [AddCategory (T "Comida"); GetStoreId (T "market");
                UpdateStoreCategory 1 2; DeleteCategory 2;
                DeleteStatement 1; Reopen;
                AddManualTransaction 2 (Date 2024 3 14) (T "market") 1000]
               (init empty_db) in
  reachable d
  /\ map st_id (statements d) = [2]
  /\ map t_statement_id (transactions d) = [2]
  /\ NoDup (map statement_key (statements d))
  /\ distinct (map t_id (transactions d)) = true.
Proof.
  cbv zeta.
  set (d := run [AddCategory (T "Comida"); GetStoreId (T "market");
                 UpdateStoreCategory 1 2; DeleteCategory 2;
                 DeleteStatement 1; Reopen;
                 AddManualTransaction 2 (Date 2024 3 14) (T "market") 1000]
                (init empty_db)).
  assert (H : reachable d) by (eexists; reflexivity).
  split; [exact H |].
  split; [vm_compute; reflexivity |]. split; [vm_compute; reflexivity |].
  destruct (reachable_states_are_sound H)
    as (_ & _ & _ & _ & Hkey & _ & _ & _ & Htx).
  split; [exact Hkey | exact Htx].
Defined.


(** *** Sums over a store whose references hold *)

Lemma find_unique_key (A : Type) (key : A -> Z) (v : Z) (l : list A) (x : A) :
  distinct (map key l) = true -> In x l -> key x = v ->
  find (fun y => key y =? v) l = Some x.
Proof.
  induction l as [| y r IH]; intros Hd Hin Hk; [contradiction |].
  simpl map in Hd. apply distinct_head in Hd. destruct Hd as [Hnotin Hd].
  simpl. destruct Hin as [-> | Hin].
  - now rewrite Hk, Z.eqb_refl.
  - destruct (key y =? v) eqn:Hy.
    + exfalso. apply Hnotin. apply Z.eqb_eq in Hy. rewrite Hy, <- Hk.
      now apply in_map.
    + now apply IH.
Qed.

(** In a store with distinct keys whose references hold, the join gives
    each transaction exactly one row: the category of its merchant. *)
Lemma rows_of_single (d : db) (t : transaction_row) :
  keys_ok d = true -> refs_ok d = true -> In t (transactions d) ->
  exists c0,
    In c0 (categories d)
    /\ store_category_id d (t_store_id t) = Some (c_id c0)
    /\ rows_of d t = [(c0, t_amount t)].
Proof.
  intros Hk Hr Hin.
  apply refs_ok_iff in Hr. destruct Hr as [H1 H2].
  destruct (H2 t Hin) as [Hs _].
  apply has_store_in in Hs. destruct Hs as (s0 & Hs0 & Hid).
  destruct (H1 s0 Hs0) as (c & Hsc & Hc).
  apply has_category_in in Hc. destruct Hc as (c0 & Hc0 & Hcid).
  exists c0. split; [exact Hc0 |]. split.
  - unfold store_category_id.
    pose proof Hk as Hk'. unfold keys_ok in Hk'.
    apply andb_true_iff in Hk'. destruct Hk' as [Hks _].
    rewrite (find_unique_key s_id (stores d) s0 Hks Hs0 Hid). congruence.
  - apply (rows_of_merchant d s0 c0 t Hk Hs0 Hid Hc0); congruence.
Qed.

Lemma category_total_by_store_on (d : db) (scope : transaction_row -> bool) (k : Z) :
  keys_ok d = true -> refs_ok d = true ->
  forall l,
    incl l (transactions d) ->
    total (map snd (filter (fun ca => c_id (fst ca) =? k)
                           (flat_map (fun t => if scope t then rows_of d t else []) l)))
    = total (map t_amount
                 (filter (fun t => scope t
                                   && opt_is (store_category_id d (t_store_id t)) k) l)).
Proof.
  intros Hk Hr. induction l as [| t r IH]; intros Hl; [reflexivity |].
  cbn [flat_map filter]. rewrite filter_app, map_app, total_app.
  rewrite IH by (intros x Hx; apply Hl; now right).
  destruct (rows_of_single d t Hk Hr (Hl t (or_introl eq_refl)))
    as (c0 & _ & Hcat & Hrows).
  destruct (scope t); cbn [andb].
  - rewrite Hrows, Hcat. cbn [filter fst opt_is].
    destruct (c_id c0 =? k); cbn [map snd]; unfold total; simpl; lia.
  - unfold total. simpl. lia.
Qed.

(** The sum of a category is the sum of the transactions in scope whose
    merchant points at it. *)
Lemma category_total_by_store (d : db) (scope : transaction_row -> bool) (k : Z) :
  keys_ok d = true -> refs_ok d = true ->
  category_total scope d k
  = total (map t_amount
               (filter (fun t => scope t
                                 && opt_is (store_category_id d (t_store_id t)) k)
                       (transactions d))).
Proof.
  intros Hk Hr. unfold category_total, joined.
  apply category_total_by_store_on; try assumption. apply incl_refl.
Qed.

Lemma joined_amounts_on (d : db) (scope : transaction_row -> bool) :
  keys_ok d = true -> refs_ok d = true ->
  forall l,
    incl l (transactions d) ->
    map snd (flat_map (fun t => if scope t then rows_of d t else []) l)
    = map t_amount (filter scope l).
Proof.
  intros Hk Hr. induction l as [| t r IH]; intros Hl; [reflexivity |].
  cbn [flat_map filter]. rewrite map_app.
  rewrite IH by (intros x Hx; apply Hl; now right).
  destruct (rows_of_single d t Hk Hr (Hl t (or_introl eq_refl)))
    as (c0 & _ & _ & Hrows).
  destruct (scope t); [now rewrite Hrows | reflexivity].
Qed.

Lemma add_to_groups_all (c : category_row) (a : Z) (gs : list group) :
  Permutation (flat_map g_amounts (add_to_groups c a gs))
              (a :: flat_map g_amounts gs).
Proof.
  induction gs as [| g r IH]; cbn [add_to_groups flat_map g_amounts];
    [reflexivity |].
  destruct (c_id c =? g_id g).
  - cbn [flat_map g_amounts]. rewrite <- app_assoc.
    apply Permutation_sym, (Permutation_middle (g_amounts g)).
  - destruct (c_id c <? g_id g); [reflexivity |].
    cbn [flat_map]. rewrite IH. apply Permutation_sym, Permutation_middle.
Qed.

Lemma grouping_all (rows : list (category_row * Z)) :
  forall gs,
    Permutation
      (flat_map g_amounts
                (fold_left (fun gs ca => add_to_groups (fst ca) (snd ca) gs) rows gs))
      (flat_map g_amounts gs ++ map snd rows).
Proof.
  induction rows as [| [c a] rows IH]; intros gs; cbn [fold_left map fst snd].
  - now rewrite app_nil_r.
  - rewrite IH, add_to_groups_all. apply Permutation_middle.
Qed.



(** Whatever the engine, the amounts of the groups of a query are, all
    together, the amounts of the transactions in scope. *)
Lemma category_sum_groups_amounts
      (E : engine) (d : db) (scope : transaction_row -> bool) :
  keys_ok d = true -> refs_ok d = true ->
  Permutation (flat_map g_amounts (category_sum_groups E scope d))
              (map t_amount (filter scope (transactions d))).
Proof.
  intros Hk Hr. unfold category_sum_groups.
  rewrite (Permutation_flat_map g_amounts (ORDER_BY_permutes E _)).
  unfold group_by_category. rewrite grouping_all. cbn [flat_map app].
  unfold joined. now rewrite (joined_amounts_on d scope Hk Hr (incl_refl _)).
Qed.




(** *** What deleting a category does to the sums *)

Lemma find_map_key (A : Type) (key : A -> Z) (f : A -> A) (v : Z) (l : list A) :
  (forall x, key (f x) = key x) ->
  find (fun y => key y =? v) (map f l)
  = option_map f (find (fun y => key y =? v) l).
Proof.
  intros H. induction l as [| y r IH]; simpl; [reflexivity |].
  rewrite H. destruct (key y =? v); [reflexivity | exact IH].
Qed.

Lemma store_category_id_after_delete (d : db) (cid default sid : Z) :
  store_category_id (remove_category cid (move_stores cid default d)) sid
  = match store_category_id d sid with
    | Some c => if c =? cid then Some default else Some c
    | None => None
    end.
Proof.
  unfold store_category_id. cbn [remove_category move_stores stores].
  rewrite (find_map_key s_id)
    by (intros x; destruct (opt_is (s_category_id x) cid); reflexivity).
  destruct (find (fun s => s_id s =? sid) (stores d)) as [s |]; [| reflexivity].
  cbn [option_map]. destruct (s_category_id s) as [c |] eqn:E; cbn [opt_is].
  - destruct (c =? cid); [reflexivity | exact E].
  - exact E.
Qed.

Lemma filter_none (A : Type) (p : A -> bool) (l : list A) :
  (forall x, p x = false) -> filter p l = [].
Proof.
  intros H. induction l as [| y r IH]; simpl; [reflexivity |].
  now rewrite H.
Qed.

Lemma total_filter_or (A : Type) (f : A -> Z) (p q : A -> bool) (l : list A) :
  (forall x, p x && q x = false) ->
  total (map f (filter (fun x => p x || q x) l))
  = total (map f (filter p l)) + total (map f (filter q l)).
Proof.
  intros H. induction l as [| y r IH]; simpl; [reflexivity |].
  specialize (H y).
  destruct (p y), (q y); simpl in *; try discriminate;
    unfold total in *; simpl; rewrite IH; lia.
Qed.

Lemma delete_category_refs_ok (d : db) (cid : Z) (c0 : category_row) :
  In c0 (categories d) -> cid <> c_id c0 ->
  refs_ok d = true ->
  refs_ok (remove_category cid (move_stores cid (c_id c0) d)) = true.
Proof.
  intros Hc0 He Hr.
  assert (Hkeep : forall c, c <> cid -> has_category c d = true ->
            has_category c (remove_category cid (move_stores cid (c_id c0) d)) = true).
  { intros c Hne H. apply has_category_in in H. destruct H as (x & Hx & Hid).
    unfold has_category. simpl. apply existsb_exists. exists x. split.
    - apply filter_In. split; [exact Hx |].
      apply negb_true_iff. apply Z.eqb_neq. congruence.
    - now apply Z.eqb_eq. }
  apply refs_ok_iff in Hr. destruct Hr as [H1 H2].
  apply refs_ok_iff. split.
  - intros s Hin. simpl in Hin. apply in_map_iff in Hin.
    destruct Hin as (s0 & <- & Hin0).
    destruct (H1 s0 Hin0) as (c & Hsc & Hhc).
    destruct (opt_is (s_category_id s0) cid) eqn:Ho.
    + exists (c_id c0). split; [reflexivity |].
      apply Hkeep; [congruence | now apply in_has_category].
    + exists c. split; [exact Hsc |]. apply Hkeep; [| exact Hhc].
      intros ->. rewrite Hsc in Ho. simpl in Ho. rewrite Z.eqb_refl in Ho.
      discriminate.
  - intros t Hin. simpl in Hin. destruct (H2 t Hin) as [Ha Hb]. split.
    + unfold has_store in *. simpl. rewrite existsb_map_same; [exact Ha |].
      intros s. destruct (opt_is (s_category_id s) cid); reflexivity.
    + exact Hb.
Qed.

(** X12.  Deleting a category loses no amount.  In a store with distinct
    keys whose references hold, after [delete_category] on a category other
    than the default one, over any scope of transactions: the deleted
    category has sum zero, the default category has its former sum plus
    that of the deleted category, and every other category has the sum it
    had; no transaction is touched. *)
Theorem delete_category_moves_its_sum
        (d : db) (default cid : Z) (scope : transaction_row -> bool) :
  keys_ok d = true ->
  refs_ok d = true ->
  fst (get_default_category_id d) = Ok default ->
  cid <> default ->
  transactions (snd (delete_category cid d)) = transactions d
  /\ category_total scope (snd (delete_category cid d)) cid = 0
  /\ category_total scope (snd (delete_category cid d)) default
     = category_total scope d default + category_total scope d cid
  /\ (forall k, k <> cid -> k <> default ->
                category_total scope (snd (delete_category cid d)) k
                = category_total scope d k).
Proof.
  intros Hk Hr Hdef Hne.
  destruct (get_default_category_id_found d Hdef) as (c0 & Hfind & Hcid & Hg).
  assert (Hneb : (cid =? default) = false) by now apply Z.eqb_neq.
  assert (Hd' : snd (delete_category cid d)
                = remove_category cid (move_stores cid default d)).
  { unfold delete_category, bind. rewrite Hg, Hneb. reflexivity. }
  pose proof (find_some _ _ Hfind) as [Hc0 Hname].
  assert (Hk' : keys_ok (snd (delete_category cid d)) = true).
  { apply (@delete_category_consistent cid d). split; [exact Hk |].
    unfold has_category_named. apply existsb_exists. now exists c0. }
  assert (Hr' : refs_ok (snd (delete_category cid d)) = true).
  { rewrite Hd', <- Hcid. apply delete_category_refs_ok; congruence. }
  rewrite !(category_total_by_store _ scope _ Hk' Hr').
  rewrite !(category_total_by_store _ scope _ Hk Hr).
  rewrite Hd'. cbn [remove_category move_stores transactions].
  split; [reflexivity |]. split; [| split].
  - rewrite filter_none; [reflexivity |].
    intros t. rewrite store_category_id_after_delete.
    destruct (scope t); [| reflexivity]. cbn [andb].
    destruct (store_category_id d (t_store_id t)) as [c |]; [| reflexivity].
    destruct (c =? cid) eqn:Hc; cbn [opt_is]; [now apply Z.eqb_neq, not_eq_sym |].
    exact Hc.
  - rewrite <- total_filter_or.
    + f_equal. f_equal. apply filter_ext. intros t.
      rewrite store_category_id_after_delete.
      destruct (scope t); [| reflexivity]. cbn [andb].
      destruct (store_category_id d (t_store_id t)) as [c |]; [| reflexivity].
      cbn [opt_is]. destruct (c =? cid) eqn:Hc; cbn [opt_is].
      * rewrite Z.eqb_refl. now rewrite orb_true_r.
      * now rewrite orb_false_r.
    + intros t. destruct (scope t); [| reflexivity]. cbn [andb].
      destruct (store_category_id d (t_store_id t)) as [c |]; [| reflexivity].
      cbn [opt_is]. destruct (c =? default) eqn:H1; [| reflexivity].
      apply Z.eqb_eq in H1. subst c. cbn [andb]. apply Z.eqb_neq.
      congruence.
  - intros k Hk1 Hk2. rewrite <- Hd'.
    rewrite (category_total_by_store _ scope k Hk' Hr').
    rewrite (category_total_by_store _ scope k Hk Hr).
    rewrite Hd'. cbn [remove_category move_stores transactions].
    f_equal. f_equal. apply filter_ext. intros t.
    rewrite store_category_id_after_delete.
    destruct (scope t); [| reflexivity]. cbn [andb].
    destruct (store_category_id d (t_store_id t)) as [c |]; [| reflexivity].
    cbn [opt_is]. destruct (c =? cid) eqn:Hc; cbn [opt_is]; [| reflexivity].
    apply Z.eqb_eq in Hc. subst c.
    assert (H1 : (default =? k) = false) by (apply Z.eqb_neq; congruence).
    assert (H2 : (cid =? k) = false) by (apply Z.eqb_neq; congruence).
    now rewrite H1, H2.
Qed.

Lemma delete_category_moves_its_sum_witness :
  let d := run
             [AddCategory (T "Comida"); AddStatement 3 2024 (T "VISA") [] (T "a.pdf");
              AddTransactions 2
                [mkTransaction (Date 2024 3 5) (T "LA FLOR") 958329 (Some 3);
                 mkTransaction (Date 2024 3 9) (T "market") (-1000) None];
              UpdateStoreCategory 1 2]
             (init empty_db) in
  keys_ok d = true /\ refs_ok d = true
  /\ fst (get_default_category_id d) = Ok 1 /\ 2 <> 1
  /\ category_total (in_statement 2) d 1 = -1000
  /\ category_total (in_statement 2) d 2 = 958329
  /\ category_total (in_statement 2) (snd (delete_category 2 d)) 1
     = category_total (in_statement 2) d 1 + category_total (in_statement 2) d 2.
Proof.
  set (d := run
             [AddCategory (T "Comida"); AddStatement 3 2024 (T "VISA") [] (T "a.pdf");
              AddTransactions 2
                [mkTransaction (Date 2024 3 5) (T "LA FLOR") 958329 (Some 3);
                 mkTransaction (Date 2024 3 9) (T "market") (-1000) None];
              UpdateStoreCategory 1 2]
             (init empty_db)).
  assert (H1 : keys_ok d = true) by (vm_compute; reflexivity).
  assert (H2 : refs_ok d = true) by (vm_compute; reflexivity).
  assert (H3 : fst (get_default_category_id d) = Ok 1) by (vm_compute; reflexivity).
  assert (H4 : 2 <> 1) by lia.
  cbv zeta. split; [exact H1 |]. split; [exact H2 |]. split; [exact H3 |].
  split; [exact H4 |].
  split; [vm_compute; reflexivity |]. split; [vm_compute; reflexivity |].
  exact (proj1 (proj2 (proj2 (delete_category_moves_its_sum d (in_statement 2)
                                                            H1 H2 H3 H4)))).
Defined.


(** *** Reading back the category of a merchant *)

Lemma store_category_rows_single (d : db) (s0 : store_row) (c0 : category_row) :
  keys_ok d = true ->
  In s0 (stores d) -> In c0 (categories d) ->
  s_category_id s0 = Some (c_id c0) ->
  store_category_rows (s_id s0) d = [(c_id c0, c_name c0)].
Proof.
  intros Hk Hs Hc Hcat.
  unfold keys_ok in Hk. apply andb_true_iff in Hk. destruct Hk as [Hks Hkc].
  unfold store_category_rows.
  rewrite (flat_map_unique s_id (fun s => s_id s =? s_id s0)
             (fun s => flat_map (fun c => if opt_is (s_category_id s) (c_id c)
                                          then [(c_id c, c_name c)] else [])
                                (categories d))
             (v := s_id s0) (stores d) s0); try assumption; try reflexivity.
  - rewrite (flat_map_unique c_id (fun c => opt_is (s_category_id s0) (c_id c))
               (fun c => [(c_id c, c_name c)]) (v := c_id c0) (categories d) c0);
      try assumption; try reflexivity.
    intros y. rewrite Hcat. simpl. rewrite Z.eqb_eq. split; congruence.
  - intros y. now rewrite Z.eqb_eq.
Qed.

(** X13.  What [update_store_category] writes, [get_store_category] reads
    back: in a store with distinct keys, after pointing an existing merchant
    at an existing category, the lookup of that merchant returns the id and
    the name of that category, not the fallback. *)
Theorem reassigned_category_is_read_back (d : db) (sid : Z) (c : category_row) :
  keys_ok d = true ->
  has_store sid d = true ->
  In c (categories d) ->
  fst (update_store_category sid (c_id c) d) = Ok tt
  /\ get_store_category sid (snd (update_store_category sid (c_id c) d))
     = (Ok (c_id c, c_name c), snd (update_store_category sid (c_id c) d)).
Proof.
  intros Hk Hs Hc.
  pose proof (in_has_category c d Hc) as Hhc.
  destruct (has_store_in sid d Hs) as (s0 & Hs0 & Hid).
  unfold update_store_category. rewrite Hs, Hhc. cbn [negb andb fst snd].
  split; [reflexivity |].
  set (d' := mkDb (categories d)
                  (map (fun s => if s_id s =? sid
                                 then mkStore (s_id s) (s_name s) (Some (c_id c))
                                 else s) (stores d))
                  (statements d) (transactions d) (seq_categories d)
                  (seq_stores d) (seq_statements d) (seq_transactions d)).
  assert (Hk' : keys_ok d' = true).
  { unfold keys_ok in *. simpl. rewrite distinct_map_ids; [exact Hk |].
    intros s. destruct (s_id s =? sid); reflexivity. }
  assert (Hs' : In (mkStore (s_id s0) (s_name s0) (Some (c_id c))) (stores d')).
  { simpl. apply in_map_iff. exists s0. split; [| exact Hs0].
    apply Z.eqb_eq in Hid. now rewrite Hid. }
  unfold get_store_category.
  pose proof (store_category_rows_single d' _ c Hk' Hs' Hc eq_refl) as Hrows.
  cbn [s_id] in Hrows. rewrite Hid in Hrows. rewrite Hrows. reflexivity.
Qed.

Lemma reassigned_category_is_read_back_witness :
  let d := run [AddCategory (T "Comida"); GetStoreId (T "market")] (init empty_db) in
  keys_ok d = true /\ has_store 1 d = true
  /\ In (mkCategory 2 (T "Comida")) (categories d)
  /\ fst (get_store_category 1 (snd (update_store_category 1 2 d)))
     = Ok (2, T "Comida").
Proof.
  set (d := run [AddCategory (T "Comida"); GetStoreId (T "market")] (init empty_db)).
  assert (H1 : keys_ok d = true) by (vm_compute; reflexivity).
  assert (H2 : has_store 1 d = true) by (vm_compute; reflexivity).
  assert (H3 : In (mkCategory 2 (T "Comida")) (categories d))
    by (vm_compute; right; left; reflexivity).
  cbv zeta. split; [exact H1 |]. split; [exact H2 |]. split; [exact H3 |].
  pose proof (proj2 (reassigned_category_is_read_back d 1 _ H1 H2 H3)) as H.
  cbn [c_id c_name] in H. now rewrite H.
Defined.

(** X14.  A merchant seen for the first time is filed under the default
    category: in a store with distinct keys and a default category, the id
    [get_store_id] returns for a new name is larger than every id in use,
    and [get_store_category] on it finds the default category by the join,
    under the name ["NO ASIGNADA"]. *)
Theorem new_merchant_is_filed_under_default (d : db) (name : text) (default : Z) :
  keys_ok d = true ->
  fst (get_default_category_id d) = Ok default ->
  find (fun s => text_eqb (s_name s) name) (stores d) = None ->
  exists i d1,
    get_store_id name d = (Ok i, d1)
    /\ (forall s, In s (stores d) -> s_id s < i)
    /\ store_category_rows i d1 = [(default, NO_ASIGNADA)]
    /\ get_store_category i d1 = (Ok (default, NO_ASIGNADA), d1).
Proof.
  intros Hk Hdef Hmiss.
  destruct (get_default_category_id_found d Hdef) as (c0 & Hfind & Hcid & Hg).
  pose proof (find_some _ _ Hfind) as [Hc0 Hname].
  apply text_eqb_eq in Hname.
  exists (fst (insert_store name default d)), (snd (insert_store name default d)).
  assert (Hfresh : forall s, In s (stores d) -> s_id s < fst (insert_store name default d)).
  { intros s Hin. unfold insert_store. cbn [fst].
    apply next_id_fresh. now apply in_map. }
  assert (Hk' : keys_ok (snd (insert_store name default d)) = true).
  { unfold keys_ok in *. apply andb_true_iff in Hk. destruct Hk as [Hks Hkc].
    unfold insert_store. cbn [snd stores categories].
    rewrite Hkc, andb_true_r, map_app. cbn [map s_id].
    apply distinct_app_fresh; [exact Hks |].
    intros x Hx. now apply next_id_fresh. }
  assert (Hrows : store_category_rows (fst (insert_store name default d))
                                      (snd (insert_store name default d))
                  = [(default, NO_ASIGNADA)]).
  { pose proof (store_category_rows_single
                  (snd (insert_store name default d))
                  (mkStore (fst (insert_store name default d)) name (Some default))
                  c0 Hk') as Hrow.
    cbn [s_id s_category_id] in Hrow. rewrite Hcid, Hname in Hrow.
    apply Hrow.
    - unfold insert_store. cbn [snd stores fst]. apply in_or_app. right. now left.
    - exact Hc0.
    - reflexivity. }
  split; [| split; [exact Hfresh | split; [exact Hrows |]]].
  - unfold get_store_id. rewrite Hmiss. unfold bind. rewrite Hg. reflexivity.
  - unfold get_store_category. rewrite Hrows. reflexivity.
Qed.

Lemma new_merchant_is_filed_under_default_witness :
  keys_ok (init empty_db) = true
  /\ fst (get_default_category_id (init empty_db)) = Ok 1
  /\ exists i d1,
       get_store_id (T "market") (init empty_db) = (Ok i, d1)
       /\ get_store_category i d1 = (Ok (1, NO_ASIGNADA), d1).
Proof.
  assert (H1 : keys_ok (init empty_db) = true) by (vm_compute; reflexivity).
  assert (H2 : fst (get_default_category_id (init empty_db)) = Ok 1)
    by (vm_compute; reflexivity).
  assert (H3 : find (fun s => text_eqb (s_name s) (T "market"))
                    (stores (init empty_db)) = None)
    by (vm_compute; reflexivity).
  split; [exact H1 |]. split; [exact H2 |].
  destruct (new_merchant_is_filed_under_default (init empty_db) (T "market") H1 H2 H3)
    as (i & d1 & Ha & _ & _ & Hb).
  exists i, d1. split; assumption.
Defined.


(** *** Opening the store *)

Lemma existsb_gives_find (A : Type) (p : A -> bool) (l : list A) :
  existsb p l = true -> exists x, find p l = Some x /\ In x l.
Proof.
  induction l as [| a r IH]; simpl; [discriminate |].
  destruct (p a) eqn:Ha; intros H.
  - exists a. split; [reflexivity | now left].
  - destruct (IH H) as (x & Hx & Hin). exists x. split; [exact Hx | now right].
Qed.





(** *** Storing the lines of a statement *)

Lemma get_store_id_returns (name : text) (d : db) (default : Z) :
  fst (get_default_category_id d) = Ok default ->
  exists s d1,
    get_store_id name d = (Ok (s_id s), d1)
    /\ find (fun s => text_eqb (s_name s) name) (stores d1) = Some s
    /\ categories d1 = categories d
    /\ statements d1 = statements d
    /\ transactions d1 = transactions d.
Proof.
  intros Hdef.
  destruct (get_default_category_id_found d Hdef) as (c0 & _ & _ & Hg).
  destruct (find (fun s => text_eqb (s_name s) name) (stores d)) as [s |] eqn:E.
  - exists s, d. rewrite (@get_store_id_hit name s d E). repeat split; assumption.
  - exists (mkStore (fst (insert_store name default d)) name (Some default)),
           (snd (insert_store name default d)).
    split; [| split; [| repeat split]].
    + unfold get_store_id. rewrite E. unfold bind. rewrite Hg. reflexivity.
    + unfold insert_store. cbn [snd stores fst].
      apply find_app_new; [exact E |]. cbn [s_name]. apply text_eqb_refl.
Qed.

Lemma same_categories_same_default (d d' : db) :
  categories d' = categories d ->
  get_default_category_id d' = (fst (get_default_category_id d), d').
Proof.
  intros H. unfold get_default_category_id. rewrite H.
  destruct (find _ (categories d)); reflexivity.
Qed.



(** X17.  [add_transactions] on a statement id the table does not hold.
    The id and the instalment number of the first line are integers
    [sqlite3] binds (64 bits; any other is an [OverflowError] of the
    [execute]).  The first insert violates the foreign key, so the call
    fails with [IntegrityError] and no transaction is stored, whatever the
    lines; but the merchant of the first line has been resolved before the
    insert, and a merchant that was new stays in the table. *)
Theorem add_transactions_unknown_statement
        (sid default : Z) (t : Transaction) (r : list Transaction) (d : db) :
  ExpenseApp.fits_integer sid = true ->
  (forall n, installment_number t = Some n -> ExpenseApp.fits_integer n = true) ->
  fst (get_default_category_id d) = Ok default ->
  has_statement sid d = false ->
  exists i d',
    add_transactions sid (t :: r) d = (Raise IntegrityError, d')
    /\ transactions d' = transactions d
    /\ get_store_id (store_name t) d = (Ok i, d')
    /\ has_store i d' = true.
Proof.
  intros _ _ Hdef Hst.
  destruct (@get_store_id_returns (store_name t) d default Hdef)
    as (s & d1 & Hget & Hfind & Hc1 & Hs1 & Ht1).
  exists (s_id s), d1.
  assert (Hst1 : has_statement sid d1 = false).
  { unfold has_statement in *. now rewrite Hs1. }
  split; [| split; [exact Ht1 | split; [exact Hget |]]].
  - cbn [add_transactions]. unfold bind at 1. rewrite Hget.
    unfold bind at 1. unfold insert_transaction. rewrite Hst1. reflexivity.
  - apply in_has_store. exact (proj1 (find_some _ _ Hfind)).
Qed.

Lemma add_transactions_unknown_statement_witness :
  ExpenseApp.fits_integer 7 = true
  /\ fst (get_default_category_id (init empty_db)) = Ok 1
  /\ has_statement 7 (init empty_db) = false
  /\ exists i d',
       add_transactions 7 [mkTransaction (Date 2024 3 14) (T "market") (-1000) None]
                        (init empty_db)
       = (Raise IntegrityError, d')
       /\ transactions d' = []
       /\ has_store i d' = true.
Proof.
  assert (H0 : ExpenseApp.fits_integer 7 = true) by (vm_compute; reflexivity).
  assert (H1 : fst (get_default_category_id (init empty_db)) = Ok 1)
    by (vm_compute; reflexivity).
  assert (H2 : has_statement 7 (init empty_db) = false) by (vm_compute; reflexivity).
  assert (H3 : forall n,
             installment_number
               (mkTransaction (Date 2024 3 14) (T "market") (-1000) None) = Some n ->
             ExpenseApp.fits_integer n = true) by (intros n Hn; discriminate Hn).
  split; [exact H0 |]. split; [exact H1 |]. split; [exact H2 |].
  destruct (@add_transactions_unknown_statement 7 1
              (mkTransaction (Date 2024 3 14) (T "market") (-1000) None) [] _
              H0 H3 H1 H2)
    as (i & d' & Ha & Hb & _ & Hc).
  exists i, d'. split; [exact Ha |]. split; [exact Hb | exact Hc].
Defined.


(** *** Deleting a statement *)





(** *** Loading a statement *)

Lemma get_store_id_rest (name : text) (d : db) :
  statements (snd (get_store_id name d)) = statements d
  /\ transactions (snd (get_store_id name d)) = transactions d
  /\ categories (snd (get_store_id name d)) = categories d.
Proof.
  unfold get_store_id.
  destruct (find _ (stores d)); [repeat split |].
  unfold bind, get_default_category_id.
  destruct (find _ (categories d)); repeat split.
Qed.

Lemma insert_transaction_rest (sid : Z) (dt : date) (store_id amt : Z)
      (inst : option Z) (d : db) :
  statements (snd (insert_transaction sid dt store_id amt inst d)) = statements d
  /\ categories (snd (insert_transaction sid dt store_id amt inst d)) = categories d.
Proof.
  unfold insert_transaction.
  destruct (has_statement sid d && has_store store_id d); split; reflexivity.
Qed.

Lemma add_transactions_rest (sid : Z) (txs : list Transaction) :
  forall d,
    statements (snd (add_transactions sid txs d)) = statements d
    /\ categories (snd (add_transactions sid txs d)) = categories d.
Proof.
  induction txs as [| t r IH]; intros d; [split; reflexivity |].
  cbn [add_transactions]. unfold bind.
  destruct (get_store_id_rest (store_name t) d) as (Hs & _ & Hc).
  destruct (get_store_id (store_name t) d) as [[i | e] d1];
    cbn [snd] in Hs, Hc |- *; [| split; assumption].
  destruct (insert_transaction_rest sid (tx_date t) i (amount t)
                                    (installment_number t) d1) as (Hs2 & Hc2).
  destruct (insert_transaction sid (tx_date t) i (amount t)
                               (installment_number t) d1) as [[u | e] d2];
    cbn [snd] in Hs2, Hc2 |- *.
  - destruct (IH d2) as (Hs3 & Hc3). split; congruence.
  - split; congruence.
Qed.

Lemma add_transactions_appends (sid default : Z) (txs : list Transaction) :
  forall d,
    fst (get_default_category_id d) = Ok default ->
    has_statement sid d = true ->
    exists d' rows,
      add_transactions sid txs d = (Ok tt, d')
      /\ transactions d' = transactions d ++ rows
      /\ Forall (fun row => t_statement_id row = sid) rows
      /\ map t_amount rows = map amount txs.
Proof.
  induction txs as [| t r IH]; intros d Hdef Hst.
  - exists d, []. cbn [add_transactions]. unfold ret.
    rewrite app_nil_r. repeat split; constructor.
  - destruct (@get_store_id_returns (store_name t) d default Hdef)
      as (s & d1 & Hget & Hfind & Hc1 & Hs1 & Ht1).
    assert (Hhs : has_store (s_id s) d1 = true).
    { apply in_has_store. exact (proj1 (find_some _ _ Hfind)). }
    assert (Hst1 : has_statement sid d1 = true).
    { unfold has_statement in *. now rewrite Hs1. }
    set (row := mkRow (next_id (seq_transactions d1) (map t_id (transactions d1)))
                      sid (tx_date t) (s_id s) (amount t) (installment_number t)).
    set (d2 := mkDb (categories d1) (stores d1) (statements d1)
                    (transactions d1 ++ [row])
                    (seq_categories d1) (seq_stores d1) (seq_statements d1)
                    (t_id row)).
    assert (Hins : insert_transaction sid (tx_date t) (s_id s) (amount t)
                                      (installment_number t) d1 = (Ok tt, d2)).
    { unfold insert_transaction. rewrite Hst1, Hhs. reflexivity. }
    assert (Hdef2 : fst (get_default_category_id d2) = Ok default).
    { rewrite (@same_categories_same_default d d2 Hc1). exact Hdef. }
    destruct (IH d2 Hdef2 Hst1) as (d' & rows & Hrun & Htx & Hall & Hamt).
    exists d', (row :: rows).
    split; [| split; [| split]].
    + cbn [add_transactions]. unfold bind at 1. rewrite Hget.
      unfold bind at 1. rewrite Hins. exact Hrun.
    + rewrite Htx. cbn [d2 transactions]. rewrite Ht1, <- app_assoc. reflexivity.
    + constructor; [reflexivity | exact Hall].
    + cbn [map]. now rewrite Hamt.
Qed.

Lemma distinct_app_apart (a b : list Z) (x : Z) :
  distinct (a ++ b) = true -> In x a -> In x b -> False.
Proof.
  induction a as [| y r IH]; intros Hd Ha Hb; [destruct Ha |].
  cbn [app distinct] in Hd. apply andb_true_iff in Hd. destruct Hd as [Hy Hr].
  destruct Ha as [-> | Ha]; [| now apply IH].
  apply negb_true_iff in Hy.
  assert (Hex : existsb (Z.eqb x) (r ++ b) = true).
  { apply existsb_exists. exists x. split; [apply in_or_app; now right |].
    apply Z.eqb_refl. }
  congruence.
Qed.

Lemma rows_of_grown (d d' : db) (e : list store_row) (t : transaction_row) :
  categories d' = categories d ->
  stores d' = stores d ++ e ->
  keys_ok d' = true ->
  has_store (t_store_id t) d = true ->
  rows_of d' t = rows_of d t.
Proof.
  intros Hc Hs Hk Ht.
  unfold keys_ok in Hk. apply andb_true_iff in Hk. destruct Hk as [Hk _].
  rewrite Hs, map_app in Hk.
  destruct (has_store_in _ d Ht) as (s0 & Hs0 & Hid).
  unfold rows_of. rewrite Hs, flat_map_app.
  rewrite (flat_map_none (fun s => s_id s =? t_store_id t)
                         (fun s => category_rows_of d' s (t_amount t)) e).
  - rewrite app_nil_r. apply flat_map_ext. intros s.
    unfold category_rows_of. now rewrite Hc.
  - intros s Hin. apply Z.eqb_neq. intros Heq.
    apply (@distinct_app_apart (map s_id (stores d)) (map s_id e) (s_id s0) Hk).
    + now apply in_map.
    + rewrite Hid, <- Heq. now apply in_map.
Qed.

Lemma flat_map_same_on (A B : Type) (f g : A -> list B) (l : list A) :
  (forall x, In x l -> f x = g x) -> flat_map f l = flat_map g l.
Proof.
  induction l as [| a r IH]; intros H; [reflexivity |].
  cbn [flat_map]. rewrite (H a) by now left.
  rewrite IH; [reflexivity |]. intros x Hx. apply H. now right.
Qed.

Lemma filter_none_on (A : Type) (p : A -> bool) (l : list A) :
  (forall x, In x l -> p x = false) -> filter p l = [].
Proof.
  induction l as [| y r IH]; intros H; [reflexivity |].
  cbn [filter]. rewrite (H y) by now left.
  apply IH. intros x Hx. apply H. now right.
Qed.

Lemma new_statement_id_unused (d : db) :
  has_statement (next_id (seq_statements d) (map st_id (statements d))) d = false.
Proof.
  destruct (has_statement _ d) eqn:E; [| reflexivity].
  destruct (has_statement_in _ d E) as (s & Hin & Hid).
  pose proof (@next_id_fresh (seq_statements d) (map st_id (statements d)) (st_id s)
                             (in_map st_id _ _ Hin)).
  lia.
Qed.

(** X19.  What a successful [load_statement] stores and what the chart then
    shows.  In a state with distinct keys, the default category and valid
    references (every state the program reaches), when no statement has the
    period and card name typed and the file parses to lines of which at
    least one has a day the period has: the user is told the number of
    transactions kept by the period substitution; one statement is added,
    under an id no statement had, with the stripped card name and the file
    path; whatever the engine, the amounts over which the category sums of
    the new statement are taken are, all categories together, the amounts
    of the transactions kept, each as often as it occurs; and the category
    sums of every other statement are what they were. *)
Theorem load_statement_stores_what_it_reports
        (today_year month year : Z) (cn file_path : text) (lines : list text)
        (txs : list Transaction) (d : db) :
  consistent d -> sound d ->
  cn <> [] ->
  ExpenseApp.fits_integer month && ExpenseApp.fits_integer year = true ->
  existsb (same_statement_key month year (strip cn) []) (statements d) = false ->
  PDFParser.parse_lines today_year lines = inr txs ->
  ExpenseApp.adjusted year month txs <> [] ->
  exists sid d',
    ExpenseApp.load_statement today_year month year cn file_path lines d
    = (ExpenseApp.Loaded (length (ExpenseApp.adjusted year month txs)), d')
    /\ has_statement sid d = false
    /\ statements d'
       = statements d ++ [mkStatement sid month year (strip cn) [] (Some file_path)]
    /\ (forall E : engine,
           fst (get_category_sums E sid d')
           = Ok (map (fun g => (g_name g, SUM E (g_amounts g)))
                     (category_sum_groups E (in_statement sid) d'))
           /\ Permutation
                (flat_map g_amounts (category_sum_groups E (in_statement sid) d'))
                (map amount (ExpenseApp.adjusted year month txs)))
    /\ (forall (E : engine) k,
           k <> sid ->
           fst (get_category_sums E k d') = fst (get_category_sums E k d)).
Proof.
  intros Hcons Hsound Hcn Hfit Hnew Hparse Hadj.
  set (adj := ExpenseApp.adjusted year month txs) in *.
  set (sid := next_id (seq_statements d) (map st_id (statements d))).
  set (st := mkStatement sid month year (strip cn) [] (Some file_path)).
  set (d1 := mkDb (categories d) (stores d) (statements d ++ [st]) (transactions d)
                  (seq_categories d) (seq_stores d) sid (seq_transactions d)).
  assert (Hadd : add_statement month year (strip cn) [] file_path d = (Ok sid, d1)).
  { unfold add_statement. rewrite Hnew. reflexivity. }
  assert (Hfresh : has_statement sid d = false) by apply new_statement_id_unused.
  assert (Hcons1 : consistent d1).
  { pose proof (step_consistent (AddStatement month year (strip cn) [] file_path) Hcons)
      as H. cbn [step] in H. now rewrite Hadd in H. }
  assert (Hsound1 : sound d1).
  { pose proof (step_sound (AddStatement month year (strip cn) [] file_path) Hsound)
      as H. cbn [step] in H. now rewrite Hadd in H. }
  assert (Hdef : exists default, fst (get_default_category_id d1) = Ok default).
  { destruct Hcons1 as [_ Hn].
    destruct (@existsb_gives_find _ _ _ Hn) as (c & Hfind & _).
    exists (c_id c). unfold get_default_category_id. now rewrite Hfind. }
  destruct Hdef as (default & Hdef).
  assert (Hst1 : has_statement sid d1 = true).
  { unfold has_statement. cbn [d1 statements]. rewrite existsb_app.
    cbn [existsb st st_id]. now rewrite Z.eqb_refl, orb_true_r. }
  destruct (@add_transactions_appends sid default adj d1 Hdef Hst1)
    as (d' & rows & Hrun & Htx & Hall & Hamt).
  destruct (add_transactions_rest sid adj d1) as (Hstm & Hcat).
  destruct (add_transactions_stores sid adj d1) as (e & Hstores).
  rewrite Hrun in Hstm, Hcat, Hstores. cbn [snd] in Hstm, Hcat, Hstores.
  assert (Hcons' : consistent d').
  { pose proof (step_consistent (AddTransactions sid adj) Hcons1) as H.
    cbn [step] in H. now rewrite Hrun in H. }
  assert (Hsound' : sound d').
  { pose proof (step_sound (AddTransactions sid adj) Hsound1) as H.
    cbn [step] in H. now rewrite Hrun in H. }
  destruct Hsound as (Hrefs & _). apply refs_ok_iff in Hrefs.
  destruct Hrefs as [_ Hrefs].
  exists sid, d'.
  split; [| split; [exact Hfresh | split; [exact Hstm | split]]].
  - unfold ExpenseApp.load_statement.
    destruct cn as [| c0 cn0]; [congruence |].
    rewrite Hfit. cbn [negb]. rewrite Hadd, Hparse. fold adj.
    destruct adj as [| a0 adj0] eqn:Eadj; [congruence |].
    now rewrite Hrun.
  - intros E. split; [reflexivity |].
    rewrite (@category_sum_groups_amounts E d' (in_statement sid)
               (proj1 Hcons') (proj1 Hsound')).
    rewrite Htx, filter_app, map_app.
    rewrite (@filter_none_on _ (in_statement sid) (transactions d1)).
    + assert (Hrows : filter (in_statement sid) rows = rows).
      { clear - Hall. induction Hall as [| r0 rs H0 _ IH]; [reflexivity |].
        cbn [filter]. unfold in_statement at 1. rewrite H0, Z.eqb_refl.
        now rewrite IH. }
      rewrite Hrows, Hamt. reflexivity.
    + intros t Ht. cbn [d1 transactions] in Ht.
      destruct (Hrefs t Ht) as [_ Hhas].
      unfold in_statement. destruct (t_statement_id t =? sid) eqn:Et; [| reflexivity].
      apply Z.eqb_eq in Et. rewrite Et in Hhas. congruence.
  - intros E k Hk. cbn [get_category_sums fst]. do 2 f_equal.
    unfold category_sum_groups. do 2 f_equal.
    unfold joined. rewrite Htx, flat_map_app.
    rewrite (flat_map_none (in_statement k) (rows_of d') rows).
    + rewrite app_nil_r. cbn [d1 transactions].
      apply flat_map_same_on. intros t Ht.
      destruct (Hrefs t Ht) as [Hhas _].
      rewrite (@rows_of_grown d d' e t Hcat Hstores (proj1 Hcons') Hhas).
      reflexivity.
    + intros y Hy. rewrite Forall_forall in Hall.
      unfold in_statement. rewrite (Hall y Hy). now apply Z.eqb_neq.
Qed.


Lemma load_statement_stores_what_it_reports_witness :
  let lines := [T "05/03 SUPERMERCADO * LA FLOR C.03/06 9.583,29";
                T "31/01 market 10,00"] in
  consistent (init empty_db) /\ sound (init empty_db)
  /\ exists sid d',
       ExpenseApp.load_statement 2026 4 2024 (T " VISA ") (T "a.pdf") lines
                                 (init empty_db)
       = (ExpenseApp.Loaded 1, d')
       /\ fst (get_category_sums exact_engine sid d') = Ok [(NO_ASIGNADA, 958329)].
Proof.
  cbv zeta.
  set (lines := [T "05/03 SUPERMERCADO * LA FLOR C.03/06 9.583,29";
                 T "31/01 market 10,00"]).
  set (txs := [mkTransaction (Date 2026 3 5) (T "LA FLOR") 958329 (Some 3);
               mkTransaction (Date 2026 1 31) (T "market") 1000 None]).
  assert (H1 : consistent (init empty_db)) by (split; vm_compute; reflexivity).
  assert (H2 : sound (init empty_db)).
  { split; [vm_compute; reflexivity |]. split; simpl.
    - apply NoDup_cons; [intros H; exact H | apply NoDup_nil].
    - apply NoDup_nil. }
  assert (H3 : T " VISA " <> []) by (vm_compute; discriminate).
  assert (H4 : ExpenseApp.fits_integer 4 && ExpenseApp.fits_integer 2024 = true)
    by (vm_compute; reflexivity).
  assert (H5 : existsb (same_statement_key 4 2024 (strip (T " VISA ")) [])
                       (statements (init empty_db)) = false)
    by (vm_compute; reflexivity).
  assert (H6 : PDFParser.parse_lines 2026 lines = inr txs)
    by (vm_compute; reflexivity).
  assert (H7 : ExpenseApp.adjusted 2024 4 txs <> []) by (vm_compute; discriminate).
  split; [exact H1 |]. split; [exact H2 |].
  destruct (@load_statement_stores_what_it_reports
              2026 4 2024 (T " VISA ") (T "a.pdf") lines txs (init empty_db)
              H1 H2 H3 H4 H5 H6 H7)
    as (sid & d' & Hload & _ & _ & _ & _).
  exists 2, d'. split; [exact Hload |].
  vm_compute in Hload. injection Hload as <-. vm_compute. reflexivity.
Defined.

(** X20.  [load_statement] inserts the statement before it reads the file,
    and nothing takes it back.  Whatever the first call does with the file,
    the state it leaves holds a statement with the period and the stripped
    card name, so that every later [load_statement] for that period and
    card name, with any file, is refused and changes nothing.  In
    particular a file the parser fails on leaves a statement without
    transactions behind: the user is shown the parser's error, no
    transaction and no merchant is stored, and the period is taken. *)
Theorem load_statement_takes_the_period
        (today_year month year : Z) (cn file_path : text) (lines : list text)
        (d : db) :
  cn <> [] ->
  ExpenseApp.fits_integer month && ExpenseApp.fits_integer year = true ->
  let d1 := snd (ExpenseApp.load_statement today_year month year cn file_path
                                           lines d) in
  existsb (same_statement_key month year (strip cn) []) (statements d1) = true
  /\ (forall today_year2 cn2 file_path2 lines2,
         cn2 <> [] -> strip cn2 = strip cn ->
         ExpenseApp.load_statement today_year2 month year cn2 file_path2 lines2 d1
         = (ExpenseApp.StatementExists, d1))
  /\ (forall e,
         existsb (same_statement_key month year (strip cn) []) (statements d) = false ->
         PDFParser.parse_lines today_year lines = inl e ->
         fst (ExpenseApp.load_statement today_year month year cn file_path lines d)
         = ExpenseApp.ParserFailed
         /\ has_statement (next_id (seq_statements d) (map st_id (statements d))) d1
            = true
         /\ transactions d1 = transactions d
         /\ stores d1 = stores d).
Proof.
  intros Hcn Hfit. cbv zeta.
  assert (Hkey : existsb (same_statement_key month year (strip cn) [])
                         (statements
                            (snd (ExpenseApp.load_statement today_year month year cn
                                                            file_path lines d)))
                 = true).
  { unfold ExpenseApp.load_statement.
    destruct cn as [| c0 cn0]; [congruence |].
    rewrite Hfit. cbn [negb]. unfold add_statement.
    destruct (existsb _ (statements d)) eqn:E; [exact E |].
    cbn [insert_statement].
    set (st := mkStatement _ month year (strip (c0 :: cn0)) [] (Some file_path)).
    set (d1 := mkDb _ _ (statements d ++ [st]) _ _ _ _ _).
    assert (H1 : existsb (same_statement_key month year (strip (c0 :: cn0)) [])
                         (statements d1) = true).
    { cbn [d1 statements]. rewrite existsb_app. cbn [existsb].
      replace (same_statement_key month year (strip (c0 :: cn0)) [] st) with true.
      - now rewrite orb_true_r.
      - unfold same_statement_key, st. cbn [st_month st_year st_card_name st_last4digits].
        now rewrite !Z.eqb_refl, !text_eqb_refl. }
    destruct (PDFParser.parse_lines today_year lines) as [e | txs]; [exact H1 |].
    destruct (ExpenseApp.adjusted year month txs) as [| a0 adj0]; [exact H1 |].
    pose proof (proj1 (add_transactions_rest (next_id (seq_statements d)
                                                      (map st_id (statements d)))
                                             (a0 :: adj0) d1)) as Hst.
    destruct (add_transactions _ (a0 :: adj0) d1) as [[u | e] d2];
      cbn [snd] in Hst |- *; now rewrite Hst. }
  split; [exact Hkey | split].
  - intros today_year2 cn2 file_path2 lines2 Hcn2 Hstrip.
    unfold ExpenseApp.load_statement at 1.
    destruct cn2 as [| c2 r2]; [congruence |].
    rewrite Hfit. cbn [negb]. unfold add_statement. rewrite Hstrip, Hkey.
    reflexivity.
  - intros e Hnew Hparse.
    unfold ExpenseApp.load_statement.
    destruct cn as [| c0 cn0]; [congruence |].
    rewrite Hfit. cbn [negb]. unfold add_statement. rewrite Hnew.
    cbn [insert_statement]. rewrite Hparse. cbn [fst snd transactions stores].
    split; [reflexivity | split; [| split; reflexivity]].
    unfold has_statement. cbn [statements]. rewrite existsb_app.
    cbn [existsb st_id]. now rewrite Z.eqb_refl, orb_true_r.
Qed.

Lemma load_statement_takes_the_period_witness :
  T "VISA" <> []
  /\ ExpenseApp.fits_integer 2 && ExpenseApp.fits_integer 2024 = true
  /\ fst (ExpenseApp.load_statement 2024 2 2024 (T "VISA") (T "a.pdf")
                                    [T "30 Feb market 1.000,00-"] (init empty_db))
     = ExpenseApp.ParserFailed
  /\ fst (ExpenseApp.load_statement
            2024 2 2024 (T " VISA") (T "b.pdf") [T "05/02 market 10,00"]
            (snd (ExpenseApp.load_statement 2024 2 2024 (T "VISA") (T "a.pdf")
                                            [T "30 Feb market 1.000,00-"]
                                            (init empty_db))))
     = ExpenseApp.StatementExists.
Proof.
  assert (H1 : T "VISA" <> []) by (vm_compute; discriminate).
  assert (H2 : ExpenseApp.fits_integer 2 && ExpenseApp.fits_integer 2024 = true)
    by (vm_compute; reflexivity).
  assert (H3 : existsb (same_statement_key 2 2024 (strip (T "VISA")) [])
                       (statements (init empty_db)) = false)
    by (vm_compute; reflexivity).
  assert (H4 : PDFParser.parse_lines 2024 [T "30 Feb market 1.000,00-"]
               = inl ValueError) by (vm_compute; reflexivity).
  assert (H5 : T " VISA" <> []) by (vm_compute; discriminate).
  assert (H6 : strip (T " VISA") = strip (T "VISA")) by (vm_compute; reflexivity).
  destruct (@load_statement_takes_the_period
              2024 2 2024 (T "VISA") (T "a.pdf") [T "30 Feb market 1.000,00-"]
              (init empty_db) H1 H2) as (_ & Hagain & Hfail).
  split; [exact H1 |]. split; [exact H2 |]. split.
  - exact (proj1 (Hfail ValueError H3 H4)).
  - now rewrite (Hagain 2024 (T " VISA") (T "b.pdf") [T "05/02 market 10,00"] H5 H6).
Defined.


(** *** Adding a category and taking it back *)

Lemma filter_keeps_on (A : Type) (p : A -> bool) (l : list A) :
  (forall x, In x l -> p x = true) -> filter p l = l.
Proof.
  induction l as [| y r IH]; intros H; [reflexivity |].
  cbn [filter]. rewrite (H y) by now left.
  rewrite IH; [reflexivity |]. intros x Hx. apply H. now right.
Qed.

Lemma fold_left_max_below (l : list Z) (a : Z) :
  (forall x, In x l -> x <= a) -> fold_left Z.max l a = a.
Proof.
  induction l as [| y r IH]; intros H; [reflexivity |].
  cbn [fold_left]. rewrite Z.max_l by (apply H; now left).
  apply IH. intros x Hx. apply H. now right.
Qed.

(** X21.  A category that is added and deleted again leaves the tables as
    they were, and its id is spent.  In a store whose references hold and
    that has the default category, for a name no category has:
    [add_category] succeeds and gives the category an id no category has;
    [delete_category] of that id succeeds and restores the categories, and
    leaves merchants, statements and transactions as they were before the
    category was added; a category added after that gets the next id, not
    the one set free. *)
Theorem add_then_delete_category (name : text) (d : db) (default : Z) :
  refs_ok d = true ->
  fst (get_default_category_id d) = Ok default ->
  has_category_named name d = false ->
  let cid := next_id (seq_categories d) (map c_id (categories d)) in
  let d1 := snd (add_category name d) in
  let d2 := snd (delete_category cid d1) in
  fst (add_category name d) = Ok tt
  /\ has_category cid d = false
  /\ categories d1 = categories d ++ [mkCategory cid name]
  /\ fst (delete_category cid d1) = Ok tt
  /\ categories d2 = categories d
  /\ stores d2 = stores d
  /\ statements d2 = statements d
  /\ transactions d2 = transactions d
  /\ forall name2,
       categories (snd (add_category name2 d2)) = categories d
       \/ categories (snd (add_category name2 d2))
          = categories d ++ [mkCategory (cid + 1) name2].
Proof.
  intros Hrefs Hdef Hnew. cbv zeta.
  set (cid := next_id (seq_categories d) (map c_id (categories d))).
  assert (Hlt : forall c, In c (categories d) -> c_id c < cid).
  { intros c Hc. apply next_id_fresh. now apply in_map. }
  assert (Hadd : add_category name d = (Ok tt, insert_category name d)).
  { unfold add_category. now rewrite Hnew. }
  rewrite Hadd. cbn [fst snd].
  destruct (get_default_category_id_found d Hdef) as (c0 & Hfind & Hcid & _).
  assert (Hdef1 : get_default_category_id (insert_category name d)
                  = (Ok default, insert_category name d)).
  { unfold get_default_category_id, insert_category. cbn [categories].
    rewrite (find_app_keep _ _ _ Hfind). now rewrite Hcid. }
  assert (Hne : (cid =? default) = false).
  { apply Z.eqb_neq. pose proof (Hlt c0 (proj1 (find_some _ _ Hfind))). lia. }
  assert (Hdel : delete_category cid (insert_category name d)
                 = (Ok tt, remove_category cid
                             (move_stores cid default (insert_category name d)))).
  { unfold delete_category, bind. rewrite Hdef1, Hne. reflexivity. }
  rewrite Hdel. cbn [fst snd].
  assert (Hcats : filter (fun c => negb (c_id c =? cid))
                         (categories d ++ [mkCategory cid name])
                  = categories d).
  { rewrite filter_app. cbn [filter c_id]. rewrite Z.eqb_refl. cbn [negb].
    rewrite app_nil_r. apply filter_keeps_on. intros c Hc.
    apply negb_true_iff, Z.eqb_neq. pose proof (Hlt c Hc). lia. }
  assert (Hstores : map (fun s => if opt_is (s_category_id s) cid
                                  then mkStore (s_id s) (s_name s) (Some default)
                                  else s) (stores d)
                    = stores d).
  { apply map_id_on. intros s Hs.
    apply refs_ok_iff in Hrefs. destruct Hrefs as [Hst _].
    destruct (Hst s Hs) as (c & Hc & Hhas). rewrite Hc. cbn [opt_is].
    destruct (has_category_in _ d Hhas) as (c1 & Hin & Hid).
    pose proof (Hlt c1 Hin).
    replace (c =? cid) with false; [reflexivity |].
    symmetry. apply Z.eqb_neq. lia. }
  split; [reflexivity |]. split.
  { destruct (has_category cid d) eqn:E; [| reflexivity].
    destruct (has_category_in _ d E) as (c1 & Hin & Hid).
    pose proof (Hlt c1 Hin). lia. }
  split; [reflexivity |]. split; [reflexivity |].
  split; [exact Hcats |]. split; [exact Hstores |].
  split; [reflexivity |]. split; [reflexivity |].
  intros name2.
  set (d2 := remove_category cid (move_stores cid default (insert_category name d))).
  assert (Hc2 : categories d2 = categories d) by exact Hcats.
  assert (Hq2 : seq_categories d2 = cid) by reflexivity.
  unfold add_category.
  destruct (has_category_named name2 d2); [left; exact Hc2 |].
  right. unfold insert_category. cbn [snd categories]. rewrite Hc2, Hq2.
  do 3 f_equal. unfold next_id at 1.
  rewrite fold_left_max_below; [lia |].
  intros x Hx. apply in_map_iff in Hx. destruct Hx as (c & <- & Hc).
  pose proof (Hlt c Hc). lia.
Qed.

Lemma add_then_delete_category_witness :
  refs_ok (init empty_db) = true
  /\ fst (get_default_category_id (init empty_db)) = Ok 1
  /\ has_category_named (T "Comida") (init empty_db) = false
  /\ categories (snd (delete_category 2 (snd (add_category (T "Comida") (init empty_db)))))
     = [mkCategory 1 NO_ASIGNADA].
Proof.
  assert (H1 : refs_ok (init empty_db) = true) by (vm_compute; reflexivity).
  assert (H2 : fst (get_default_category_id (init empty_db)) = Ok 1)
    by (vm_compute; reflexivity).
  assert (H3 : has_category_named (T "Comida") (init empty_db) = false)
    by (vm_compute; reflexivity).
  split; [exact H1 |]. split; [exact H2 |]. split; [exact H3 |].
  destruct (@add_then_delete_category (T "Comida") (init empty_db) 1 H1 H2 H3)
    as (_ & _ & _ & _ & Hc & _).
  exact Hc.
Defined.


End MoreStoreFacts.

(** * The period read off the file name *)

Section FileNameFacts.
Import Str ExpenseApp.
Open Scope Z_scope.

Lemma PERIOD_PATTERN_here_needs_digit (x : ascii) (s : text) :
  isdigit x = false -> PERIOD_PATTERN_here (x :: s) = None.
Proof.
  intros Hx. unfold PERIOD_PATTERN_here.
  destruct s as [| a [| b [| c r]]]; try reflexivity.
  now rewrite Hx.
Qed.

Lemma PERIOD_PATTERN_search_skips (pre s : text) :
  (forall x, In x pre -> isdigit x = false) ->
  PERIOD_PATTERN_search (pre ++ s) = PERIOD_PATTERN_search s.
Proof.
  induction pre as [| x r IH]; intros H; [reflexivity |].
  cbn [app PERIOD_PATTERN_search].
  rewrite PERIOD_PATTERN_here_needs_digit by (apply H; now left).
  apply IH. intros y Hy. apply H. now right.
Qed.

Lemma digit_in_space_to_underscore (c : ascii) :
  isdigit c = true -> in_space_to_underscore c = true.
Proof.
  unfold isdigit, in_space_to_underscore.
  rewrite !andb_true_iff, !N.leb_le. lia.
Qed.

(** X22.  The month and year [load_statement] proposes, read off the file
    name.  Ahead of the first digit of the name nothing matches, so with
    [pre] free of digits: a name without digits gives today's month and
    year; four digits, one character of the class [[ -_]] and two digits
    give the year and the month on both sides of that character, and the
    class being the range from the space to the underscore, the character
    may be any of these, a letter in upper case or a digit among them; four
    digits and two digits give that year and month when no third digit
    follows; when a third digit follows, the first of the three is taken
    for the separator, and the month is read from the other two. *)
Theorem default_period_of_file_name (today_month today_year : Z) (pre : text) :
  (forall x, In x pre -> isdigit x = false) ->
  default_period today_month today_year pre = (today_month, today_year)
  /\ forall y1 y2 y3 y4 m1 m2 rest,
      isdigit y1 && isdigit y2 && isdigit y3 && isdigit y4 = true ->
      isdigit m1 && isdigit m2 = true ->
      (forall c,
          in_space_to_underscore c = true ->
          default_period today_month today_year
                         (pre ++ [y1; y2; y3; y4; c; m1; m2] ++ rest)
          = (int [m1; m2], int [y1; y2; y3; y4]))
      /\ (match rest with [] => True | x :: _ => isdigit x = false end ->
          default_period today_month today_year
                         (pre ++ [y1; y2; y3; y4; m1; m2] ++ rest)
          = (int [m1; m2], int [y1; y2; y3; y4]))
      /\ (forall d1,
             isdigit d1 = true ->
             default_period today_month today_year
                            (pre ++ [y1; y2; y3; y4; m1; m2; d1] ++ rest)
             = (int [m2; d1], int [y1; y2; y3; y4])).
Proof.
  intros Hpre.
  assert (Hsep : forall y1 y2 y3 y4 c m1 m2 rest,
             isdigit y1 && isdigit y2 && isdigit y3 && isdigit y4 = true ->
             isdigit m1 && isdigit m2 = true ->
             in_space_to_underscore c = true ->
             default_period today_month today_year
                            (pre ++ [y1; y2; y3; y4; c; m1; m2] ++ rest)
             = (int [m1; m2], int [y1; y2; y3; y4])).
  { intros y1 y2 y3 y4 c m1 m2 rest Hy Hm Hc. unfold default_period.
    rewrite (PERIOD_PATTERN_search_skips pre _ Hpre).
    cbn [app PERIOD_PATTERN_search PERIOD_PATTERN_here two_digits].
    now rewrite Hy, Hc, Hm. }
  split.
  - unfold default_period.
    rewrite <- (app_nil_r pre), (PERIOD_PATTERN_search_skips pre [] Hpre).
    reflexivity.
  - intros y1 y2 y3 y4 m1 m2 rest Hy Hm.
    split; [| split].
    + intros c Hc. now apply Hsep.
    + intros Hrest. unfold default_period.
      rewrite (PERIOD_PATTERN_search_skips pre _ Hpre).
      cbn [app PERIOD_PATTERN_search PERIOD_PATTERN_here].
      rewrite Hy.
      assert (Hnone : (if in_space_to_underscore m1
                       then two_digits (m2 :: rest) else None) = None).
      { destruct (in_space_to_underscore m1); [| reflexivity].
        unfold two_digits. destruct rest as [| x r]; [reflexivity |].
        now rewrite Hrest, andb_false_r. }
      rewrite Hnone. cbn [two_digits]. now rewrite Hm.
    + intros d1 Hd1.
      apply andb_true_iff in Hm. destruct Hm as [Hm1 Hm2].
      apply (Hsep y1 y2 y3 y4 m1 m2 d1 rest Hy).
      * now rewrite Hm2, Hd1.
      * now apply digit_in_space_to_underscore.
Qed.

Lemma default_period_of_file_name_witness :
  (forall x, In x (T "visa_") -> isdigit x = false)
  /\ default_period 11 2026 (T "visa_2024-12.pdf") = (12, 2024)
  /\ default_period 11 2026 (T "visa_202412.pdf") = (12, 2024)
  /\ default_period 11 2026 (T "visa_20241231.pdf") = (23, 2024).
Proof.
  assert (H : forall x, In x (T "visa_") -> isdigit x = false).
  { intros x Hx. cbn in Hx.
    repeat (destruct Hx as [<- | Hx]; [reflexivity |]). destruct Hx. }
  split; [exact H |].
  destruct (default_period_of_file_name 11 2026 (T "visa_") H) as [_ Hp].
  split; [| split].
  - exact (proj1 (Hp "2" "0" "2" "4" "1" "2" (T ".pdf") eq_refl eq_refl)%char
                 "-"%char eq_refl).
  - exact (proj1 (proj2 (Hp "2" "0" "2" "4" "1" "2" (T ".pdf") eq_refl eq_refl)%char)
                 eq_refl).
  - exact (proj2 (proj2 (Hp "2" "0" "2" "4" "1" "2" (T "1.pdf") eq_refl eq_refl)%char)
                 "3"%char eq_refl).
Defined.

End FileNameFacts.
